(** * Names/download.ipynb: baby-name counts and SSA life tables

    A shallow embedding of the notebook's code cells.  Python strings are
    lists of code points, a data frame is a list of column labels with a
    list of rows, and every cell of the notebook is a computation in a
    state-and-exception monad over the kernel: the set of global names
    bound so far, the working directory, and the log of URLs requested.

    Library calls whose code is not part of the notebook (pandas' CSV
    reader, Python's [float], the HTTP client and the HTML table extractor)
    are variables of the section [Notebook]. *)

From Stdlib Require Import ZArith Lia Ascii String.
From stdpp Require Import base option list gmap sets strings pretty.

Local Open Scope Z_scope.
Set Warnings "-clear-no-such-hyp".
Set Default Proof Using "Type".

(** ** Python strings *)

Abbreviation str := (list N) (only parsing).

Definition py (s : string) : str := N_of_ascii <$> list_ascii_of_string s.

(** [s[i:j]] for non-negative literal bounds. *)
Definition slice (i j : nat) (s : str) : str := take (j - i) (drop i s).

(** [s.endswith(suf)] *)
Definition endswith (s suf : str) : bool :=
  bool_decide (drop (length s - length suf) s = suf).

(** [sep.join(parts)] *)
Fixpoint join (sep : str) (parts : list str) : str :=
  match parts with
  | [] => []
  | [p] => p
  | p :: ps => p ++ sep ++ join sep ps
  end.

(** [str(z)] for an int. *)
Definition str_of_int (z : Z) : str := py (pretty z).

(** Unicode white space, as [str.isspace] and the regex class [\s] on
    [str] patterns see it. *)
Definition Py_UNICODE_ISSPACE (c : N) : bool :=
  ((9 <=? c) && (c <=? 13) || (28 <=? c) && (c <=? 32) || (c =? 133) ||
   (c =? 160) || (c =? 5760) || (8192 <=? c) && (c <=? 8202) ||
   (c =? 8232) || (c =? 8233) || (c =? 8239) || (c =? 8287) ||
   (c =? 12288))%N.

(** ASCII white space, as the C-level integer parser skips it. *)
Definition Py_ISSPACE (c : N) : bool :=
  ((9 <=? c) && (c <=? 13) || (c =? 32))%N.

Definition nbsp : str := [160%N].
Definition LF : N := 10%N.
Definition COMMA : N := 44%N.

(** [re.sub('\n|,', '', x)] *)
Definition sub_newline_comma (x : str) : str :=
  filter (λ c, c ≠ LF ∧ c ≠ COMMA) x.

(** [re.sub('\n|\s', '', x)] *)
Definition sub_newline_space (x : str) : str :=
  filter (λ c, c ≠ LF ∧ Py_UNICODE_ISSPACE c = false) x.

(** ** Exceptions and results *)

Inductive exn :=
| NameError (name : str)
| ModuleNotFoundError (module : str)
| IndexError
| ValueError_int (literal : str)
| ValueError_float (literal : str)
| ValueError_shape (passed data : nat)
| ValueError_no_objects
| InvalidIndexError
| FileNotFoundError (path : str)
| IsADirectoryError (path : str)
| NotADirectoryError (path : str)
| LibraryError (what : str).

Inductive result (A : Type) :=
| Ok (a : A)
| Raise (e : exn).
Arguments Ok {A} a.
Arguments Raise {A} e.

(** ** The builtin [int] on a string

    The string is first folded to ASCII (Unicode white space becomes a
    blank, a Unicode decimal digit its ASCII digit), then parsed in base
    ten: blanks, an optional sign, digits with single underscores between
    them, blanks. *)

Definition is_digit (c : N) : bool := ((48 <=? c) && (c <=? 57))%N.

Section IntLiteral.
(** Decimal value of a non-ASCII code point, when it is a decimal digit. *)
Variable unicode_decimal : N → option N.

Definition fold_ascii (c : N) : option N :=
  if (c <? 128)%N then Some c
  else if Py_UNICODE_ISSPACE c then Some 32%N
  else d ← unicode_decimal c; Some (48 + d)%N.

Fixpoint skip_space (s : str) : str :=
  match s with
  | c :: s' => if Py_ISSPACE c then skip_space s' else s
  | [] => []
  end.

Fixpoint scan_digits (acc : Z) (prev_underscore : bool) (s : str)
  : option (Z * str) :=
  match s with
  | c :: s' =>
      if is_digit c then scan_digits (10 * acc + (Z.of_N c - 48)) false s'
      else if (c =? 95)%N then
        if prev_underscore then None else scan_digits acc true s'
      else if prev_underscore then None else Some (acc, s)
  | [] => if prev_underscore then None else Some (acc, [])
  end.

Definition parse_sign (s : str) : bool * str :=
  match s with
  | 43%N :: s' => (false, s')
  | 45%N :: s' => (true, s')
  | _ => (false, s)
  end.

Definition int_literal (s : str) : option Z :=
  a ← mapM fold_ascii s;
  let '(neg, body) := parse_sign (skip_space a) in
  match body with
  | c :: _ =>
      if is_digit c then
        '(v, rest) ← scan_digits 0 false body;
        if forallb Py_ISSPACE rest then Some (if neg then - v else v)
        else None
      else None
  | [] => None
  end.

(** [int(s)] *)
Definition py_int (s : str) : result Z :=
  match int_literal s with
  | Some z => Ok z
  | None => Raise (ValueError_int s)
  end.
End IntLiteral.

(** ** The working directory *)

#[warnings="-register-all"]
Inductive node :=
| File (compression : option str) (text : str)
| Dir (listing : list (str * node)).

(** ** The kernel and the monad of cell code *)

Record kernel := Kernel {
  globals : gset str;
  cwd : gmap str node;
  requested : list str
}.

Definition M (A : Type) : Type := kernel → result A * kernel.

Definition ret {A} (a : A) : M A := λ k, (Ok a, k).

Definition bind {A B} (m : M A) (f : A → M B) : M B :=
  λ k, match m k with
       | (Ok a, k') => f a k'
       | (Raise e, k') => (Raise e, k')
       end.

Notation "'let!' x ':=' m 'in' f" := (bind m (λ x, f))
  (at level 10, x name, m at level 200, f at level 200).
Notation "'do!' m 'in' f" := (bind m (λ _, f))
  (at level 10, m at level 200, f at level 200).

Definition raise {A} (e : exn) : M A := λ k, (Raise e, k).

Definition lift {A} (r : result A) : M A := λ k, (r, k).

(** Reading a global name. *)
Definition lookup_global (n : string) : M unit :=
  λ k, if decide (py n ∈ globals k) then (Ok tt, k)
       else (Raise (NameError (py n)), k).

(** Binding a global name (assignment, [def], [import], loop target). *)
Definition bind_global (n : string) : M unit :=
  λ k, (Ok tt, Kernel ({[py n]} ∪ globals k) (cwd k) (requested k)).

Definition get_cwd : M (gmap str node) := λ k, (Ok (cwd k), k).

Definition put_cwd (fs : gmap str node) : M unit :=
  λ k, (Ok tt, Kernel (globals k) fs (requested k)).

Definition log_request (url : str) : M unit :=
  λ k, (Ok tt, Kernel (globals k) (cwd k) (requested k ++ [url])).

(** A list comprehension whose element expression has effects. *)
Fixpoint comprehension {A B} (f : A → M B) (l : list A) : M (list B) :=
  match l with
  | [] => ret []
  | a :: l' =>
      let! b := f a in let! bs := comprehension f l' in ret (b :: bs)
  end.

(** ** Directory and file operations *)

(** [Path(path).iterdir()]: the listing, in the order the platform gives. *)
Definition iterdir (path : string) : M (list (str * node)) :=
  let! fs := get_cwd in
  match fs !! py path with
  | Some (Dir l) => ret l
  | Some (File _ _) => raise (NotADirectoryError (py path))
  | None => raise (FileNotFoundError (py path))
  end.

(** [os.remove(path)] *)
Definition os_remove (path : string) : M unit :=
  let! fs := get_cwd in
  match fs !! py path with
  | Some (File _ _) => put_cwd (delete (py path) fs)
  | Some (Dir _) => raise (IsADirectoryError (py path))
  | None => raise (FileNotFoundError (py path))
  end.

(** [shutil.rmtree(path)] *)
Definition shutil_rmtree (path : string) : M unit :=
  let! fs := get_cwd in
  match fs !! py path with
  | Some (Dir _) => put_cwd (delete (py path) fs)
  | Some (File _ _) => raise (NotADirectoryError (py path))
  | None => raise (FileNotFoundError (py path))
  end.

(** Writing [text] to [path] in the working directory. *)
Definition write_file (path : string) (compression : option str) (text : str)
  : M unit :=
  let! fs := get_cwd in
  match fs !! py path with
  | Some (Dir _) => raise (IsADirectoryError (py path))
  | _ => put_cwd (<[py path := File compression text]> fs)
  end.

(** [range(start, stop, step)] for a positive step, as a list. *)
Definition py_range (start stop step : Z) : list Z :=
  (λ i : nat, start + Z.of_nat i * step) <$>
  seq 0 (Z.to_nat ((stop - start + step - 1) / step)).

Section Notebook.
(** Python floats and the library calls made on them. *)
Variable float : Type.
Variable isnan : float → bool.
Variable py_float : str → option float.
(** [float(z)], the value an int takes in a column of floats. *)
Variable float_of_int : Z → float.
Variable repr_float : float → str.
Variable unicode_decimal : N → option N.

(** ** Data frames *)

Inductive cell :=
| CNull
| CFloat (f : float)
| CInt (z : Z)
| CStr (s : str).

(** [isna] on one cell: [None] and NaN are both missing. *)
Definition is_null (c : cell) : bool :=
  match c with
  | CNull => true
  | CFloat f => isnan f
  | _ => false
  end.

(** Column labels and rows; the row index is not modelled, nothing in
    the notebook reads it and both outputs are written without it. *)
Record DataFrame := Frame {
  columns : list str;
  rows : list (list cell)
}.

Definition nrows (df : DataFrame) : nat := length (rows df).

Definition pad (w : nat) (r : list cell) : list cell :=
  r ++ replicate (w - length r) CNull.

(** [pd.DataFrame(data, columns=cols)] on a list of lists. *)
Definition pd_DataFrame (data : list (list cell)) (cols : list str)
  : result DataFrame :=
  match data with
  | [] => Ok (Frame cols [])
  | _ =>
      let w := max_list (length <$> data) in
      if decide (length cols = w) then Ok (Frame cols (pad w <$> data))
      else Raise (ValueError_shape (length cols) w)
  end.

(** [df.iloc[:, :n]] and [df.iloc[:, n:]] *)
Definition iloc_cols_to (n : nat) (df : DataFrame) : DataFrame :=
  Frame (take n (columns df)) (take n <$> rows df).

Definition iloc_cols_from (n : nat) (df : DataFrame) : DataFrame :=
  Frame (drop n (columns df)) (drop n <$> rows df).

(** [df.assign(label=v)] and [df[label] = v] for a scalar [v]: every
    column carrying the label is overwritten, or a new last column is
    added when there is none. *)
Definition assign (label : str) (v : cell) (df : DataFrame) : DataFrame :=
  if decide (label ∈ columns df) then
    Frame (columns df)
          ((λ r, zip_with (λ c x, if decide (c = label) then v else x)
                          (columns df) r) <$> rows df)
  else Frame (columns df ++ [label]) ((λ r, r ++ [v]) <$> rows df).

(** [df.rename(columns={old: new})] *)
Definition relabel (old new c : str) : str :=
  if decide (c = old) then new else c.

Definition rename (old new : str) (df : DataFrame) : DataFrame :=
  Frame (relabel old new <$> columns df) (rows df).

(** [df.dropna()] *)
Definition dropna (df : DataFrame) : DataFrame :=
  Frame (columns df)
        (filter (λ r, forallb (λ c, negb (is_null c)) r = true) (rows df)).

Fixpoint index_of (c : str) (cols : list str) : option nat :=
  match cols with
  | [] => None
  | c' :: cols' => if decide (c' = c) then Some 0%nat
                   else S <$> index_of c cols'
  end.

(** One row laid out on the labels [cols], missing labels filled with
    nulls. *)
Definition reindex_row (cols from : list str) (r : list cell) : list cell :=
  (λ c, match index_of c from with
        | Some i => default CNull (r !! i)
        | None => CNull
        end) <$> cols.

Definition reindex (cols : list str) (df : DataFrame) : list (list cell) :=
  reindex_row cols (columns df) <$> rows df.

(** The labels of several frames, each once, in the order in which they
    first appear. *)
Fixpoint first_seen (seen l : list str) : list str :=
  match l with
  | [] => []
  | c :: l' => if decide (c ∈ seen) then first_seen seen l'
               else c :: first_seen (c :: seen) l'
  end.

(** *** One type per column

    pandas keeps one type for each column.  Stacked columns of ints
    ([int64]) and of floats or missing values ([float64]) give a column
    of floats, every int converted; a column that holds a string has the
    type [object] and keeps its values as they are.  Within one frame
    each column has one type already, so only stacking can convert; a
    frame without rows adds no cell to a column and leaves its type as
    the other frames make it. *)

Definition is_str (c : cell) : bool :=
  match c with CStr _ => true | _ => false end.

Definition is_int (c : cell) : bool :=
  match c with CInt _ => true | _ => false end.

(** The cells of column [j]. *)
Definition column (j : nat) (rs : list (list cell)) : list cell :=
  omap (λ r, r !! j) rs.

(** The common type of the stacked column is [float64]: no string, and
    some float or missing value. *)
Definition float64 (col : list cell) : bool :=
  forallb (λ c, negb (is_str c)) col && existsb (λ c, negb (is_int c)) col.

Definition astype_float (c : cell) : cell :=
  match c with CInt z => CFloat (float_of_int z) | _ => c end.

(** One row of the stacked rows [rs], each cell in the type of its
    column. *)
Definition upcast_row (rs : list (list cell)) (r : list cell) : list cell :=
  imap (λ j c, if float64 (column j rs) then astype_float c else c) r.

Definition unify_dtypes (rs : list (list cell)) : list (list cell) :=
  upcast_row rs <$> rs.

(** [pd.concat(dfs)]: rows stacked in list order, each column in its
    common type.  Frames with the same labels are stacked as they are;
    otherwise every frame is laid out on the union of the labels, in the
    order of first appearance, which needs each frame's labels unique. *)
Definition pd_concat (dfs : list DataFrame) : result DataFrame :=
  match dfs with
  | [] => Raise ValueError_no_objects
  | d :: ds =>
      if forallb (λ d', bool_decide (columns d' = columns d)) ds then
        Ok (Frame (columns d) (unify_dtypes (concat (rows <$> dfs))))
      else if forallb (λ d', bool_decide (NoDup (columns d'))) dfs then
        let u := first_seen [] (concat (columns <$> dfs)) in
        Ok (Frame u (unify_dtypes (concat (reindex u <$> dfs))))
      else Raise InvalidIndexError
  end.

(** ** Writing a frame as CSV, [index=False] *)

Definition csv_quote (s : str) : str :=
  if existsb (λ c, (c =? 44) || (c =? 34) || (c =? 10) || (c =? 13))%N s
  then [34%N] ++ flat_map (λ c, if (c =? 34)%N then [34%N; 34%N] else [c]) s
       ++ [34%N]
  else s.

Definition csv_field (c : cell) : str :=
  match c with
  | CNull => []
  | CFloat f => if isnan f then [] else repr_float f
  | CInt z => str_of_int z
  | CStr s => csv_quote s
  end.

Definition csv_line (fields : list str) : str := join [COMMA] fields ++ [LF].

Definition csv_text (df : DataFrame) : str :=
  csv_line (csv_quote <$> columns df)
  ++ concat ((λ r, csv_line (csv_field <$> r)) <$> rows df).

(** [df.to_csv(path, index=False, compression=...)] *)
Definition to_csv (path : string) (compression : option str)
    (df : DataFrame) : M unit :=
  write_file path compression (csv_text df).

(** ** Baby names *)

(** [pd.read_csv(file, names=['name', 'sex', 'births'])]: the three cells
    of every record of the file, or the reader's exception. *)
Variable read_csv : str → node → result (list (cell * cell * cell)).

Definition names_frame (records : list (cell * cell * cell)) : DataFrame :=
  Frame [py "name"; py "sex"; py "births"]
        ((λ '(n, s, b), [n; s; b]) <$> records).

(** The body of the loop over the scratch directory. *)
Fixpoint babynames_loop (entries : list (str * node))
    (babynames : list DataFrame) : M (list DataFrame) :=
  match entries with
  | [] => ret babynames
  | (name, file) :: rest =>
      do! bind_global "file" in
      if endswith name (py "txt") then
        do! lookup_global "pd" in
        let! records := lift (read_csv name file) in
        do! bind_global "df" in
        let! year := lift (py_int unicode_decimal (slice 3 7 name)) in
        let df := assign (py "year") (CInt year) (names_frame records) in
        babynames_loop rest (babynames ++ [df])
      else babynames_loop rest babynames
  end.

(** The cell that reads, combines and saves the yearly files. *)
Definition cell_babynames : M unit :=
  do! bind_global "babynames" in
  do! lookup_global "Path" in
  let! entries := iterdir "data-us" in
  let! babynames := babynames_loop entries [] in
  do! lookup_global "pd" in
  let! combined := lift (pd_concat babynames) in
  do! bind_global "babynames" in
  to_csv "names.csv.gz" (Some (py "gzip")) combined.

(** The clean-up cell. *)
Definition cell_cleanup : M unit :=
  do! lookup_global "os" in
  do! os_remove "names.zip" in
  do! lookup_global "shutil" in
  shutil_rmtree "data-us".

(** ** Life tables *)

(** The HTTP client, the HTML parser and the table extractor. *)
Variable requests_get : str → result str.
Variable table : Type.
Variable find_all_table : str → list table.
Variable extract : table → result (list (list str)).

(** One data cell of the grid:
    [float(re.sub('\n|,', '', x)) if x != u"\xa0" else None] *)
Definition data_cell (x : str) : M cell :=
  if decide (x = nbsp) then ret CNull
  else
    do! lookup_global "re" in
    match py_float (sub_newline_comma x) with
    | Some f => ret (CFloat f)
    | None => raise (ValueError_float (sub_newline_comma x))
    end.

(** One column label: [re.sub('\n|\s', '', x)] *)
Definition column_name (x : str) : M str :=
  do! lookup_global "re" in ret (sub_newline_space x).

(** [lifetable[1]] *)
Definition header_row (lifetable : list (list str)) : M (list str) :=
  match lifetable !! 1%nat with
  | Some h => ret h
  | None => raise IndexError
  end.

(** The frame built by the [pd.DataFrame(...)] call. *)
Definition grid_frame (lifetable : list (list str)) : M DataFrame :=
  do! lookup_global "pd" in
  let! data := comprehension (comprehension data_cell) (drop 4 lifetable) in
  let! header := header_row lifetable in
  let! cols := comprehension column_name header in
  lift (pd_DataFrame data cols).

Definition df_male (df : DataFrame) : DataFrame :=
  assign (py "sex") (CStr (py "M")) (iloc_cols_to 7 df).

Definition df_female (df : DataFrame) : DataFrame :=
  assign (py "sex") (CStr (py "F")) (iloc_cols_from 8 df).

Definition parse_lifetable (lifetable : list (list str)) (year : Z)
  : M DataFrame :=
  let! df := grid_frame lifetable in
  do! lookup_global "pd" in
  let! df := lift (pd_concat [df_male df; df_female df]) in
  let df := rename (py "x") (py "age") df in
  ret (dropna (assign (py "year") (CInt year) df)).

Definition lifetable_url (year : Z) : str :=
  py "https://www.ssa.gov/oact/NOTES/as120/LifeTables_Tbl_7_"
  ++ str_of_int year ++ py ".html".

Definition scrape_lifetable (year : Z) : M (list (list str)) :=
  do! lookup_global "requests" in
  do! log_request (lifetable_url year) in
  let! content := lift (requests_get (lifetable_url year)) in
  do! lookup_global "BeautifulSoup" in
  let tables := find_all_table content in
  match tables !! 1%nat with
  | None => raise IndexError
  | Some table =>
      do! lookup_global "Extractor" in
      lift (extract table)
  end.

Definition get_lifetable (year : Z) : M DataFrame :=
  do! lookup_global "scrape_lifetable" in
  let! lifetable := scrape_lifetable year in
  do! lookup_global "parse_lifetable" in
  parse_lifetable lifetable year.

Definition years : list Z := py_range 1900 2100 10.

Definition get_lifetables : M DataFrame :=
  do! lookup_global "pd" in
  let! frames :=
    comprehension (λ year, do! lookup_global "get_lifetable" in
                           get_lifetable year) years in
  let! lifetables := lift (pd_concat frames) in
  ret (rename (py "") (py "ex") lifetables).

(** ** The cells of the notebook *)

(** Which modules can be imported, and which plot styles exist. *)
Variable installed : string → bool.
Variable style_available : string → bool.

(** [import module as name] / [from module import name] *)
Definition import (module name : string) : M unit :=
  if installed module then bind_global name
  else raise (ModuleNotFoundError (py module)).

Definition cell_imports : M unit :=
  do! import "numpy" "np" in
  do! import "pandas" "pd" in
  do! import "wquantiles" "quantile" in
  do! import "matplotlib.pyplot" "plt" in
  do! (if style_available "seaborn-darkgrid" then ret tt
       else raise (LibraryError (py "seaborn-darkgrid"))) in
  do! import "plotly.express" "px" in
  do! import "os" "os" in
  do! import "pathlib" "Path" in
  do! import "shutil" "shutil" in
  do! import "wget" "wget" in
  import "zipfile" "ZipFile".

(** The download and the extraction, as effects on the directory. *)
Variable wget_download : str → gmap str node → result (gmap str node).
Variable zipfile : Type.
Variable ZipFile_open : node → result zipfile.
Variable extractall :
  zipfile → str → gmap str node → result (gmap str node).

Definition cell_download : M unit :=
  do! lookup_global "wget" in
  let! fs := get_cwd in
  let! fs := lift (wget_download
                     (py "https://www.ssa.gov/oact/babynames/names.zip")
                     fs) in
  do! put_cwd fs in
  do! lookup_global "ZipFile" in
  match fs !! py "names.zip" with
  | None => raise (FileNotFoundError (py "names.zip"))
  | Some archive =>
      let! zip_names := lift (ZipFile_open archive) in
      do! bind_global "zip_names" in
      let! fs := lift (extractall zip_names (py "data-us") fs) in
      put_cwd fs
  end.

Definition cell_defs : M unit :=
  do! bind_global "parse_lifetable" in
  do! bind_global "scrape_lifetable" in
  do! bind_global "get_lifetable" in
  bind_global "get_lifetables".

Definition cell_lifetables : M unit :=
  do! lookup_global "get_lifetables" in
  let! lifetables := get_lifetables in
  do! bind_global "lifetables" in
  to_csv "lifetables.csv" None lifetables.

Inductive cell_id :=
| Imports | Download | Babynames | Cleanup | Defs | Lifetables.

Definition run_cell (c : cell_id) : M unit :=
  match c with
  | Imports => cell_imports
  | Download => cell_download
  | Babynames => cell_babynames
  | Cleanup => cell_cleanup
  | Defs => cell_defs
  | Lifetables => cell_lifetables
  end.

(** The kernel after the user has run the cells [cs] one after the
    other, whether or not one of them stopped on an exception. *)
Definition run_cells (cs : list cell_id) (k : kernel) : kernel :=
  foldl (λ k c, snd (run_cell c k)) k cs.

(** Every name a cell of the notebook can bind. *)
Definition notebook_names : list string :=
  ["np"; "pd"; "quantile"; "plt"; "px"; "os"; "Path"; "shutil"; "wget";
   "ZipFile"; "zip_names"; "babynames"; "file"; "df"; "parse_lifetable";
   "scrape_lifetable"; "get_lifetable"; "get_lifetables"; "lifetables"].

(** ** Definitions the statements are written with *)

(** The frame of one yearly file, without the kernel. *)
Definition year_frame (name : str) (file : node) : result DataFrame :=
  match read_csv name file with
  | Ok records =>
      match py_int unicode_decimal (slice 3 7 name) with
      | Ok year => Ok (assign (py "year") (CInt year) (names_frame records))
      | Raise e => Raise e
      end
  | Raise e => Raise e
  end.

Definition is_txt (entry : str * node) : bool := endswith entry.1 (py "txt").

Fixpoint collect (entries : list (str * node)) : result (list DataFrame) :=
  match entries with
  | [] => Ok []
  | (name, file) :: rest =>
      if endswith name (py "txt") then
        match year_frame name file with
        | Ok df =>
            match collect rest with
            | Ok dfs => Ok (df :: dfs)
            | Raise e => Raise e
            end
        | Raise e => Raise e
        end
      else collect rest
  end.

Definition tagged (year : Z) (records : list (cell * cell * cell))
  : list (list cell) :=
  (λ '(n, s, b), [n; s; b; CInt year]) <$> records.

Definition names_columns : list str :=
  [py "name"; py "sex"; py "births"; py "year"].

(** The frame of the file [entry] is [df]: its records, each tagged with
    the integer read from the file name. *)
Definition frame_of (entry : str * node) (df : DataFrame) : Prop :=
  ∃ records year,
    read_csv entry.1 entry.2 = Ok records ∧
    int_literal unicode_decimal (slice 3 7 entry.1) = Some year ∧
    df = Frame names_columns (tagged year records).

(** The cell [c'] is [c] in the type of its column: [c] itself, or the
    float of the int [c]. *)
Definition upcast (c c' : cell) : Prop :=
  c' = c ∨ ∃ z, c = CInt z ∧ c' = CFloat (float_of_int z).

(** The rows that the file [entry] gives to the combined frame: one row
    per record, in order, holding the three cells of the record, each in
    the type of its column, and the integer read from the file name. *)
Definition file_rows (entry : str * node) (block : list (list cell)) : Prop :=
  ∃ records year,
    read_csv entry.1 entry.2 = Ok records ∧
    int_literal unicode_decimal (slice 3 7 entry.1) = Some year ∧
    Forall2 (λ record row,
               ∃ n s b, row = [n; s; b; CInt year] ∧ upcast record.1.1 n ∧
                        upcast record.1.2 s ∧ upcast record.2 b)
            records block.

(** The frame [combined] stacks the files of [entries] named [...txt],
    file after file. *)
Definition stacked (entries : list (str * node)) (combined : DataFrame)
  : Prop :=
  columns combined = names_columns ∧
  ∃ blocks, rows combined = concat blocks ∧
            Forall2 file_rows (filter is_txt entries) blocks.

Definition output_path : str := py "names.csv.gz".

Definition output_file (combined : DataFrame) : node :=
  File (Some (py "gzip")) (csv_text combined).

Definition yob2000 : str * node :=
  (py "yob2000.txt", File None (py "Mary,F,100")).
Definition yob2001 : str * node :=
  (py "yob2001.txt", File None (py "John,M,50")).

Fixpoint traverse {A B} (g : A → result B) (l : list A) : result (list B) :=
  match l with
  | [] => Ok []
  | a :: l' =>
      match g a with
      | Ok b =>
          match traverse g l' with
          | Ok bs => Ok (b :: bs)
          | Raise e => Raise e
          end
      | Raise e => Raise e
      end
  end.

Definition parse_cell (x : str) : result cell :=
  if decide (x = nbsp) then Ok CNull
  else match py_float (sub_newline_comma x) with
       | Some f => Ok (CFloat f)
       | None => Raise (ValueError_float (sub_newline_comma x))
       end.

Definition grid_frame_pure (lifetable : list (list str)) : result DataFrame :=
  match traverse (traverse parse_cell) (drop 4 lifetable) with
  | Ok data =>
      match lifetable !! 1%nat with
      | Some header => pd_DataFrame data (sub_newline_space <$> header)
      | None => Raise IndexError
      end
  | Raise e => Raise e
  end.

Definition finish (year : Z) (cc : DataFrame) : DataFrame :=
  dropna (assign (py "year") (CInt year) (rename (py "x") (py "age") cc)).

Definition parse_lifetable_pure (lifetable : list (list str)) (year : Z)
  : result DataFrame :=
  match grid_frame_pure lifetable with
  | Ok df =>
      match pd_concat [df_male df; df_female df] with
      | Ok cc => Ok (finish year cc)
      | Raise e => Raise e
      end
  | Raise e => Raise e
  end.

Definition wf_frame (df : DataFrame) : Prop :=
  Forall (λ r, length r = length (columns df)) (rows df).

(** A grid as the parser expects it: a header row at index 1 with no
    label [sex], and from index 4 on rows as wide as the header whose
    cells are the placeholder or float literals. *)
Definition well_formed (lifetable : list (list str)) : Prop :=
  ∃ header,
    lifetable !! 1%nat = Some header ∧
    (py "sex" ∉ sub_newline_space <$> header) ∧
    Forall (λ row, length row = length header ∧
                   Forall (λ x, x = nbsp
                                ∨ is_Some (py_float (sub_newline_comma x)))
                          row)
           (drop 4 lifetable).

(** Every cell under a label [year] holds the integer [y]. *)
Definition year_is (y : Z) (cols : list str) (row : list cell) : Prop :=
  ∀ j, cols !! j = Some (py "year") → row !! j = Some (CInt y).

Definition year_tagged (y : Z) (df : DataFrame) : Prop :=
  wf_frame df ∧ py "year" ∈ columns df ∧
  ∀ row, row ∈ rows df → year_is y (columns df) row.

(** No cell of the frame is an int. *)
Definition no_int (df : DataFrame) : Prop :=
  Forall (Forall (λ c, is_int c = false)) (rows df).

(** The ints of the frame stand under the label [year]. *)
Definition ints_under_year (df : DataFrame) : Prop :=
  ∀ row j z, row ∈ rows df → row !! j = Some (CInt z) →
             columns df !! j = Some (py "year").

(** The rows of [df] under the labels [cols]: as they are when these are
    the labels of [df], laid out on them otherwise. *)
Definition laid_out (cols : list str) (df : DataFrame) : list (list cell) :=
  if decide (columns df = cols) then rows df else reindex cols df.

(** [frames] are the frames that [get_lifetable] returns for the years
    [ys], called for one year after the other from the kernel [k]. *)
Definition fetched (k : kernel) (ys : list Z) (frames : list DataFrame)
  : Prop :=
  length frames = length ys ∧
  ∀ i y df, ys !! i = Some y → frames !! i = Some df →
    get_lifetable y (Kernel (globals k) (cwd k)
                            (requested k ++ (lifetable_url <$> take i ys)))
    = (Ok df, Kernel (globals k) (cwd k)
                     (requested k ++ (lifetable_url <$> take (S i) ys))).

Definition notebook_bound : gset str := list_to_set (py <$> notebook_names).

(** [m] binds none but the notebook's names. *)
Definition keeps {A} (m : M A) : Prop :=
  ∀ k, globals k ⊆ notebook_bound → globals (m k).2 ⊆ notebook_bound.

(** [m] leaves the kernel as it found it. *)
Definition stateless {A} (m : M A) : Prop := ∀ k, (m k).2 = k.

(** [m] leaves the working directory as it found it. *)
Definition keeps_cwd {A} (m : M A) : Prop := ∀ k, cwd (m k).2 = cwd k.

(** The kernel [k] with [entries] as the listing of the scratch
    directory. *)
Definition with_scratch (entries : list (str * node)) (k : kernel) : kernel :=
  Kernel (globals k) (<[py "data-us" := Dir entries]> (cwd k)) (requested k).

(** The outcome [out] of a cell started in [k] has written the file
    [path], and nothing else, when the cell returned, and has left the
    working directory alone when it raised. *)
Definition wrote_or_nothing (path : str) (compression : option str)
    (k : kernel) (out : result unit * kernel) : Prop :=
  match out with
  | (Ok _, k') =>
      ∃ text, cwd k' = <[path := File compression text]> (cwd k)
  | (Raise _, k') => cwd k' = cwd k
  end.

(** The labels that the header row gives. *)
Definition labels (header : list str) : list str :=
  sub_newline_space <$> header.

(** [dropna]'s test: the row has no missing cell. *)
Definition complete (r : list cell) : Prop :=
  forallb (λ c, negb (is_null c)) r = true.

(** The characters an integer literal is made of, once folded to
    ASCII: digits, blanks, the two signs and the underscore. *)
Definition int_char (c : N) : bool :=
  (is_digit c || Py_ISSPACE c || (c =? 43) || (c =? 45) || (c =? 95))%N.

(** * Properties *)

(** ** The monad *)

Lemma lookup_global_bound (n : string) (k : kernel) :
  py n ∈ globals k → lookup_global n k = (Ok tt, k).
Proof. intros H. unfold lookup_global. by rewrite decide_True. Qed.

Lemma lookup_global_unbound (n : string) (k : kernel) :
  py n ∉ globals k → lookup_global n k = (Raise (NameError (py n)), k).
Proof. intros H. unfold lookup_global. by rewrite decide_False. Qed.

Lemma bind_Ok {A B} (m : M A) (f : A → M B) k a k' :
  m k = (Ok a, k') → bind m f k = f a k'.
Proof. intros H. unfold bind. by rewrite H. Qed.

Lemma bind_Raise {A B} (m : M A) (f : A → M B) k e k' :
  m k = (Raise e, k') → bind m f k = (Raise e, k').
Proof. intros H. unfold bind. by rewrite H. Qed.

Lemma bind_Ok_inv {A B} (m : M A) (f : A → M B) k b k2 :
  bind m f k = (Ok b, k2) →
  ∃ a k1, m k = (Ok a, k1) ∧ f a k1 = (Ok b, k2).
Proof.
  unfold bind. destruct (m k) as [[a|e] k1]; [eauto | discriminate].
Qed.

(** ** Lists of lists *)

Lemma elem_of_concat {A} (x : A) (ls : list (list A)) :
  x ∈ concat ls ↔ ∃ l, x ∈ l ∧ l ∈ ls.
Proof.
  induction ls as [|l ls IH]; simpl.
  - split; [by intros ?%elem_of_nil | by intros (? & _ & ?%elem_of_nil)].
  - rewrite elem_of_app, IH. split.
    + intros [H|(l' & H1 & H2)]; [exists l|exists l']; split; try done;
        [by left|by right].
    + intros (l' & H1 & [->|H2]%elem_of_cons); [by left|right; eauto].
Qed.

Lemma fmap_concat {A B} (f : A → B) (ls : list (list A)) :
  f <$> concat ls = concat ((λ l : list A, f <$> l) <$> ls).
Proof.
  induction ls as [|l ls IH]; simpl; [done|]. by rewrite fmap_app, IH.
Qed.

(** ** Column types *)

Lemma length_upcast_row rs r : length (upcast_row rs r) = length r.
Proof. unfold upcast_row. by rewrite length_imap. Qed.

Lemma lookup_upcast_row rs r j :
  upcast_row rs r !! j
  = (λ c, if float64 (column j rs) then astype_float c else c) <$> r !! j.
Proof. unfold upcast_row. by rewrite list_lookup_imap. Qed.

Lemma length_unify_dtypes rs : length (unify_dtypes rs) = length rs.
Proof. unfold unify_dtypes. by rewrite length_fmap. Qed.

Lemma elem_of_column c j rs :
  c ∈ column j rs ↔ ∃ r, r ∈ rs ∧ r !! j = Some c.
Proof. unfold column. by rewrite list_elem_of_omap. Qed.

Lemma float64_true col :
  float64 col = true
  ↔ (∀ c, c ∈ col → is_str c = false) ∧ ∃ c, c ∈ col ∧ is_int c = false.
Proof.
  unfold float64. rewrite andb_true_iff, forallb_forall, existsb_exists.
  split.
  - intros [Hs (c & Hc & Hi)]. split.
    + intros c' Hc'. apply list_elem_of_In, Hs in Hc'.
      by apply negb_true_iff in Hc'.
    + exists c. split; [by apply list_elem_of_In|by apply negb_true_iff].
  - intros [Hs (c & Hc & Hi)]. split.
    + intros c' Hc'. apply negb_true_iff, Hs. by apply list_elem_of_In.
    + exists c. split; [by apply list_elem_of_In|by apply negb_true_iff].
Qed.

Lemma float64_ext col col' :
  (∀ c, c ∈ col ↔ c ∈ col') → float64 col = float64 col'.
Proof.
  intros H. apply eq_true_iff_eq. rewrite !float64_true.
  split; intros [Hs (c & Hc & Hi)]; (split; [|exists c; split; [|done]]);
    try (by apply H); intros c' Hc'; by apply Hs, H.
Qed.

Lemma float64_ints col :
  Forall (λ c, is_int c = true) col → float64 col = false.
Proof.
  intros H. apply not_true_iff_false. intros [_ (c & Hc & Hi)]%float64_true.
  rewrite Forall_forall in H. apply H in Hc. congruence.
Qed.

Lemma upcast_row_ext rs rs' r :
  (∀ x, x ∈ rs ↔ x ∈ rs') → upcast_row rs r = upcast_row rs' r.
Proof.
  intros H. unfold upcast_row. apply imap_ext. intros j c _.
  rewrite (float64_ext (column j rs) (column j rs')); [done|].
  intros c'. rewrite !elem_of_column.
  split; intros (x & Hx & Hj); exists x; (split; [by apply H|done]).
Qed.

Lemma unify_dtypes_Permutation rs rs' :
  rs ≡ₚ rs' → unify_dtypes rs ≡ₚ unify_dtypes rs'.
Proof.
  intros Hp. unfold unify_dtypes.
  rewrite (list_fmap_ext (upcast_row rs) (upcast_row rs') rs).
  - by apply fmap_Permutation.
  - intros i r _. apply upcast_row_ext. intros x. by rewrite Hp.
Qed.

(** A row whose ints stand in columns that stay columns of ints is left
    as it is. *)
Lemma upcast_row_id rs r :
  (∀ j z, r !! j = Some (CInt z) → float64 (column j rs) = false) →
  upcast_row rs r = r.
Proof.
  intros H. apply list_eq. intros j. rewrite lookup_upcast_row.
  destruct (r !! j) as [c|] eqn:Hc; [|done]. simpl. f_equal.
  destruct c as [|f|z|t]; try by destruct (float64 _).
  by rewrite (H j z Hc).
Qed.

Lemma unify_dtypes_id rs :
  (∀ r j z, r ∈ rs → r !! j = Some (CInt z) →
            float64 (column j rs) = false) →
  unify_dtypes rs = rs.
Proof.
  intros H. unfold unify_dtypes. rewrite <- (list_fmap_id rs) at 3.
  apply list_fmap_ext. intros i r Hr. apply upcast_row_id.
  intros j z. apply H. by eapply list_elem_of_lookup_2.
Qed.

Lemma upcast_row_int rs r j z :
  r !! j = Some (CInt z) → float64 (column j rs) = false →
  upcast_row rs r !! j = Some (CInt z).
Proof. intros Hj Hf. by rewrite lookup_upcast_row, Hj, Hf. Qed.

Lemma elem_of_first_seen seen l x :
  x ∈ first_seen seen l ↔ x ∈ l ∧ x ∉ seen.
Proof.
  revert seen. induction l as [|c l IH]; intros seen; simpl.
  - split; [by intros ?%elem_of_nil|by intros [?%elem_of_nil _]].
  - destruct (decide (c ∈ seen)) as [Hc|Hc].
    + rewrite IH, elem_of_cons. split; [intros [? ?]; by auto|].
      intros [[->|?] ?]; done.
    + rewrite !elem_of_cons, IH, elem_of_cons. split.
      * intros [->|[? ?]]; split; auto.
      * intros [[->|?] ?]; [by left|].
        destruct (decide (x = c)) as [->|?]; [by left|right].
        split; [done|]. by intros [?|?].
Qed.

Lemma NoDup_first_seen seen l : NoDup (first_seen seen l).
Proof.
  revert seen. induction l as [|c l IH]; intros seen; simpl.
  - constructor.
  - destruct (decide (c ∈ seen)); [apply IH|].
    constructor; [|apply IH].
    rewrite elem_of_first_seen, elem_of_cons. intros [_ H]. apply H. by left.
Qed.

(** ** Baby names: what the loop collects *)

Lemma assign_fresh label v df :
  label ∉ columns df →
  assign label v df
  = Frame (columns df ++ [label]) ((λ r, r ++ [v]) <$> rows df).
Proof. intros H. unfold assign. by rewrite decide_False. Qed.

Lemma year_frame_Ok name file df :
  year_frame name file = Ok df → frame_of (name, file) df.
Proof.
  unfold year_frame, frame_of, py_int. simpl.
  destruct (read_csv name file) as [records|]; [|discriminate].
  destruct (int_literal _ _) as [y|]; [|discriminate].
  intros [= <-]. exists records, y. split_and!; try done.
  rewrite assign_fresh.
  - unfold names_frame, names_columns, tagged. simpl. f_equal.
    rewrite <- list_fmap_compose.
    apply list_fmap_ext. by intros ? [[? ?] ?] ?.
  - apply (bool_decide_unpack _). by vm_compute.
Qed.

Lemma collect_Ok entries dfs :
  collect entries = Ok dfs → Forall2 frame_of (filter is_txt entries) dfs.
Proof.
  revert dfs. induction entries as [|[name file] rest IH]; intros dfs; simpl.
  - intros [= <-]. constructor.
  - destruct (endswith name (py "txt")) eqn:E.
    2: { rewrite filter_cons_False; [apply IH|].
         unfold is_txt. cbn [fst]. rewrite E. by intros []. }
    rewrite filter_cons_True by (unfold is_txt; cbn [fst]; by rewrite E).
    destruct (year_frame name file) as [df|] eqn:Hdf; [|discriminate].
    destruct (collect rest) as [dfs'|]; [|discriminate].
    intros [= <-]. constructor; [by apply year_frame_Ok | by apply IH].
Qed.

Lemma babynames_loop_spec entries : ∀ acc k,
  py "pd" ∈ globals k →
  ∃ k', babynames_loop entries acc k
        = (match collect entries with
           | Ok dfs => Ok (acc ++ dfs)
           | Raise e => Raise e
           end, k')
        ∧ cwd k' = cwd k ∧ requested k' = requested k
        ∧ globals k ⊆ globals k'.
Proof.
  induction entries as [|[name file] rest IH]; intros acc k Hpd; simpl.
  - exists k. by rewrite app_nil_r.
  - unfold bind at 1. simpl.
    set (k1 := Kernel _ _ _).
    assert (Hpd1 : py "pd" ∈ globals k1)
      by (simpl; apply elem_of_union; by right).
    assert (Hsub : globals k ⊆ globals k1)
      by (simpl; apply union_subseteq_r).
    destruct (endswith name (py "txt")).
    + rewrite (bind_Ok _ _ _ _ _ (lookup_global_bound "pd" k1 Hpd1)).
      unfold year_frame, bind at 1, lift.
      destruct (read_csv name file) as [records|e].
      * unfold bind at 1. simpl. set (k2 := Kernel _ _ _).
        unfold bind at 1. unfold py_int.
        destruct (int_literal _ _) as [y|].
        -- destruct (IH (acc ++ [assign (py "year") (CInt y)
                                    (names_frame records)]) k2)
             as (k' & -> & Hc & Hr & Hg);
             [simpl; apply elem_of_union; by right|].
           exists k'. split_and!; [|done|done|].
           ++ destruct (collect rest); [|done].
              by rewrite <- app_assoc.
           ++ etrans; [exact Hsub|]. etrans; [|exact Hg]. simpl.
              apply union_subseteq_r.
        -- exists k2. split_and!; try done. simpl.
           etrans; [exact Hsub|apply union_subseteq_r].
      * exists k1. by split_and!.
    + destruct (IH acc k1 Hpd1) as (k' & -> & Hc & Hr & Hg).
      exists k'. split_and!; try done. by etrans.
Qed.

Lemma pd_concat_same_columns cols dfs :
  dfs ≠ [] → Forall (λ d, columns d = cols) dfs →
  pd_concat dfs = Ok (Frame cols (unify_dtypes (concat (rows <$> dfs)))).
Proof.
  destruct dfs as [|d ds]; [done|]. intros _ H.
  apply Forall_cons in H as [Hd Hds]. unfold pd_concat.
  replace (forallb _ ds) with true; [by rewrite Hd|].
  symmetry. apply forallb_forall. intros d' Hin.
  apply bool_decide_eq_true. rewrite Hd.
  rewrite Forall_forall in Hds. apply Hds. by apply list_elem_of_In.
Qed.

Lemma frame_of_columns entries dfs :
  Forall2 frame_of entries dfs → Forall (λ d, columns d = names_columns) dfs.
Proof.
  induction 1 as [|e d es ds (records & y & _ & _ & ->)]; by constructor.
Qed.

Lemma upcast_astype (b : bool) c : upcast c (if b then astype_float c else c).
Proof.
  destruct b; [|by left]. destruct c as [|f|z|t]; try by left.
  right. by exists z.
Qed.

(** The column [year] of the stacked files holds ints only. *)
Lemma frame_of_year_ints entries dfs :
  Forall2 frame_of entries dfs →
  float64 (column 3 (concat (rows <$> dfs))) = false.
Proof.
  intros H. apply float64_ints, Forall_forall. intros c.
  rewrite elem_of_column. intros (r & Hr & Hc).
  apply elem_of_concat in Hr as (rs & Hr & Hrs).
  apply list_elem_of_fmap in Hrs as (d & -> & Hd).
  apply list_elem_of_lookup in Hd as [i Hi].
  destruct (Forall2_lookup_r _ _ _ _ _ H Hi)
    as (e & _ & records & y & _ & _ & ->).
  simpl in Hr. unfold tagged in Hr.
  apply list_elem_of_fmap in Hr as ([[n s'] b] & -> & _).
  simpl in Hc. by injection Hc as <-.
Qed.

Lemma frame_of_file_rows all entries dfs :
  float64 (column 3 all) = false →
  Forall2 frame_of entries dfs →
  Forall2 file_rows entries ((λ d, upcast_row all <$> rows d) <$> dfs).
Proof.
  intros Hyear. induction 1 as [|e d es ds (records & y & Hr & Hy & ->) _ IH];
    simpl; constructor; [|done].
  exists records, y. split_and!; [done|done|].
  unfold tagged. apply Forall2_fmap_r, Forall2_fmap_r.
  apply Forall_Forall2_diag, Forall_forall. intros [[n s'] b] _.
  unfold upcast_row. simpl. rewrite Hyear.
  eexists _, _, _. split; [reflexivity|]. split_and!; apply upcast_astype.
Qed.

(** The stacked frames, each cell in the type of its column, are the
    blocks of the files. *)
Lemma frame_of_stacked entries dfs :
  Forall2 frame_of (filter is_txt entries) dfs →
  stacked entries (Frame names_columns (unify_dtypes (concat (rows <$> dfs)))).
Proof.
  intros H. split; [done|]. simpl.
  exists ((λ d, upcast_row (concat (rows <$> dfs)) <$> rows d) <$> dfs).
  split.
  - unfold unify_dtypes. by rewrite fmap_concat, <- list_fmap_compose.
  - apply frame_of_file_rows; [by eapply frame_of_year_ints|done].
Qed.

(** What the cell does once the imports are in place and the scratch
    directory exists. *)
Lemma cell_babynames_run k entries :
  py "pd" ∈ globals k → py "Path" ∈ globals k →
  cwd k !! py "data-us" = Some (Dir entries) →
  ∃ k2, cwd k2 = cwd k ∧ requested k2 = requested k ∧
    globals k ⊆ globals k2 ∧
    cell_babynames k
    = match collect entries with
      | Raise e => (Raise e, k2)
      | Ok dfs =>
          match pd_concat dfs with
          | Raise e => (Raise e, k2)
          | Ok combined =>
              to_csv "names.csv.gz" (Some (py "gzip")) combined
                (Kernel ({[py "babynames"]} ∪ globals k2) (cwd k2)
                        (requested k2))
          end
      end.
Proof.
  intros Hpd HPath Hdir. unfold cell_babynames.
  unfold bind at 1. simpl. set (k1 := Kernel _ _ _).
  assert (HPath1 : py "Path" ∈ globals k1)
    by (simpl; apply elem_of_union; by right).
  assert (Hpd1 : py "pd" ∈ globals k1)
    by (simpl; apply elem_of_union; by right).
  rewrite (bind_Ok _ _ _ _ _ (lookup_global_bound "Path" k1 HPath1)).
  unfold bind at 1, iterdir, bind at 1, get_cwd. simpl. rewrite Hdir.
  unfold ret at 1.
  destruct (babynames_loop_spec entries [] k1 Hpd1)
    as (k2 & Hloop & Hc2 & Hr2 & Hg2).
  exists k2. split_and!; [done|done| |].
  { etrans; [|exact Hg2]. simpl. apply union_subseteq_r. }
  unfold bind at 1. rewrite Hloop.
  destruct (collect entries) as [dfs|e]; [|done].
  rewrite app_nil_l.
  rewrite (bind_Ok _ _ _ _ _ (lookup_global_bound "pd" k2 (Hg2 _ Hpd1))).
  unfold bind at 1, lift.
  destruct (pd_concat dfs) as [combined|e]; [|done].
  by unfold bind at 1.
Qed.

Lemma cell_babynames_spec k entries :
  py "pd" ∈ globals k → py "Path" ∈ globals k →
  cwd k !! py "data-us" = Some (Dir entries) →
  ∃ k', requested k' = requested k ∧ globals k ⊆ globals k' ∧
    match collect entries with
    | Raise e => cell_babynames k = (Raise e, k') ∧ cwd k' = cwd k
    | Ok dfs =>
        match pd_concat dfs with
        | Raise e => cell_babynames k = (Raise e, k') ∧ cwd k' = cwd k
        | Ok combined =>
            match cwd k !! output_path with
            | Some (Dir _) =>
                cell_babynames k = (Raise (IsADirectoryError output_path), k')
                ∧ cwd k' = cwd k
            | _ =>
                cell_babynames k = (Ok tt, k')
                ∧ cwd k' = <[output_path := output_file combined]> (cwd k)
            end
        end
    end.
Proof.
  intros Hpd HPath Hdir.
  destruct (cell_babynames_run k entries Hpd HPath Hdir)
    as (k2 & Hc2 & Hr2 & Hg2 & ->).
  destruct (collect entries) as [dfs|e]; [|by exists k2].
  destruct (pd_concat dfs) as [combined|e]; [|by exists k2].
  unfold to_csv, write_file, bind, get_cwd, put_cwd, raise. simpl.
  rewrite Hc2. fold output_path.
  destruct (cwd k !! output_path) as [[c t|l]|] eqn:Hout;
    (eexists; split; [|split; [|split; [reflexivity|]]]); simpl;
    rewrite ?Hr2; try done;
    (etrans; [exact Hg2|apply union_subseteq_r]).
Qed.

Lemma cell_babynames_Ok_inv k k' entries :
  py "pd" ∈ globals k → py "Path" ∈ globals k →
  cwd k !! py "data-us" = Some (Dir entries) →
  cell_babynames k = (Ok tt, k') →
  ∃ dfs,
    Forall2 frame_of (filter is_txt entries) dfs ∧
    globals k ⊆ globals k' ∧
    cwd k' = <[output_path :=
                 output_file (Frame names_columns
                                (unify_dtypes (concat (rows <$> dfs))))]>
               (cwd k).
Proof.
  intros Hpd HPath Hdir Hrun.
  destruct (cell_babynames_spec k entries Hpd HPath Hdir)
    as (k1 & _ & Hg & H).
  destruct (collect entries) as [dfs|e] eqn:Hcol;
    [|destruct H as [H _]; congruence].
  apply collect_Ok in Hcol. exists dfs. split; [done|].
  destruct dfs as [|d ds].
  { simpl in H. destruct H as [H _]. congruence. }
  rewrite (pd_concat_same_columns names_columns) in H;
    [|done|by eapply frame_of_columns].
  destruct (cwd k !! output_path) as [[c t|l]|];
    destruct H as [H Hcwd]; rewrite Hrun in H;
    [injection H as <-|discriminate|injection H as <-]; done.
Qed.

Lemma collect_bad entries name file :
  (name, file) ∈ entries → endswith name (py "txt") = true →
  int_literal unicode_decimal (slice 3 7 name) = None →
  ∃ e n f, collect entries = Raise e ∧ (n, f) ∈ entries ∧
    endswith n (py "txt") = true ∧
    (e = ValueError_int (slice 3 7 n) ∨ read_csv n f = Raise e).
Proof.
  intros Hin Htxt Hbad.
  induction entries as [|[n f] rest IH]; [by apply elem_of_nil in Hin|].
  simpl. destruct (endswith n (py "txt")) eqn:E.
  - unfold year_frame, py_int.
    destruct (read_csv n f) as [records|e] eqn:Hread.
    2: { exists e, n, f. split_and!; [done|left|done|by right]. }
    destruct (int_literal _ (slice 3 7 n)) as [y|] eqn:Hy.
    2: { eexists _, n, f. split_and!; [done|left|done|by left]. }
    apply elem_of_cons in Hin as [[= -> ->]|Hin]; [congruence|].
    destruct (IH Hin) as (e & n' & f' & -> & Hin' & Ht & He).
    exists e, n', f'. split_and!; [done|by right|done|done].
  - apply elem_of_cons in Hin as [[= -> ->]|Hin]; [congruence|].
    destruct (IH Hin) as (e & n' & f' & -> & Hin' & Ht & He).
    exists e, n', f'. split_and!; [done|by right|done|done].
Qed.

Lemma collect_total entries :
  Forall (λ e, (∃ records, read_csv e.1 e.2 = Ok records) ∧
               is_Some (int_literal unicode_decimal (slice 3 7 e.1)))
         (filter is_txt entries) →
  ∃ dfs, collect entries = Ok dfs.
Proof.
  induction entries as [|[name file] rest IH]; simpl; [by eexists|].
  destruct (endswith name (py "txt")) eqn:E.
  - rewrite filter_cons_True by (unfold is_txt; cbn [fst]; by rewrite E).
    intros [[[records Hr] [y Hy]] Hrest]%Forall_cons. simpl in Hr, Hy.
    unfold year_frame, py_int. rewrite Hr, Hy.
    destruct (IH Hrest) as [dfs ->]. by eexists.
  - rewrite filter_cons_False; [done|].
    unfold is_txt. cbn [fst]. rewrite E. by intros [].
Qed.

(** The cell returns whenever the imports are in place, the scratch
    directory holds at least one file named [...txt], each such file is
    read and named after an integer, and the output path is free. *)
Lemma cell_babynames_succeeds k entries :
  py "pd" ∈ globals k → py "Path" ∈ globals k →
  cwd k !! py "data-us" = Some (Dir entries) →
  filter is_txt entries ≠ [] →
  Forall (λ e, (∃ records, read_csv e.1 e.2 = Ok records) ∧
               is_Some (int_literal unicode_decimal (slice 3 7 e.1)))
         (filter is_txt entries) →
  (∀ l, cwd k !! output_path ≠ Some (Dir l)) →
  ∃ k', cell_babynames k = (Ok tt, k').
Proof.
  intros Hpd HPath Hdir Hne Hall Hout.
  destruct (cell_babynames_spec k entries Hpd HPath Hdir)
    as (k' & _ & _ & H).
  destruct (collect_total entries Hall) as [dfs Hdfs].
  rewrite Hdfs in H. apply collect_Ok in Hdfs.
  rewrite (pd_concat_same_columns names_columns) in H.
  - destruct (cwd k !! output_path) as [[c t|l]|] eqn:Ho;
      [by exists k'; destruct H| by destruct (Hout l) | by exists k'; destruct H].
  - intros ->. apply Forall2_nil_inv_r in Hdfs. done.
  - by eapply frame_of_columns.
Qed.

(** ** Baby names: the claims *)

(** C1: when the cell has written the combined data set, its rows are
    the rows of the files named [...txt], file after file and record
    after record, and every row from a file carries in the column [year]
    the integer that [int] reads from characters 3 to 7 of that file's
    name; the three cells read from the record stand before it, each in
    the type of its column. *)
Theorem year_column_from_file_name k k' entries :
  py "pd" ∈ globals k → py "Path" ∈ globals k →
  cwd k !! py "data-us" = Some (Dir entries) →
  cell_babynames k = (Ok tt, k') →
  ∃ combined blocks,
    cwd k' !! output_path = Some (output_file combined) ∧
    columns combined = names_columns ∧
    names_columns !! 3%nat = Some (py "year") ∧
    rows combined = concat blocks ∧
    Forall2 (λ entry block,
               ∃ records year,
                 read_csv entry.1 entry.2 = Ok records ∧
                 int_literal unicode_decimal (slice 3 7 entry.1) = Some year ∧
                 Forall2 (λ record row,
                            ∃ n s b,
                              row = [n; s; b; CInt year] ∧
                              upcast record.1.1 n ∧ upcast record.1.2 s ∧
                              upcast record.2 b)
                         records block ∧
                 ∀ row, row ∈ block → row !! 3%nat = Some (CInt year))
            (filter is_txt entries) blocks.
Proof.
  intros Hpd HPath Hdir Hrun.
  destruct (cell_babynames_Ok_inv k k' entries Hpd HPath Hdir Hrun)
    as (dfs & Hdfs & _ & Hcwd).
  destruct (frame_of_stacked entries dfs Hdfs) as (Hcols & blocks & Hrows & Hb).
  eexists _, blocks. split_and!.
  - rewrite Hcwd. apply lookup_insert_eq.
  - exact Hcols.
  - reflexivity.
  - exact Hrows.
  - eapply Forall2_impl; [exact Hb|].
    intros entry block (records & year & Hread & Hyear & Hrec).
    exists records, year. split_and!; try done.
    intros row [i Hi]%list_elem_of_lookup.
    destruct (Forall2_lookup_r _ _ _ _ _ Hrec Hi)
      as (record & _ & n & s' & b & -> & _).
    done.
Qed.

(** C2: the combined data set has as many rows as the yearly files have
    records, summed over the files named [...txt]. *)
Theorem combined_row_count k k' entries :
  py "pd" ∈ globals k → py "Path" ∈ globals k →
  cwd k !! py "data-us" = Some (Dir entries) →
  cell_babynames k = (Ok tt, k') →
  ∃ combined counts,
    cwd k' !! output_path = Some (output_file combined) ∧
    Forall2 (λ entry n, ∃ records, read_csv entry.1 entry.2 = Ok records
                                   ∧ n = length records)
            (filter is_txt entries) counts ∧
    nrows combined = sum_list counts.
Proof.
  intros Hpd HPath Hdir Hrun.
  destruct (cell_babynames_Ok_inv k k' entries Hpd HPath Hdir Hrun)
    as (dfs & Hdfs & _ & Hcwd).
  exists (Frame names_columns (unify_dtypes (concat (rows <$> dfs)))),
         (nrows <$> dfs).
  split_and!.
  - rewrite Hcwd. apply lookup_insert_eq.
  - clear Hcwd. induction Hdfs as [|e d es ds (records & y & Hr & _ & ->)];
      simpl; constructor; [|done].
    exists records. split; [done|]. unfold nrows, tagged. simpl.
    by rewrite length_fmap.
  - unfold nrows. simpl. rewrite length_unify_dtypes, length_concat.
    by rewrite <- list_fmap_compose.
Qed.


(** C9: once the combined data set is written, the clean-up cell removes
    [names.zip] and [data-us] and leaves every other path, the written
    [names.csv.gz] among them, as it was. *)
Theorem cleanup_removes_temporaries k k' entries c t :
  py "pd" ∈ globals k → py "Path" ∈ globals k →
  py "os" ∈ globals k → py "shutil" ∈ globals k →
  cwd k !! py "data-us" = Some (Dir entries) →
  cwd k !! py "names.zip" = Some (File c t) →
  cell_babynames k = (Ok tt, k') →
  ∃ k'',
    cell_cleanup k' = (Ok tt, k'') ∧
    cwd k'' !! py "names.zip" = None ∧
    cwd k'' !! py "data-us" = None ∧
    is_Some (cwd k' !! output_path) ∧
    cwd k'' !! output_path = cwd k' !! output_path ∧
    ∀ p, p ≠ py "names.zip" → p ≠ py "data-us" →
         cwd k'' !! p = cwd k' !! p.
Proof.
  intros Hpd HPath Hos Hsh Hdir Hzip Hrun.
  destruct (cell_babynames_Ok_inv k k' entries Hpd HPath Hdir Hrun)
    as (dfs & _ & Hg & Hcwd).
  assert (Hzip' : cwd k' !! py "names.zip" = Some (File c t)).
  { rewrite Hcwd, lookup_insert_ne; [done|by vm_compute]. }
  assert (Hdir' : cwd k' !! py "data-us" = Some (Dir entries)).
  { rewrite Hcwd, lookup_insert_ne; [done|by vm_compute]. }
  unfold cell_cleanup.
  rewrite (bind_Ok _ _ _ _ _ (lookup_global_bound "os" k' (Hg _ Hos))).
  unfold bind at 1, os_remove, bind at 1, get_cwd, put_cwd. simpl.
  rewrite Hzip'. simpl. set (k1 := Kernel _ _ _).
  rewrite (bind_Ok _ _ _ _ _ (lookup_global_bound "shutil" k1 (Hg _ Hsh))).
  unfold shutil_rmtree, bind, get_cwd, put_cwd. simpl.
  rewrite lookup_delete_ne by (by vm_compute). rewrite Hdir'. simpl.
  eexists. split_and!; [reflexivity|..]; simpl.
  - rewrite lookup_delete_ne by (by vm_compute). apply lookup_delete_eq.
  - apply lookup_delete_eq.
  - rewrite Hcwd, lookup_insert_eq. eauto.
  - by rewrite !lookup_delete_ne by (by vm_compute).
  - intros p Hp1 Hp2. by rewrite !lookup_delete_ne.
Qed.

Lemma collect_two_files a b ra rb ya yb :
  endswith a.1 (py "txt") = true → endswith b.1 (py "txt") = true →
  read_csv a.1 a.2 = Ok ra → read_csv b.1 b.2 = Ok rb →
  int_literal unicode_decimal (slice 3 7 a.1) = Some ya →
  int_literal unicode_decimal (slice 3 7 b.1) = Some yb →
  collect [a; b]
  = Ok [assign (py "year") (CInt ya) (names_frame ra);
        assign (py "year") (CInt yb) (names_frame rb)].
Proof.
  destruct a as [na fa], b as [nb fb]. simpl.
  intros -> -> Ha Hb Hya Hyb. unfold year_frame, py_int.
  by rewrite Ha, Hb, Hya, Hyb.
Qed.

(** C6: with [yob2000.txt] holding the record Mary,F,100 and
    [yob2001.txt] the record John,M,50 as the only entries of the
    scratch directory, in either order, the cell writes [names.csv.gz]
    with gzip compression: the header line, then one line per record
    with the births unchanged and the year of its file, and no index
    field. *)
Theorem two_file_scenario k entries :
  py "pd" ∈ globals k → py "Path" ∈ globals k →
  read_csv yob2000.1 yob2000.2
    = Ok [(CStr (py "Mary"), CStr (py "F"), CInt 100)] →
  read_csv yob2001.1 yob2001.2
    = Ok [(CStr (py "John"), CStr (py "M"), CInt 50)] →
  cwd k !! py "data-us" = Some (Dir entries) →
  entries ≡ₚ [yob2000; yob2001] →
  cwd k !! output_path = None →
  ∃ k' lines,
    cell_babynames k = (Ok tt, k') ∧
    cwd k' !! output_path
    = Some (File (Some (py "gzip"))
                 (py "name,sex,births,year" ++ [LF] ++ concat lines)) ∧
    lines ≡ₚ [py "Mary,F,100,2000" ++ [LF]; py "John,M,50,2001" ++ [LF]].
Proof.
  intros Hpd HPath Hmary Hjohn Hdir Hperm Hout.
  destruct (cell_babynames_spec k entries Hpd HPath Hdir)
    as (k' & _ & _ & H).
  rewrite Hout in H.
  symmetry in Hperm. apply Permutation_length_2_inv in Hperm as [-> | ->].
  - rewrite (collect_two_files yob2000 yob2001 _ _ 2000 2001
               eq_refl eq_refl Hmary Hjohn eq_refl eq_refl) in H.
    destruct H as [H Hcwd].
    exists k', [py "Mary,F,100,2000" ++ [LF]; py "John,M,50,2001" ++ [LF]].
    split_and!; [exact H | | done].
    rewrite Hcwd, lookup_insert_eq. reflexivity.
  - rewrite (collect_two_files yob2001 yob2000 _ _ 2001 2000
               eq_refl eq_refl Hjohn Hmary eq_refl eq_refl) in H.
    destruct H as [H Hcwd].
    exists k', [py "John,M,50,2001" ++ [LF]; py "Mary,F,100,2000" ++ [LF]].
    split_and!; [exact H | | apply Permutation_swap].
    rewrite Hcwd, lookup_insert_eq. reflexivity.
Qed.

(** ** Life tables: the parser without the kernel *)

Lemma comprehension_pure {A B} (f : A → M B) (g : A → result B) l k :
  (∀ a, f a k = (g a, k)) → comprehension f l k = (traverse g l, k).
Proof.
  intros H. induction l as [|a l IH]; simpl; [done|].
  unfold bind at 1. rewrite H. destruct (g a) as [b|e]; [|done].
  unfold bind at 1. rewrite IH. by destruct (traverse g l).
Qed.

Lemma traverse_Ok {A B} (g : A → result B) l bs :
  traverse g l = Ok bs ↔ Forall2 (λ a b, g a = Ok b) l bs.
Proof.
  revert bs. induction l as [|a l IH]; intros bs; simpl.
  - split; [intros [= <-]; constructor | by inversion 1].
  - split.
    + destruct (g a) as [b|] eqn:Hb; [|done].
      destruct (traverse g l) as [bs'|] eqn:Hbs; [|done].
      intros [= <-]. constructor; [done|by apply IH].
    + inversion 1 as [|? b ? bs' Hb Hbs]; subst. rewrite Hb.
      apply IH in Hbs. by rewrite Hbs.
Qed.

Lemma traverse_Raise {A B} (g : A → result B) l a e :
  a ∈ l → g a = Raise e →
  ∃ e' a', traverse g l = Raise e' ∧ a' ∈ l ∧ g a' = Raise e'.
Proof.
  intros Hin Ha. induction l as [|a0 l IH]; [by apply elem_of_nil in Hin|].
  simpl. destruct (g a0) as [b|e0] eqn:H0.
  - apply elem_of_cons in Hin as [->|Hin]; [congruence|].
    destruct (IH Hin) as (e' & a' & -> & Hin' & Ha').
    exists e', a'. split_and!; [done|by right|done].
  - exists e0, a0. split_and!; [done|by left|done].
Qed.

Lemma traverse_total {A B} (g : A → result B) (f : A → B) l :
  (∀ a, g a = Ok (f a)) → traverse g l = Ok (f <$> l).
Proof.
  intros H. induction l as [|a l IH]; simpl; [done|]. by rewrite H, IH.
Qed.

Lemma data_cell_run x k :
  py "re" ∈ globals k → data_cell x k = (parse_cell x, k).
Proof.
  intros Hre. unfold data_cell, parse_cell.
  destruct (decide (x = nbsp)); [done|].
  rewrite (bind_Ok _ _ _ _ _ (lookup_global_bound "re" k Hre)).
  by destruct (py_float _).
Qed.

Lemma grid_frame_run lifetable k :
  py "pd" ∈ globals k → py "re" ∈ globals k →
  grid_frame lifetable k = (grid_frame_pure lifetable, k).
Proof.
  intros Hpd Hre. unfold grid_frame, grid_frame_pure.
  rewrite (bind_Ok _ _ _ _ _ (lookup_global_bound "pd" k Hpd)).
  unfold bind at 1.
  rewrite (comprehension_pure _ (traverse parse_cell)).
  2: { intros row. apply comprehension_pure. intros x.
       by apply data_cell_run. }
  destruct (traverse _ (drop 4 lifetable)) as [data|e]; [|done].
  unfold bind at 1, header_row.
  destruct (lifetable !! 1%nat) as [header|]; [|done].
  unfold ret at 1. unfold bind at 1.
  rewrite (comprehension_pure _ (λ x, Ok (sub_newline_space x))).
  2: { intros x. unfold column_name.
       by rewrite (bind_Ok _ _ _ _ _ (lookup_global_bound "re" k Hre)). }
  by rewrite (traverse_total _ sub_newline_space).
Qed.

Lemma parse_lifetable_run lifetable year k :
  py "pd" ∈ globals k → py "re" ∈ globals k →
  parse_lifetable lifetable year k = (parse_lifetable_pure lifetable year, k).
Proof.
  intros Hpd Hre. unfold parse_lifetable, parse_lifetable_pure.
  unfold bind at 1. rewrite grid_frame_run by done.
  destruct (grid_frame_pure lifetable) as [df|e]; [|done].
  rewrite (bind_Ok _ _ _ _ _ (lookup_global_bound "pd" k Hpd)).
  unfold bind at 1, lift.
  by destruct (pd_concat _).
Qed.

(** The same in any kernel: a name that is not bound can only turn a
    result into a [NameError], never change it. *)
Lemma comprehension_Ok_inv {A B} (f : A → M B) l : ∀ k bs k',
  comprehension f l k = (Ok bs, k') →
  Forall2 (λ a b, ∃ k1 k2, f a k1 = (Ok b, k2)) l bs.
Proof.
  induction l as [|a l IH]; intros k bs k'; simpl.
  - unfold ret. intros [= <- <-]. constructor.
  - intros H. apply bind_Ok_inv in H as (b & k1 & Hb & H).
    apply bind_Ok_inv in H as (bs' & k2 & Hbs & H).
    unfold ret in H. injection H as <- <-.
    constructor; [by exists k, k1|by eapply IH].
Qed.

Lemma comprehension_Raise {A B} (f : A → M B) l a :
  a ∈ l → (∀ k, ∃ e k', f a k = (Raise e, k')) →
  ∀ k, ∃ e k', comprehension f l k = (Raise e, k').
Proof.
  intros Hin Ha. induction l as [|a0 l IH]; [by apply elem_of_nil in Hin|].
  intros k. simpl. unfold bind at 1.
  destruct (f a0 k) as [[b|e] k1] eqn:H0; [|by eexists _, _].
  apply elem_of_cons in Hin as [->|Hin].
  { destruct (Ha k) as (e & k' & He). congruence. }
  destruct (IH Hin k1) as (e & k' & He).
  unfold bind at 1. rewrite He. by eexists _, _.
Qed.

Lemma data_cell_cases x k :
  data_cell x k = (parse_cell x, k)
  ∨ (x ≠ nbsp ∧ data_cell x k = (Raise (NameError (py "re")), k)).
Proof.
  destruct (decide (py "re" ∈ globals k)) as [Hre|Hre].
  - left. by apply data_cell_run.
  - unfold data_cell, parse_cell.
    destruct (decide (x = nbsp)); [by left|right]. split; [done|].
    by rewrite (bind_Raise _ _ _ _ _ (lookup_global_unbound "re" k Hre)).
Qed.

Lemma data_cell_Ok_inv x k c k' :
  data_cell x k = (Ok c, k') → parse_cell x = Ok c.
Proof.
  destruct (data_cell_cases x k) as [->|[_ ->]]; [|done]. by intros [= ->].
Qed.

Lemma column_name_Ok_inv x k c k' :
  column_name x k = (Ok c, k') → c = sub_newline_space x.
Proof.
  unfold column_name. intros H.
  apply bind_Ok_inv in H as ([] & k1 & _ & H). unfold ret in H.
  by injection H as <- _.
Qed.

Lemma grid_frame_Ok_inv lifetable k df k' :
  grid_frame lifetable k = (Ok df, k') → grid_frame_pure lifetable = Ok df.
Proof.
  unfold grid_frame, grid_frame_pure. intros H.
  apply bind_Ok_inv in H as ([] & k0 & _ & H).
  apply bind_Ok_inv in H as (data & k1 & Hdata & H).
  apply bind_Ok_inv in H as (header & k2 & Hheader & H).
  apply bind_Ok_inv in H as (cols & k3 & Hcols & H).
  unfold lift in H. injection H as H _.
  assert (Htr : traverse (traverse parse_cell) (drop 4 lifetable) = Ok data).
  { apply traverse_Ok. apply comprehension_Ok_inv in Hdata.
    eapply Forall2_impl; [exact Hdata|].
    intros row r (ka & kb & Hrow). apply traverse_Ok.
    apply comprehension_Ok_inv in Hrow.
    eapply Forall2_impl; [exact Hrow|].
    intros x c (kc & kd & Hx). by eapply data_cell_Ok_inv. }
  rewrite Htr. unfold header_row in Hheader.
  destruct (lifetable !! 1%nat) as [h|]; [|done].
  unfold ret in Hheader. injection Hheader as -> _.
  replace (sub_newline_space <$> header) with cols; [done|].
  apply comprehension_Ok_inv in Hcols. clear -Hcols.
  induction Hcols as [|x c xs cs (k1 & k2 & Hx) _ IH]; [done|].
  apply column_name_Ok_inv in Hx. simpl. by rewrite Hx, IH.
Qed.

Lemma parse_lifetable_Ok_inv lifetable year k out k' :
  parse_lifetable lifetable year k = (Ok out, k') →
  parse_lifetable_pure lifetable year = Ok out.
Proof.
  unfold parse_lifetable, parse_lifetable_pure. intros H.
  apply bind_Ok_inv in H as (df & k1 & Hdf & H).
  apply grid_frame_Ok_inv in Hdf. rewrite Hdf.
  apply bind_Ok_inv in H as ([] & k2 & _ & H).
  apply bind_Ok_inv in H as (cc & k3 & Hcc & H).
  unfold lift in Hcc. apply (f_equal fst) in Hcc. cbn [fst] in Hcc.
  rewrite Hcc. unfold ret in H. by injection H as <- _.
Qed.

Lemma parse_lifetable_Raise lifetable year row x :
  row ∈ drop 4 lifetable → x ∈ row → x ≠ nbsp →
  py_float (sub_newline_comma x) = None →
  ∀ k, ∃ e k', parse_lifetable lifetable year k = (Raise e, k').
Proof.
  intros Hrow Hx Hne Hfloat k. unfold parse_lifetable, grid_frame.
  unfold bind at 1. unfold bind at 1.
  destruct (lookup_global "pd" k) as [[[]|e] k0]; [|by eexists _, _].
  unfold bind at 1.
  destruct (comprehension_Raise (comprehension data_cell)
              (drop 4 lifetable) row Hrow) with (k := k0)
    as (e & k1 & ->); [|by eexists _, _].
  apply comprehension_Raise with (a := x); [done|].
  intros ka. destruct (data_cell_cases x ka) as [->|[_ ->]];
    [|by eexists _, _].
  unfold parse_cell. rewrite decide_False, Hfloat by done. by eexists _, _.
Qed.

Lemma stateless_ret {A} (a : A) : stateless (ret a).
Proof. by intros k. Qed.

Lemma stateless_raise {A} e : stateless (@raise A e).
Proof. by intros k. Qed.

Lemma stateless_lift {A} (r : result A) : stateless (lift r).
Proof. by intros k. Qed.

Lemma stateless_lookup_global n : stateless (lookup_global n).
Proof. intros k. unfold lookup_global. by destruct (decide _). Qed.

Lemma stateless_bind {A B} (m : M A) (f : A → M B) :
  stateless m → (∀ a, stateless (f a)) → stateless (bind m f).
Proof.
  intros Hm Hf k. unfold bind. specialize (Hm k).
  destruct (m k) as [[a|e] k1]; simpl in Hm; subst k1; [apply Hf|done].
Qed.

Lemma stateless_comprehension {A B} (f : A → M B) l :
  (∀ a, stateless (f a)) → stateless (comprehension f l).
Proof.
  intros Hf. induction l as [|a l IH]; simpl; [apply stateless_ret|].
  apply stateless_bind; [done|]. intros b.
  apply stateless_bind; [done|]. intros bs. apply stateless_ret.
Qed.

Ltac stateless_step :=
  lazymatch goal with
  | |- stateless (ret _) => apply stateless_ret
  | |- stateless (raise _) => apply stateless_raise
  | |- stateless (lift _) => apply stateless_lift
  | |- stateless (lookup_global _) => apply stateless_lookup_global
  | |- stateless (comprehension _ _) =>
      apply stateless_comprehension; intros ?
  | |- stateless (bind _ _) => apply stateless_bind; [|intros ?]
  | |- stateless (match ?x with _ => _ end) => destruct x
  end.

Lemma stateless_grid_frame lifetable : stateless (grid_frame lifetable).
Proof.
  unfold grid_frame, header_row. repeat stateless_step.
  - unfold data_cell. repeat stateless_step.
  - unfold column_name. repeat stateless_step.
Qed.

Lemma stateless_parse_lifetable lifetable year :
  stateless (parse_lifetable lifetable year).
Proof.
  unfold parse_lifetable. repeat stateless_step.
  apply stateless_grid_frame.
Qed.

(** ** Frames whose rows fit their labels *)

Lemma length_pad w r : (length r ≤ w)%nat → length (pad w r) = w.
Proof.
  intros H. unfold pad. rewrite length_app, length_replicate. lia.
Qed.

Lemma lookup_pad w r j x : r !! j = Some x → pad w r !! j = Some x.
Proof. intros H. unfold pad. by apply lookup_app_l_Some. Qed.

Lemma pd_DataFrame_Ok data cols df :
  pd_DataFrame data cols = Ok df →
  columns df = cols ∧ rows df = pad (length cols) <$> data ∧
  Forall (λ r, (length r ≤ length cols)%nat) data.
Proof.
  unfold pd_DataFrame. destruct data as [|r0 data'].
  - intros [= <-]. by split_and!.
  - set (data := r0 :: data').
    destruct (decide _) as [Hw|]; [|done]. intros [= <-]. simpl.
    split_and!; [done|by rewrite Hw|].
    apply Forall_forall. intros r Hr. rewrite Hw.
    apply max_list_elem_of_le. by apply list_elem_of_fmap_2.
Qed.

Lemma wf_pd_DataFrame data cols df :
  pd_DataFrame data cols = Ok df → wf_frame df.
Proof.
  intros H. apply pd_DataFrame_Ok in H as (Hc & Hr & Hle).
  unfold wf_frame. rewrite Hr, Hc. apply Forall_fmap.
  eapply Forall_impl; [exact Hle|]. intros r Hrl. simpl.
  by apply length_pad.
Qed.

Lemma wf_iloc_cols_to n df : wf_frame df → wf_frame (iloc_cols_to n df).
Proof.
  unfold wf_frame. simpl. intros H. apply Forall_fmap.
  eapply Forall_impl; [exact H|]. intros r Hr. simpl in *.
  rewrite !length_take. lia.
Qed.

Lemma wf_iloc_cols_from n df : wf_frame df → wf_frame (iloc_cols_from n df).
Proof.
  unfold wf_frame. simpl. intros H. apply Forall_fmap.
  eapply Forall_impl; [exact H|]. intros r Hr. simpl in *.
  rewrite !length_drop. lia.
Qed.

Lemma wf_assign label v df : wf_frame df → wf_frame (assign label v df).
Proof.
  unfold wf_frame, assign. intros H.
  destruct (decide _); simpl; apply Forall_fmap;
    (eapply Forall_impl; [exact H|]); intros r Hr; simpl in *.
  - rewrite length_zip_with. lia.
  - rewrite !length_app. simpl. lia.
Qed.

Lemma wf_rename old new df : wf_frame df → wf_frame (rename old new df).
Proof.
  unfold wf_frame, rename. simpl. intros H.
  eapply Forall_impl; [exact H|]. intros r Hr. simpl in *.
  by rewrite length_fmap.
Qed.

Lemma wf_dropna df : wf_frame df → wf_frame (dropna df).
Proof.
  unfold wf_frame, dropna. simpl. intros H.
  apply Forall_forall. intros r Hr. apply list_elem_of_filter in Hr as [_ Hr].
  rewrite Forall_forall in H. by apply H.
Qed.

Lemma length_reindex_row cols from r :
  length (reindex_row cols from r) = length cols.
Proof. unfold reindex_row. by rewrite length_fmap. Qed.

Lemma pd_concat_Ok dfs out :
  pd_concat dfs = Ok out →
  (Forall (λ d, columns d = columns out) dfs ∧
   rows out = unify_dtypes (concat (rows <$> dfs)))
  ∨ (Forall (λ d, NoDup (columns d)) dfs ∧
     columns out = first_seen [] (concat (columns <$> dfs)) ∧
     rows out = unify_dtypes (concat (reindex (columns out) <$> dfs))).
Proof.
  unfold pd_concat. destruct dfs as [|d ds]; [done|].
  destruct (forallb _ ds) eqn:Hsame.
  - intros [= <-]. left. simpl. split; [|done].
    constructor; [done|]. apply Forall_forall. intros d' Hd'.
    rewrite forallb_forall in Hsame.
    apply list_elem_of_In, Hsame in Hd'.
    by apply bool_decide_eq_true in Hd'.
  - destruct (forallb _ (d :: ds)) eqn:Huniq; [|done].
    intros [= <-]. right. simpl. split_and!; [|done|done].
    apply Forall_forall. intros d' Hd'.
    rewrite forallb_forall in Huniq.
    apply list_elem_of_In, Huniq in Hd'.
    by apply bool_decide_eq_true in Hd'.
Qed.

Lemma wf_pd_concat dfs out :
  Forall wf_frame dfs → pd_concat dfs = Ok out → wf_frame out.
Proof.
  intros Hwf H. apply pd_concat_Ok in H as [[Hcols Hrows]|(_ & _ & Hrows)];
    unfold wf_frame; rewrite Hrows; apply Forall_forall; intros r' Hr;
    apply list_elem_of_fmap in Hr as (r & -> & Hr); rewrite length_upcast_row.
  - apply elem_of_concat in Hr as (rs & Hr & Hrs).
    apply list_elem_of_fmap in Hrs as (d & -> & Hd).
    rewrite Forall_forall in Hwf, Hcols.
    rewrite <- (Hcols d Hd).
    specialize (Hwf d Hd). unfold wf_frame in Hwf.
    rewrite Forall_forall in Hwf. by apply Hwf.
  - apply elem_of_concat in Hr as (rs & Hr & Hrs).
    apply list_elem_of_fmap in Hrs as (d & -> & Hd).
    unfold reindex in Hr. apply list_elem_of_fmap in Hr as (r0 & -> & _).
    apply length_reindex_row.
Qed.

Lemma wf_df_male df : wf_frame df → wf_frame (df_male df).
Proof. intros H. by apply wf_assign, wf_iloc_cols_to. Qed.

Lemma wf_df_female df : wf_frame df → wf_frame (df_female df).
Proof. intros H. by apply wf_assign, wf_iloc_cols_from. Qed.

Lemma wf_finish year cc : wf_frame cc → wf_frame (finish year cc).
Proof. intros H. by apply wf_dropna, wf_assign, wf_rename. Qed.

(** What a successful [pd.DataFrame(...)] call of the parser returns. *)
Lemma grid_frame_pure_Ok lifetable df :
  grid_frame_pure lifetable = Ok df →
  ∃ header data,
    lifetable !! 1%nat = Some header ∧
    columns df = sub_newline_space <$> header ∧
    Forall2 (Forall2 (λ x c, parse_cell x = Ok c)) (drop 4 lifetable) data ∧
    rows df = pad (length header) <$> data ∧
    wf_frame df.
Proof.
  unfold grid_frame_pure.
  destruct (traverse _ (drop 4 lifetable)) as [data|] eqn:Hdata; [|done].
  destruct (lifetable !! 1%nat) as [header|]; [|done].
  intros H. exists header, data.
  pose proof (wf_pd_DataFrame _ _ _ H) as Hwf.
  apply pd_DataFrame_Ok in H as (Hc & Hr & _).
  rewrite length_fmap in Hr. split_and!; try done.
  apply traverse_Ok in Hdata.
  eapply Forall2_impl; [exact Hdata|]. intros row r Hrow.
  by apply traverse_Ok.
Qed.

Lemma parse_cell_Ok x c :
  parse_cell x = Ok c →
  (x = nbsp ∧ c = CNull)
  ∨ (x ≠ nbsp ∧ ∃ f, py_float (sub_newline_comma x) = Some f
                     ∧ c = CFloat f).
Proof.
  unfold parse_cell. destruct (decide (x = nbsp)) as [->|Hx].
  - intros [= <-]. by left.
  - destruct (py_float _) as [f|] eqn:Hf; [|done].
    intros [= <-]. right. eauto.
Qed.

Lemma parse_lifetable_pure_Ok lifetable year out :
  parse_lifetable_pure lifetable year = Ok out →
  ∃ df cc, grid_frame_pure lifetable = Ok df ∧
           pd_concat [df_male df; df_female df] = Ok cc ∧
           out = finish year cc ∧ wf_frame cc.
Proof.
  unfold parse_lifetable_pure.
  destruct (grid_frame_pure lifetable) as [df|] eqn:Hdf; [|done].
  destruct (pd_concat _) as [cc|] eqn:Hcc; [|done].
  intros [= <-]. exists df, cc. split_and!; try done.
  apply grid_frame_pure_Ok in Hdf as (? & ? & _ & _ & _ & _ & Hwf).
  eapply wf_pd_concat; [|exact Hcc].
  repeat constructor; [by apply wf_df_male | by apply wf_df_female].
Qed.

(** ** Frames without ints

    The cells that the parser reads from the grid are floats or missing,
    and the tag [sex] is a string, so stacking the two halves converts
    nothing. *)

Lemma unify_dtypes_no_int rs :
  Forall (Forall (λ c, is_int c = false)) rs → unify_dtypes rs = rs.
Proof.
  intros H. apply unify_dtypes_id. intros r j z Hr Hj.
  rewrite Forall_forall in H. specialize (H r Hr).
  rewrite Forall_lookup in H. by specialize (H j _ Hj).
Qed.

Lemma Forall_concat_2 {A} (P : A → Prop) ls :
  Forall (Forall P) ls → Forall P (concat ls).
Proof.
  intros H. apply Forall_forall. intros x (l & Hx & Hl)%elem_of_concat.
  rewrite Forall_forall in H. specialize (H l Hl).
  rewrite Forall_forall in H. by apply H.
Qed.

Lemma no_int_grid_frame lifetable df :
  grid_frame_pure lifetable = Ok df → no_int df.
Proof.
  intros (header & data & _ & _ & Hd & Hr & _)%grid_frame_pure_Ok.
  unfold no_int. rewrite Hr. apply Forall_fmap, Forall_forall.
  intros r Hr0. simpl. unfold pad. apply Forall_app. split.
  - apply list_elem_of_lookup in Hr0 as [i Hi].
    destruct (Forall2_lookup_r _ _ _ _ _ Hd Hi) as (row & _ & Hcells).
    apply Forall_lookup. intros j c Hc.
    destruct (Forall2_lookup_r _ _ _ _ _ Hcells Hc) as (x & _ & Hx).
    by apply parse_cell_Ok in Hx as [[_ ->]|[_ (f & _ & ->)]].
  - by apply Forall_replicate.
Qed.

Lemma no_int_iloc_cols_to n df : no_int df → no_int (iloc_cols_to n df).
Proof.
  unfold no_int. simpl. intros H. apply Forall_fmap.
  eapply Forall_impl; [exact H|]. intros r Hr. simpl. by apply Forall_take.
Qed.

Lemma no_int_iloc_cols_from n df : no_int df → no_int (iloc_cols_from n df).
Proof.
  unfold no_int. simpl. intros H. apply Forall_fmap.
  eapply Forall_impl; [exact H|]. intros r Hr. simpl. by apply Forall_drop.
Qed.

Lemma no_int_assign label v df :
  is_int v = false → no_int df → no_int (assign label v df).
Proof.
  unfold no_int, assign. intros Hv H.
  destruct (decide _); simpl; apply Forall_fmap;
    (eapply Forall_impl; [exact H|]); intros r Hr; simpl.
  - apply Forall_lookup. intros j c Hc.
    apply lookup_zip_with_Some in Hc as (l & x & -> & _ & Hx).
    destruct (decide _); [done|]. rewrite Forall_lookup in Hr. by eapply Hr.
  - apply Forall_app. split; [done|]. by constructor.
Qed.

Lemma no_int_reindex cols df :
  no_int df → Forall (Forall (λ c, is_int c = false)) (reindex cols df).
Proof.
  unfold no_int, reindex. intros H. apply Forall_fmap.
  eapply Forall_impl; [exact H|]. intros r Hr. simpl.
  unfold reindex_row. apply Forall_fmap, Forall_forall. intros c _. simpl.
  destruct (index_of _ _) as [i|]; [|done].
  destruct (r !! i) as [x|] eqn:Hx; [|done]. simpl.
  rewrite Forall_lookup in Hr. by eapply Hr.
Qed.

Lemma no_int_pd_concat dfs out :
  Forall no_int dfs → pd_concat dfs = Ok out →
  no_int out ∧
  (rows out = concat (rows <$> dfs)
   ∨ rows out = concat (reindex (columns out) <$> dfs)).
Proof.
  intros H Hc. apply pd_concat_Ok in Hc as [[_ Hr]|(_ & _ & Hr)].
  - assert (Hn : Forall (Forall (λ c, is_int c = false))
                        (concat (rows <$> dfs))).
    { apply Forall_concat_2, Forall_fmap. exact H. }
    rewrite unify_dtypes_no_int in Hr by done.
    unfold no_int. rewrite Hr. split; [done|by left].
  - assert (Hn : Forall (Forall (λ c, is_int c = false))
                        (concat (reindex (columns out) <$> dfs))).
    { apply Forall_concat_2, Forall_fmap.
      eapply Forall_impl; [exact H|]. intros d Hd. by apply no_int_reindex. }
    rewrite unify_dtypes_no_int in Hr by done.
    unfold no_int. rewrite Hr. split; [done|by right].
Qed.

Lemma no_int_halves lifetable df cc :
  grid_frame_pure lifetable = Ok df →
  pd_concat [df_male df; df_female df] = Ok cc → no_int cc.
Proof.
  intros Hdf Hcc. apply no_int_grid_frame in Hdf.
  eapply no_int_pd_concat; [|exact Hcc].
  repeat constructor; apply no_int_assign; try done;
    [by apply no_int_iloc_cols_to|by apply no_int_iloc_cols_from].
Qed.

Lemma traverse_Raise_inv {A B} (g : A → result B) l e :
  traverse g l = Raise e → ∃ a, a ∈ l ∧ g a = Raise e.
Proof.
  induction l as [|a l IH]; simpl; [done|].
  destruct (g a) as [b|e0] eqn:Ha.
  - destruct (traverse g l) as [bs|e1]; [done|]. intros [= <-].
    destruct (IH eq_refl) as (a' & Hin & Ha'). exists a'.
    split; [by right|done].
  - intros [= <-]. exists a. split; [by left|done].
Qed.

Lemma traverse_exists {A B} (g : A → result B) l :
  Forall (λ a, ∃ b, g a = Ok b) l → ∃ bs, traverse g l = Ok bs.
Proof.
  induction 1 as [|a l [b Hb] _ [bs Hbs]]; simpl; [by eexists|].
  rewrite Hb, Hbs. by eexists.
Qed.

Lemma parse_cell_Raise x e :
  parse_cell x = Raise e →
  x ≠ nbsp ∧ py_float (sub_newline_comma x) = None ∧
  e = ValueError_float (sub_newline_comma x).
Proof.
  unfold parse_cell. destruct (decide (x = nbsp)); [done|].
  destruct (py_float _); [done|]. by intros [= <-].
Qed.

Lemma dropna_no_null df row c :
  row ∈ rows (dropna df) → c ∈ row → is_null c = false.
Proof.
  unfold dropna. simpl. intros [Hrow _]%list_elem_of_filter Hc.
  rewrite forallb_forall in Hrow.
  apply list_elem_of_In, Hrow in Hc. by apply negb_true_iff in Hc.
Qed.

(** ** Life tables: the claims on the parser *)

(** C3: the placeholder cell is read as a null without being parsed; a
    frame that [parse_lifetable] returns has a value in every column of
    every row, none of them null; and a data cell that is neither the
    placeholder nor a float literal stops the parser with an exception,
    the [ValueError] of [float] when [pd] and [re] are bound. *)
Theorem missing_cells_become_null lifetable year k :
  data_cell nbsp k = (Ok CNull, k) ∧
  (∀ df k', grid_frame lifetable k = (Ok df, k') →
     ∀ i j row, drop 4 lifetable !! i = Some row → row !! j = Some nbsp →
       ∃ r, rows df !! i = Some r ∧ r !! j = Some CNull) ∧
  (∀ out k', parse_lifetable lifetable year k = (Ok out, k') →
     ∀ row, row ∈ rows out →
       length row = length (columns out) ∧
       ∀ c, c ∈ row → is_null c = false) ∧
  (∀ row x, row ∈ drop 4 lifetable → x ∈ row → x ≠ nbsp →
     py_float (sub_newline_comma x) = None →
     ∃ e k',
       parse_lifetable lifetable year k = (Raise e, k') ∧
       (py "pd" ∈ globals k → py "re" ∈ globals k →
        k' = k ∧
        ∃ row' x',
          row' ∈ drop 4 lifetable ∧ x' ∈ row' ∧ x' ≠ nbsp ∧
          py_float (sub_newline_comma x') = None ∧
          e = ValueError_float (sub_newline_comma x'))).
Proof.
  split_and!.
  - done.
  - intros df k' Hdf. apply grid_frame_Ok_inv in Hdf.
    apply grid_frame_pure_Ok in Hdf as (header & data & _ & _ & Hd & Hr & _).
    intros i j row Hi Hj.
    destruct (Forall2_lookup_l _ _ _ _ _ Hd Hi) as (r0 & Hr0 & Hcells).
    destruct (Forall2_lookup_l _ _ _ _ _ Hcells Hj) as (c & Hc & Hparse).
    exists (pad (length header) r0). split.
    + by rewrite Hr, list_lookup_fmap, Hr0.
    + apply lookup_pad. rewrite Hc. f_equal.
      by apply parse_cell_Ok in Hparse as [[_ ->]|[? _]].
  - intros out k' Hout. apply parse_lifetable_Ok_inv in Hout.
    apply parse_lifetable_pure_Ok in Hout as (df & cc & _ & _ & -> & Hwf).
    intros row Hrow. split.
    + apply (wf_finish year) in Hwf. unfold wf_frame in Hwf.
      rewrite Forall_forall in Hwf. by apply Hwf.
    + intros c Hc. by eapply dropna_no_null.
  - intros row x Hrow Hx Hne Hfloat.
    destruct (parse_lifetable_Raise lifetable year row x Hrow Hx Hne Hfloat k)
      as (e & k' & Hrun).
    exists e, k'. split; [done|]. intros Hpd Hre.
    rewrite parse_lifetable_run in Hrun by done.
    injection Hrun as Hrun <-. split; [done|].
    unfold parse_lifetable_pure, grid_frame_pure in Hrun.
    destruct (traverse (traverse parse_cell) (drop 4 lifetable))
      as [data|e'] eqn:Hall.
    { exfalso. apply traverse_Ok in Hall.
      apply list_elem_of_lookup in Hrow as [i Hi].
      destruct (Forall2_lookup_l _ _ _ _ _ Hall Hi) as (r & _ & Hr).
      apply traverse_Ok in Hr.
      apply list_elem_of_lookup in Hx as [j Hj].
      destruct (Forall2_lookup_l _ _ _ _ _ Hr Hj) as (c & _ & Hc).
      unfold parse_cell in Hc. by rewrite decide_False, Hfloat in Hc. }
    injection Hrun as ->.
    apply traverse_Raise_inv in Hall as (row' & Hrow' & Hall).
    apply traverse_Raise_inv in Hall as (x' & Hx' & Hcell).
    apply parse_cell_Raise in Hcell as (Hne' & Hfloat' & ->).
    by exists row', x'.
Qed.

Lemma max_list_same n l : l ≠ [] → Forall (λ m, m = n) l → max_list l = n.
Proof.
  destruct l as [|m l]; [done|]. intros _ H.
  apply Forall_cons in H as [-> H]. simpl.
  induction H as [|m l -> _ IH]; simpl; lia.
Qed.

Lemma pad_full w r : length r = w → pad w r = r.
Proof.
  intros <-. unfold pad. by rewrite Nat.sub_diag, app_nil_r.
Qed.

Lemma well_formed_grid_frame lifetable :
  well_formed lifetable →
  ∃ header data,
    lifetable !! 1%nat = Some header ∧
    (py "sex" ∉ sub_newline_space <$> header) ∧
    Forall2 (Forall2 (λ x c, parse_cell x = Ok c)) (drop 4 lifetable) data ∧
    grid_frame_pure lifetable = Ok (Frame (sub_newline_space <$> header) data).
Proof.
  intros (header & Hh & Hsex & Hrows).
  assert (Hex : ∃ data, traverse (traverse parse_cell) (drop 4 lifetable)
                        = Ok data).
  { apply traverse_exists. eapply Forall_impl; [exact Hrows|].
    intros row [_ Hcells]. apply traverse_exists.
    eapply Forall_impl; [exact Hcells|]. intros x Hx. simpl in Hx.
    unfold parse_cell. destruct (decide (x = nbsp)); [by eexists|].
    destruct Hx as [?|[f ->]]; [done|by eexists]. }
  destruct Hex as [data Hdata]. exists header, data.
  assert (Hd : Forall2 (Forall2 (λ x c, parse_cell x = Ok c))
                       (drop 4 lifetable) data).
  { apply traverse_Ok in Hdata. eapply Forall2_impl; [exact Hdata|].
    intros row r Hr. by apply traverse_Ok. }
  split_and!; try done.
  unfold grid_frame_pure. rewrite Hdata, Hh.
  assert (Hlen : Forall (λ r : list cell, length r = length header) data).
  { apply Forall_forall. intros r Hr.
    apply list_elem_of_lookup in Hr as [i Hi].
    destruct (Forall2_lookup_r _ _ _ _ _ Hd Hi) as (row & Hrow & Hcells).
    rewrite <- (Forall2_length _ _ _ Hcells).
    rewrite Forall_forall in Hrows.
    apply list_elem_of_lookup_2 in Hrow. by destruct (Hrows row Hrow). }
  unfold pd_DataFrame. destruct data as [|r0 data']; [done|].
  set (data := r0 :: data') in *.
  assert (Hmax : max_list (length <$> data) = length header).
  { apply max_list_same; [done|]. by apply Forall_fmap. }
  rewrite Hmax, length_fmap, decide_True by done. do 2 f_equal.
  rewrite <- (list_fmap_id data) at 2. apply Forall_fmap_ext.
  eapply Forall_impl; [exact Hlen|]. intros r Hr. by apply pad_full.
Qed.

Lemma pd_concat_two a b :
  columns b = columns a ∨ (NoDup (columns a) ∧ NoDup (columns b)) →
  ∃ cc, pd_concat [a; b] = Ok cc.
Proof.
  intros H. unfold pd_concat. simpl.
  destruct (bool_decide (columns b = columns a)) eqn:Hsame;
    simpl; [by eexists|].
  destruct H as [H|[Ha Hb]].
  - apply bool_decide_eq_false in Hsame. done.
  - rewrite !bool_decide_eq_true_2 by done. simpl. by eexists.
Qed.

(** The parser returns on a well-formed grid whose two halves carry the
    same labels, or labels that do not repeat within a half. *)
Lemma parse_lifetable_succeeds lifetable year k header :
  py "pd" ∈ globals k → py "re" ∈ globals k →
  well_formed lifetable → lifetable !! 1%nat = Some header →
  (drop 8 (sub_newline_space <$> header)
   = take 7 (sub_newline_space <$> header)
   ∨ (NoDup (take 7 (sub_newline_space <$> header)) ∧
      NoDup (drop 8 (sub_newline_space <$> header)))) →
  ∃ out, parse_lifetable lifetable year k = (Ok out, k).
Proof.
  intros Hpd Hre Hwf Hh Hcols.
  destruct (well_formed_grid_frame lifetable Hwf)
    as (header' & data & Hh' & Hsex & _ & Hdf).
  rewrite Hh in Hh'. injection Hh' as <-.
  rewrite parse_lifetable_run by done. unfold parse_lifetable_pure.
  rewrite Hdf.
  assert (Hm : py "sex" ∉ take 7 (sub_newline_space <$> header)).
  { intros Hin. apply Hsex. by eapply subseteq_take. }
  assert (Hf : py "sex" ∉ drop 8 (sub_newline_space <$> header)).
  { intros Hin. apply Hsex. by eapply subseteq_drop. }
  destruct (pd_concat_two
              (df_male (Frame (sub_newline_space <$> header) data))
              (df_female (Frame (sub_newline_space <$> header) data)))
    as [cc ->]; [|by eexists].
  unfold df_male, df_female. rewrite !assign_fresh by done. simpl.
  destruct Hcols as [->|[Hn7 Hn8]]; [by left|right].
  split; apply NoDup_app; (split_and!; [done| |apply NoDup_singleton]);
    intros c Hc ->%list_elem_of_singleton; done.
Qed.

(** C4: on a well-formed grid the male table is columns 0 to 6 of the
    grid frame and the female table columns 8 onward, column 7 is in
    neither, each row is tagged M or F in a new last column [sex], and
    both tables have one row per data row of the grid. *)
Theorem sex_split lifetable year k :
  py "pd" ∈ globals k → py "re" ∈ globals k →
  well_formed lifetable →
  ∃ df,
    grid_frame lifetable k = (Ok df, k) ∧
    df_male df
    = Frame (take 7 (columns df) ++ [py "sex"])
            ((λ r, take 7 r ++ [CStr (py "M")]) <$> rows df) ∧
    df_female df
    = Frame (drop 8 (columns df) ++ [py "sex"])
            ((λ r, drop 8 r ++ [CStr (py "F")]) <$> rows df) ∧
    nrows (df_male df) = nrows (df_female df) ∧
    nrows (df_male df) = (length lifetable - 4)%nat ∧
    parse_lifetable lifetable year k
    = (match pd_concat [df_male df; df_female df] with
       | Ok cc => Ok (finish year cc)
       | Raise e => Raise e
       end, k).
Proof.
  intros Hpd Hre Hwf.
  destruct (well_formed_grid_frame lifetable Hwf)
    as (header & data & Hh & Hsex & Hd & Hdf).
  eexists. split; [by rewrite grid_frame_run, Hdf|].
  assert (Hm : py "sex" ∉ take 7 (sub_newline_space <$> header)).
  { intros Hin. apply Hsex. by eapply subseteq_take. }
  assert (Hf : py "sex" ∉ drop 8 (sub_newline_space <$> header)).
  { intros Hin. apply Hsex. by eapply subseteq_drop. }
  unfold df_male, df_female.
  rewrite !assign_fresh by done. simpl.
  rewrite <- !list_fmap_compose. split_and!; try done.
  - unfold nrows. simpl. by rewrite !length_fmap.
  - unfold nrows. simpl.
    by rewrite length_fmap, <- (Forall2_length _ _ _ Hd), length_drop.
  - rewrite parse_lifetable_run by done. unfold parse_lifetable_pure.
    rewrite Hdf. unfold df_male, df_female.
    rewrite !assign_fresh by done. simpl.
    by rewrite <- !list_fmap_compose.
Qed.



Lemma columns_assign label v df c :
  c ∈ columns (assign label v df) ↔ c ∈ columns df ∨ c = label.
Proof.
  unfold assign. destruct (decide (label ∈ columns df)) as [Hin|Hin]; simpl.
  - split; [by left|]. by intros [?| ->].
  - rewrite elem_of_app, list_elem_of_singleton. done.
Qed.

Lemma columns_rename old new df c :
  c ∈ columns (rename old new df)
  ↔ ∃ c0, c0 ∈ columns df ∧ c = relabel old new c0.
Proof.
  unfold rename. simpl. rewrite list_elem_of_fmap.
  split; intros (c0 & ? & ?); by exists c0.
Qed.

Lemma get_lifetables_Ok_inv k out k' :
  get_lifetables k = (Ok out, k') →
  ∃ frames combined k1,
    comprehension (λ year, do! lookup_global "get_lifetable" in
                           get_lifetable year) years k
    = (Ok frames, k1) ∧
    k' = k1 ∧
    pd_concat frames = Ok combined ∧
    out = rename (py "") (py "ex") combined.
Proof.
  unfold get_lifetables. intros H.
  apply bind_Ok_inv in H as ([] & k0 & Hpd & H).
  unfold lookup_global in Hpd. destruct (decide _); [|done].
  injection Hpd as <-.
  apply bind_Ok_inv in H as (frames & k1 & Hframes & H).
  apply bind_Ok_inv in H as (combined & k2 & Hc & H).
  unfold lift in Hc. injection Hc as Hc <-. unfold ret in H.
  injection H as <- <-. by exists frames, combined, k1.
Qed.

(** ** Life tables: the decade stride *)

Lemma index_of_Some c cols :
  c ∈ cols → ∃ i, index_of c cols = Some i ∧ cols !! i = Some c.
Proof.
  induction cols as [|c' cols IH]; [by intros ?%elem_of_nil|].
  intros Hin. simpl. destruct (decide (c' = c)) as [->|Hne].
  - by exists 0%nat.
  - apply elem_of_cons in Hin as [?|Hin]; [done|].
    destruct (IH Hin) as (i & -> & Hi). by exists (S i).
Qed.

Lemma assign_year_tagged y df :
  wf_frame df → year_tagged y (assign (py "year") (CInt y) df).
Proof.
  intros Hwf. split; [by apply wf_assign|].
  split; [apply columns_assign; by right|].
  unfold assign, wf_frame in *. rewrite Forall_forall in Hwf.
  destruct (decide _) as [Hin|Hin]; simpl;
    intros row (r & -> & Hr)%list_elem_of_fmap j Hj;
    specialize (Hwf r Hr).
  - destruct (lookup_lt_is_Some_2 r j) as [x Hx].
    { rewrite Hwf. by eapply lookup_lt_Some. }
    rewrite lookup_zip_with, Hj. simpl. rewrite Hx. simpl.
    by rewrite ?decide_True.
  - destruct (decide (j < length (columns df))%nat) as [Hlt|Hge].
    + rewrite lookup_app_l in Hj by done.
      exfalso. apply Hin. by eapply list_elem_of_lookup_2.
    + assert (j = length (columns df)) as ->.
      { apply lookup_lt_Some in Hj. rewrite length_app in Hj.
        simpl in Hj. lia. }
      rewrite <- Hwf. by rewrite lookup_app_r, Nat.sub_diag.
Qed.

Lemma finish_year_tagged y cc : wf_frame cc → year_tagged y (finish y cc).
Proof.
  intros Hwf. unfold finish.
  destruct (assign_year_tagged y (rename (py "x") (py "age") cc))
    as (Hw & Hin & Hrows); [by apply wf_rename|].
  split; [by apply wf_dropna|]. split; [done|].
  intros row Hrow. apply Hrows.
  unfold dropna in Hrow. simpl in Hrow.
  by apply list_elem_of_filter in Hrow as [_ ?].
Qed.

Lemma scrape_lifetable_Ok_inv y k lifetable k' :
  scrape_lifetable y k = (Ok lifetable, k') →
  k' = Kernel (globals k) (cwd k) (requested k ++ [lifetable_url y]).
Proof.
  unfold scrape_lifetable. intros H.
  apply bind_Ok_inv in H as ([] & k0 & H0 & H).
  unfold lookup_global in H0. destruct (decide _); [|done].
  injection H0 as <-.
  apply bind_Ok_inv in H as ([] & k1 & H1 & H).
  unfold log_request in H1. injection H1 as <-.
  apply bind_Ok_inv in H as (content & k2 & H2 & H).
  unfold lift in H2. injection H2 as _ <-.
  apply bind_Ok_inv in H as ([] & k3 & H3 & H).
  unfold lookup_global in H3. destruct (decide _); [|done].
  injection H3 as <-.
  destruct (find_all_table content !! 1%nat); [|done].
  apply bind_Ok_inv in H as ([] & k4 & H4 & H).
  unfold lookup_global in H4. destruct (decide _); [|done].
  injection H4 as <-. unfold lift in H. by injection H as _ <-.
Qed.

Lemma get_lifetable_Ok_inv y k df k' :
  get_lifetable y k = (Ok df, k') →
  k' = Kernel (globals k) (cwd k) (requested k ++ [lifetable_url y]) ∧
  year_tagged y df.
Proof.
  unfold get_lifetable. intros H.
  apply bind_Ok_inv in H as ([] & k0 & H0 & H).
  unfold lookup_global in H0. destruct (decide _); [|done].
  injection H0 as <-.
  apply bind_Ok_inv in H as (lifetable & k1 & H1 & H).
  apply scrape_lifetable_Ok_inv in H1 as ->.
  apply bind_Ok_inv in H as ([] & k2 & H2 & H).
  unfold lookup_global in H2. destruct (decide _); [|done].
  injection H2 as <-.
  pose proof (stateless_parse_lifetable lifetable y
                (Kernel (globals k) (cwd k)
                        (requested k ++ [lifetable_url y]))) as Hk.
  rewrite H in Hk. simpl in Hk. split; [done|].
  apply parse_lifetable_Ok_inv in H.
  apply parse_lifetable_pure_Ok in H as (? & cc & _ & _ & -> & Hwf).
  by apply finish_year_tagged.
Qed.

Lemma lifetables_comprehension ys : ∀ k frames k',
  comprehension (λ year, do! lookup_global "get_lifetable" in
                         get_lifetable year) ys k
  = (Ok frames, k') →
  k' = Kernel (globals k) (cwd k)
              (requested k ++ (lifetable_url <$> ys)) ∧
  Forall2 year_tagged ys frames.
Proof.
  induction ys as [|y ys IH]; intros k frames k'; simpl.
  - unfold ret. intros [= <- <-]. rewrite app_nil_r.
    split; [by destruct k|constructor].
  - intros H. apply bind_Ok_inv in H as (df & k1 & H1 & H).
    apply bind_Ok_inv in H1 as ([] & k0 & H0 & H1).
    unfold lookup_global in H0. destruct (decide _); [|done].
    injection H0 as <-.
    apply get_lifetable_Ok_inv in H1 as [-> Hdf].
    apply bind_Ok_inv in H as (dfs & k2 & H2 & H).
    unfold ret in H. injection H as <- <-.
    apply IH in H2 as [-> Hdfs]. simpl.
    split; [by rewrite <- app_assoc|by constructor].
Qed.

(** Whatever the outcome, the pages requested by [get_lifetables] are
    those of the first years of the stride, in order. *)
Lemma scrape_lifetable_requested y k :
  requested (scrape_lifetable y k).2 = requested k
  ∨ requested (scrape_lifetable y k).2 = requested k ++ [lifetable_url y].
Proof.
  unfold scrape_lifetable, bind, lookup_global, log_request, lift, raise.
  destruct (decide (py "requests" ∈ globals k)); [|by left]. simpl.
  destruct (requests_get _); [|by right]. simpl.
  destruct (decide (py "BeautifulSoup" ∈ globals k)); [|by right].
  destruct (find_all_table _ !! 1%nat); [|by right]. simpl.
  destruct (decide (py "Extractor" ∈ globals k)); by right.
Qed.

Lemma get_lifetable_requested y k r k' :
  get_lifetable y k = (r, k') →
  requested k' = requested k
  ∨ requested k' = requested k ++ [lifetable_url y].
Proof.
  unfold get_lifetable. unfold bind at 1, lookup_global at 1.
  destruct (decide _); [|intros [= _ <-]; by left].
  unfold bind at 1. pose proof (scrape_lifetable_requested y k) as Hs.
  destruct (scrape_lifetable y k) as [[lifetable|err] k1]; simpl in Hs;
    [|by intros [= _ <-]].
  unfold bind at 1, lookup_global at 1.
  destruct (decide _); [|by intros [= _ <-]].
  intros H. pose proof (stateless_parse_lifetable lifetable y k1) as Hk.
  rewrite H in Hk. simpl in Hk. by subst.
Qed.

Lemma lifetables_requests_prefix ys : ∀ k,
  ∃ n, requested (comprehension (λ year, do! lookup_global "get_lifetable" in
                                         get_lifetable year) ys k).2
       = requested k ++ (lifetable_url <$> take n ys).
Proof.
  induction ys as [|y ys IH]; intros k; simpl.
  - exists 0%nat. by rewrite app_nil_r.
  - unfold bind at 1. unfold bind at 1, lookup_global at 1.
    destruct (decide _); [|exists 0%nat; by rewrite app_nil_r].
    destruct (get_lifetable y k) as [[df|err] k1] eqn:Hget.
    + apply get_lifetable_Ok_inv in Hget as [-> _].
      unfold bind at 1.
      destruct (IH (Kernel (globals k) (cwd k)
                           (requested k ++ [lifetable_url y]))) as [n Hn].
      exists (S n).
      destruct (comprehension _ ys _) as [[dfs|err] k2]; simpl in *;
        by rewrite Hn, <- app_assoc.
    + destruct (get_lifetable_requested _ _ _ _ Hget) as [Hr|Hr];
        [exists 0%nat|exists 1%nat]; simpl; rewrite Hr;
        by rewrite ?app_nil_r, ?take_0.
Qed.

Lemma get_lifetables_requests_prefix k :
  ∃ n, requested (get_lifetables k).2
       = requested k ++ (lifetable_url <$> take n years).
Proof.
  unfold get_lifetables. unfold bind at 1, lookup_global at 1.
  destruct (decide _); [|exists 0%nat; by rewrite app_nil_r].
  unfold bind at 1. destruct (lifetables_requests_prefix years k) as [n Hn].
  exists n. destruct (comprehension _ years k) as [[frames|err] k1]; [|done].
  unfold bind, lift, ret. simpl in *. by destruct (pd_concat frames).
Qed.

Lemma reindex_row_year y cols from r :
  py "year" ∈ from → year_is y from r →
  year_is y cols (reindex_row cols from r).
Proof.
  intros Hin Hr j Hj. unfold reindex_row.
  rewrite list_lookup_fmap, Hj. simpl.
  destruct (index_of_Some _ _ Hin) as (i & -> & Hi).
  by rewrite (Hr i Hi).
Qed.

Lemma ints_under_year_assign y df :
  wf_frame df → no_int df → ints_under_year (assign (py "year") (CInt y) df).
Proof.
  unfold ints_under_year, assign, no_int, wf_frame. intros Hwf Hn.
  rewrite Forall_forall in Hwf, Hn.
  destruct (decide _) as [Hin|Hin]; simpl;
    intros row j z (r & -> & Hr)%list_elem_of_fmap Hj.
  - apply lookup_zip_with_Some in Hj as (c & x & Heq & Hc & Hx).
    destruct (decide (c = py "year")) as [->|]; [done|]. subst x.
    specialize (Hn r Hr). rewrite Forall_lookup in Hn.
    by specialize (Hn j _ Hx).
  - destruct (decide (j < length r)%nat) as [Hlt|Hge].
    + rewrite lookup_app_l in Hj by done.
      specialize (Hn r Hr). rewrite Forall_lookup in Hn.
      by specialize (Hn j _ Hj).
    + assert (j = length r) as ->.
      { apply lookup_lt_Some in Hj. rewrite length_app in Hj.
        simpl in Hj. lia. }
      rewrite (Hwf r Hr). by rewrite lookup_app_r, Nat.sub_diag.
Qed.

Lemma finish_ints_under_year y cc :
  wf_frame cc → no_int cc → ints_under_year (finish y cc).
Proof.
  intros Hwf Hn. unfold finish.
  pose proof (ints_under_year_assign y (rename (py "x") (py "age") cc)
                (wf_rename _ _ _ Hwf) Hn) as H.
  intros row j z Hrow. apply H.
  unfold dropna in Hrow. simpl in Hrow.
  by apply list_elem_of_filter in Hrow as [_ ?].
Qed.

Lemma get_lifetable_Ok_ints y k df k' :
  get_lifetable y k = (Ok df, k') → ints_under_year df.
Proof.
  unfold get_lifetable. intros H.
  apply bind_Ok_inv in H as ([] & k0 & _ & H).
  apply bind_Ok_inv in H as (lifetable & k1 & _ & H).
  apply bind_Ok_inv in H as ([] & k2 & _ & H).
  apply parse_lifetable_Ok_inv in H.
  apply parse_lifetable_pure_Ok in H as (d & cc & Hd & Hcc & -> & Hwf).
  apply finish_ints_under_year; [done|]. by eapply no_int_halves.
Qed.

Lemma lifetables_fetched ys : ∀ k frames k',
  comprehension (λ year, do! lookup_global "get_lifetable" in
                         get_lifetable year) ys k
  = (Ok frames, k') →
  fetched k ys frames ∧ Forall ints_under_year frames.
Proof.
  induction ys as [|y ys IH]; intros k frames k'; simpl.
  - unfold ret. intros [= <- <-]. split; [|constructor].
    split; [done|]. intros i y df Hi. by rewrite lookup_nil in Hi.
  - intros H. apply bind_Ok_inv in H as (df & k1 & H1 & H).
    apply bind_Ok_inv in H1 as ([] & k0 & H0 & H1).
    unfold lookup_global in H0. destruct (decide _); [|done].
    injection H0 as <-.
    pose proof (get_lifetable_Ok_ints _ _ _ _ H1) as Hint.
    pose proof H1 as Hget. apply get_lifetable_Ok_inv in H1 as [-> _].
    apply bind_Ok_inv in H as (dfs & k2 & H2 & H).
    unfold ret in H. injection H as <- <-.
    apply IH in H2 as [[Hlen Hf] Hints]. split; [|by constructor].
    split; [simpl; by rewrite Hlen|].
    intros [|i] y' df' Hi Hfi; simpl in Hi, Hfi.
    + injection Hi as <-. injection Hfi as <-. simpl.
      rewrite app_nil_r. by destruct k.
    + specialize (Hf i y' df' Hi Hfi). simpl in Hf.
      rewrite <- !app_assoc in Hf. exact Hf.
Qed.

Lemma index_of_lookup c cols i :
  index_of c cols = Some i → cols !! i = Some c.
Proof.
  revert i. induction cols as [|c' cols IH]; intros i; simpl; [done|].
  destruct (decide (c' = c)) as [->|]; [by intros [= <-]|].
  destruct (index_of c cols) as [i'|]; [|done].
  intros [= <-]. by apply IH.
Qed.

Lemma index_of_NoDup c cols j :
  NoDup cols → cols !! j = Some c → index_of c cols = Some j.
Proof.
  intros Hnd Hj.
  destruct (index_of_Some c cols) as (i & Hi & Hc);
    [by eapply list_elem_of_lookup_2|].
  rewrite Hi. f_equal. by eapply NoDup_lookup.
Qed.

Lemma reindex_row_same cols r :
  NoDup cols → length r = length cols → reindex_row cols cols r = r.
Proof.
  intros Hnd Hlen. apply list_eq. intros j. unfold reindex_row.
  rewrite list_lookup_fmap. destruct (cols !! j) as [c|] eqn:Hc; simpl.
  - rewrite (index_of_NoDup c cols j) by done.
    destruct (lookup_lt_is_Some_2 r j) as [x Hx].
    { rewrite Hlen. by eapply lookup_lt_Some. }
    by rewrite Hx.
  - symmetry. apply lookup_ge_None. rewrite Hlen. by apply lookup_ge_None.
Qed.

(** Rows whose ints all stand under [year], and that all hold an int
    there, are stacked as they are. *)
Lemma unify_dtypes_year (cols : list str) rs :
  (∀ r j z, r ∈ rs → r !! j = Some (CInt z) → cols !! j = Some (py "year")) →
  (∀ r j, r ∈ rs → cols !! j = Some (py "year") →
          ∃ y, r !! j = Some (CInt y)) →
  unify_dtypes rs = rs.
Proof.
  intros H1 H2. apply unify_dtypes_id. intros r j z Hr Hj.
  apply float64_ints, Forall_forall. intros c (r' & Hr' & Hc)%elem_of_column.
  destruct (H2 r' j Hr' (H1 _ _ _ Hr Hj)) as [y Hy].
  rewrite Hy in Hc. by injection Hc as <-.
Qed.

Lemma laid_out_year y cols df row :
  year_tagged y df → row ∈ laid_out cols df → year_is y cols row.
Proof.
  intros (_ & Hin & Hd). unfold laid_out.
  destruct (decide (columns df = cols)) as [<-|_]; [apply Hd|].
  unfold reindex. intros (r & -> & Hr)%list_elem_of_fmap.
  apply reindex_row_year; [done|by apply Hd].
Qed.

Lemma laid_out_ints cols df row j z :
  ints_under_year df → row ∈ laid_out cols df → row !! j = Some (CInt z) →
  cols !! j = Some (py "year").
Proof.
  intros Hint. unfold laid_out.
  destruct (decide (columns df = cols)) as [<-|_]; [apply Hint|].
  unfold reindex. intros (r & -> & Hr)%list_elem_of_fmap.
  unfold reindex_row. rewrite list_lookup_fmap.
  destruct (cols !! j) as [c|]; [|done]. simpl.
  destruct (index_of c (columns df)) as [i|] eqn:Hi; [|done].
  destruct (r !! i) as [x|] eqn:Hx; [|done]. simpl. intros [= ->].
  apply index_of_lookup in Hi. rewrite (Hint r i z Hr Hx) in Hi. done.
Qed.

(** The labels of every frame are labels of the stacked frame. *)
Lemma pd_concat_labels dfs out d c :
  pd_concat dfs = Ok out → d ∈ dfs → c ∈ columns d → c ∈ columns out.
Proof.
  intros Hcat Hd Hc. apply pd_concat_Ok in Hcat as [[Hcols _]|(_ & -> & _)].
  - rewrite Forall_forall in Hcols. by rewrite <- (Hcols d Hd).
  - apply elem_of_first_seen. split; [|by intros ?%elem_of_nil].
    apply elem_of_concat. exists (columns d). split; [done|].
    by apply list_elem_of_fmap_2.
Qed.

Lemma pd_concat_year_label ys frames combined :
  Forall2 year_tagged ys frames → pd_concat frames = Ok combined →
  frames ≠ [] → py "year" ∈ columns combined.
Proof.
  intros Htag Hcat Hne.
  destruct Htag as [|y d ys ds (_ & Hin & _) _]; [done|].
  eapply pd_concat_labels; [exact Hcat|by left|done].
Qed.

Lemma pd_concat_laid_out dfs out :
  Forall wf_frame dfs → pd_concat dfs = Ok out →
  rows out = unify_dtypes (concat (laid_out (columns out) <$> dfs)).
Proof.
  intros Hwf Hcat.
  apply pd_concat_Ok in Hcat as [[Hcols ->]|(Hnd & _ & ->)]; do 2 f_equal;
    apply Forall_fmap_ext, Forall_forall; intros d Hd; unfold laid_out.
  - rewrite Forall_forall in Hcols. by rewrite decide_True by by apply Hcols.
  - destruct (decide (columns d = columns out)) as [He|]; [|done].
    unfold reindex. rewrite <- He. rewrite <- (list_fmap_id (rows d)) at 2.
    apply Forall_fmap_ext.
    rewrite Forall_forall in Hwf, Hnd. specialize (Hwf d Hd).
    eapply Forall_impl; [exact Hwf|]. intros r Hr. simpl.
    by rewrite reindex_row_same by by auto.
Qed.

(** The per-year frames are stacked as they are: their ints are the
    years, which every frame has. *)
Lemma pd_concat_lifetables ys frames combined :
  Forall2 year_tagged ys frames → Forall ints_under_year frames →
  pd_concat frames = Ok combined →
  rows combined = concat (laid_out (columns combined) <$> frames).
Proof.
  intros Htag Hint Hcat.
  rewrite (pd_concat_laid_out frames combined); [|
    apply Forall_forall; intros d [i Hi]%list_elem_of_lookup;
    by destruct (Forall2_lookup_r _ _ _ _ _ Htag Hi) as (y & _ & ? & _)|done].
  apply (unify_dtypes_year (columns combined)).
  - intros r j z (rs & Hr & Hrs)%elem_of_concat Hj.
    apply list_elem_of_fmap in Hrs as (d & -> & Hd).
    rewrite Forall_forall in Hint.
    eapply laid_out_ints; [by apply Hint|done|done].
  - intros r j (rs & Hr & Hrs)%elem_of_concat Hj.
    apply list_elem_of_fmap in Hrs as (d & -> & Hd).
    apply list_elem_of_lookup in Hd as [i Hi].
    destruct (Forall2_lookup_r _ _ _ _ _ Htag Hi) as (y & _ & Hy).
    exists y. by eapply laid_out_year.
Qed.


(** C7: when [get_lifetables] returns, it has requested the page of
    each of the years 1900, 1910, ..., 2090, in that order and nothing
    else; the frame it returns is the stack of the twenty frames that
    [get_lifetable] returned for these years, in the same order, each row
    as it was returned, under the combined labels with the empty label
    renamed; and every cell under the label [year] is the year of its
    frame, so one of these twenty years. *)
Theorem decade_stride k out k' :
  get_lifetables k = (Ok out, k') →
  years = [1900; 1910; 1920; 1930; 1940; 1950; 1960; 1970; 1980; 1990;
           2000; 2010; 2020; 2030; 2040; 2050; 2060; 2070; 2080; 2090] ∧
  requested k' = requested k ++ (lifetable_url <$> years) ∧
  ∃ frames combined,
    fetched k years frames ∧
    pd_concat frames = Ok combined ∧
    out = rename (py "") (py "ex") combined ∧
    rows out = concat (laid_out (columns combined) <$> frames) ∧
    py "year" ∈ columns out ∧
    Forall2 (λ y df, ∀ row, row ∈ laid_out (columns combined) df →
                            year_is y (columns out) row)
            years frames ∧
    (∀ row j, row ∈ rows out → columns out !! j = Some (py "year") →
              ∃ y, y ∈ years ∧ row !! j = Some (CInt y)).
Proof.
  intros Hrun.
  apply get_lifetables_Ok_inv in Hrun
    as (frames & combined & k1 & Hframes & -> & Hcat & ->).
  pose proof (lifetables_fetched _ _ _ _ Hframes) as [Hfetched Hints].
  apply lifetables_comprehension in Hframes as [-> Htag].
  pose proof (pd_concat_lifetables _ _ _ Htag Hints Hcat) as Hrows.
  assert (Hcol : ∀ j, columns (rename (py "") (py "ex") combined) !! j
                      = Some (py "year") →
                      columns combined !! j = Some (py "year")).
  { intros j. simpl. rewrite list_lookup_fmap.
    destruct (columns combined !! j) as [c|]; [|done]. simpl.
    unfold relabel. destruct (decide (c = py "")); [|done].
    intros H. by vm_compute in H. }
  assert (Hblocks :
    Forall2 (λ y df, ∀ row, row ∈ laid_out (columns combined) df →
               year_is y (columns (rename (py "") (py "ex") combined)) row)
            years frames).
  { eapply Forall2_impl; [exact Htag|].
    intros y df Hy row Hrow j Hj. by eapply laid_out_year, Hcol. }
  split; [reflexivity|]. split; [reflexivity|].
  exists frames, combined. split_and!; try done.
  - apply columns_rename. exists (py "year"). split; [|done].
    destruct Htag as [|y d ys ds (_ & Hin & _) _]; [done|].
    eapply pd_concat_labels; [exact Hcat|by left|done].
  - intros row j Hrow Hj. simpl in Hrow. rewrite Hrows in Hrow.
    apply elem_of_concat in Hrow as (block & Hrow & Hblock).
    apply list_elem_of_fmap in Hblock as (d & -> & Hd).
    apply list_elem_of_lookup in Hd as [i Hi].
    destruct (Forall2_lookup_r _ _ _ _ _ Hblocks Hi) as (y & Hy & Hb).
    exists y. split; [by eapply list_elem_of_lookup_2|by apply Hb].
Qed.

(** ** The names the notebook binds *)

Lemma keeps_ret {A} (a : A) : keeps (ret a).
Proof. by intros k. Qed.

Lemma keeps_raise {A} e : keeps (@raise A e).
Proof. by intros k. Qed.

Lemma keeps_lift {A} (r : result A) : keeps (lift r).
Proof. by intros k. Qed.

Lemma keeps_lookup_global n : keeps (lookup_global n).
Proof. intros k. unfold lookup_global. by destruct (decide _). Qed.

Lemma keeps_bind_global n : py n ∈ notebook_bound → keeps (bind_global n).
Proof.
  intros Hn k Hk. simpl. apply union_subseteq. split; [|done].
  by apply singleton_subseteq_l.
Qed.

Lemma keeps_get_cwd : keeps get_cwd.
Proof. by intros k. Qed.

Lemma keeps_put_cwd fs : keeps (put_cwd fs).
Proof. by intros k. Qed.

Lemma keeps_log_request url : keeps (log_request url).
Proof. by intros k. Qed.

Lemma keeps_bind {A B} (m : M A) (f : A → M B) :
  keeps m → (∀ a, keeps (f a)) → keeps (bind m f).
Proof.
  intros Hm Hf k Hk. unfold bind. specialize (Hm k Hk).
  destruct (m k) as [[a|e] k1]; [by apply Hf|done].
Qed.

Lemma keeps_comprehension {A B} (f : A → M B) l :
  (∀ a, keeps (f a)) → keeps (comprehension f l).
Proof.
  intros Hf. induction l as [|a l IH]; simpl; [apply keeps_ret|].
  apply keeps_bind; [done|]. intros b.
  apply keeps_bind; [done|]. intros bs. apply keeps_ret.
Qed.

Ltac bound_name := apply (bool_decide_unpack _); by vm_compute.

Ltac keeps_step :=
  lazymatch goal with
  | |- keeps (ret _) => apply keeps_ret
  | |- keeps (raise _) => apply keeps_raise
  | |- keeps (lift _) => apply keeps_lift
  | |- keeps (lookup_global _) => apply keeps_lookup_global
  | |- keeps (bind_global _) => apply keeps_bind_global; bound_name
  | |- keeps get_cwd => apply keeps_get_cwd
  | |- keeps (put_cwd _) => apply keeps_put_cwd
  | |- keeps (log_request _) => apply keeps_log_request
  | |- keeps (comprehension _ _) => apply keeps_comprehension; intros ?
  | |- keeps (bind _ _) => apply keeps_bind; [|intros ?]
  | |- keeps (match ?x with _ => _ end) => destruct x
  end.

Ltac keeps_auto := repeat keeps_step.

Lemma keeps_babynames_loop entries : ∀ acc, keeps (babynames_loop entries acc).
Proof.
  induction entries as [|[name file] rest IH]; intros acc; simpl.
  - apply keeps_ret.
  - apply keeps_bind; [keeps_auto|]. intros _.
    destruct (endswith _ _); [|apply IH]. keeps_auto. apply IH.
Qed.

Lemma keeps_data_cell x : keeps (data_cell x).
Proof. unfold data_cell. keeps_auto. Qed.

Lemma keeps_column_name x : keeps (column_name x).
Proof. unfold column_name. keeps_auto. Qed.

Lemma keeps_parse_lifetable lifetable year :
  keeps (parse_lifetable lifetable year).
Proof.
  unfold parse_lifetable, grid_frame, header_row. keeps_auto.
  - apply keeps_data_cell.
  - apply keeps_column_name.
Qed.

Lemma keeps_scrape_lifetable year : keeps (scrape_lifetable year).
Proof. unfold scrape_lifetable. keeps_auto. Qed.

Lemma keeps_get_lifetables : keeps get_lifetables.
Proof.
  unfold get_lifetables. keeps_auto. unfold get_lifetable. keeps_auto.
  - apply keeps_scrape_lifetable.
  - apply keeps_parse_lifetable.
Qed.

Lemma keeps_run_cell c : keeps (run_cell c).
Proof.
  destruct c; simpl.
  - unfold cell_imports, import. keeps_auto.
  - unfold cell_download. keeps_auto.
  - unfold cell_babynames, iterdir, to_csv, write_file. keeps_auto.
    apply keeps_babynames_loop.
  - unfold cell_cleanup, os_remove, shutil_rmtree. keeps_auto.
  - unfold cell_defs. keeps_auto.
  - unfold cell_lifetables, to_csv, write_file. keeps_auto.
    apply keeps_get_lifetables.
Qed.

Lemma run_cells_bound cs : ∀ k,
  globals k ⊆ notebook_bound → globals (run_cells cs k) ⊆ notebook_bound.
Proof.
  induction cs as [|c cs IH]; intros k Hk; simpl; [done|].
  apply IH. by apply keeps_run_cell.
Qed.

(** ** Life tables: the names that are never bound *)

Lemma years_eq :
  years = [1900; 1910; 1920; 1930; 1940; 1950; 1960; 1970; 1980; 1990;
           2000; 2010; 2020; 2030; 2040; 2050; 2060; 2070; 2080; 2090].
Proof. reflexivity. Qed.

Lemma get_lifetables_unbound k :
  py "requests" ∉ globals k →
  ∃ n, get_lifetables k = (Raise (NameError (py n)), k) ∧
       (py "pd" ∈ globals k → py "get_lifetable" ∈ globals k →
        py "scrape_lifetable" ∈ globals k → n = "requests").
Proof.
  intros Hreq. unfold get_lifetables.
  destruct (decide (py "pd" ∈ globals k)) as [Hpd|Hpd].
  2: { exists "pd".
       by rewrite (bind_Raise _ _ _ _ _ (lookup_global_unbound "pd" k Hpd)). }
  rewrite (bind_Ok _ _ _ _ _ (lookup_global_bound "pd" k Hpd)).
  rewrite years_eq. simpl comprehension.
  destruct (decide (py "get_lifetable" ∈ globals k)) as [Hg|Hg].
  2: { exists "get_lifetable". unfold bind at 1. unfold bind at 1.
       unfold bind at 1.
       by rewrite (lookup_global_unbound "get_lifetable" k Hg). }
  destruct (decide (py "scrape_lifetable" ∈ globals k)) as [Hs|Hs].
  2: { exists "scrape_lifetable". unfold bind at 1. unfold bind at 1.
       unfold bind at 1.
       rewrite (lookup_global_bound "get_lifetable" k Hg).
       unfold get_lifetable, bind at 1.
       by rewrite (lookup_global_unbound "scrape_lifetable" k Hs). }
  exists "requests". split; [|done].
  unfold bind at 1. unfold bind at 1. unfold bind at 1.
  rewrite (lookup_global_bound "get_lifetable" k Hg).
  unfold get_lifetable, bind at 1.
  rewrite (lookup_global_bound "scrape_lifetable" k Hs).
  unfold bind at 1, scrape_lifetable, bind at 1.
  by rewrite (lookup_global_unbound "requests" k Hreq).
Qed.

Lemma cell_lifetables_unbound k :
  py "requests" ∉ globals k →
  ∃ n, cell_lifetables k = (Raise (NameError (py n)), k) ∧
       (py "get_lifetables" ∈ globals k → py "pd" ∈ globals k →
        py "get_lifetable" ∈ globals k →
        py "scrape_lifetable" ∈ globals k → n = "requests").
Proof.
  intros Hreq. unfold cell_lifetables.
  destruct (decide (py "get_lifetables" ∈ globals k)) as [Hg|Hg].
  2: { exists "get_lifetables".
       by rewrite (bind_Raise _ _ _ _ _
                     (lookup_global_unbound "get_lifetables" k Hg)). }
  rewrite (bind_Ok _ _ _ _ _ (lookup_global_bound "get_lifetables" k Hg)).
  destruct (get_lifetables_unbound k Hreq) as (n & Hn & Hwhich).
  exists n. split; [|auto]. by rewrite (bind_Raise _ _ _ _ _ Hn).
Qed.

(** C10: in a kernel that started fresh and has run any cells of the
    notebook in any order, none of [requests], [BeautifulSoup],
    [Extractor], [re] is bound; [get_lifetables] and the cell that
    calls it stop on a [NameError] and leave the kernel as it was, so
    no page is requested and no file written; with the imports and the
    definitions in place the name reported is [requests]. *)
Theorem lifetables_undefined_name cs k0 :
  globals k0 = ∅ →
  let k := run_cells cs k0 in
  ((py "requests" ∉ globals k) ∧ (py "BeautifulSoup" ∉ globals k) ∧
   (py "Extractor" ∉ globals k) ∧ (py "re" ∉ globals k)) ∧
  (∃ n, get_lifetables k = (Raise (NameError (py n)), k) ∧
        (py "pd" ∈ globals k → py "get_lifetable" ∈ globals k →
         py "scrape_lifetable" ∈ globals k → n = "requests")) ∧
  (∃ n, run_cell Lifetables k = (Raise (NameError (py n)), k) ∧
        (py "get_lifetables" ∈ globals k → py "pd" ∈ globals k →
         py "get_lifetable" ∈ globals k →
         py "scrape_lifetable" ∈ globals k → n = "requests")).
Proof.
  intros H0 k.
  assert (Hk : globals k ⊆ notebook_bound).
  { apply run_cells_bound. rewrite H0. apply empty_subseteq. }
  assert (Hnot : ∀ n, py n ∉ notebook_bound → py n ∉ globals k).
  { intros n Hn Hin. by apply Hn, Hk. }
  assert (Hreq : py "requests" ∉ globals k).
  { apply Hnot. apply (bool_decide_unpack _). by vm_compute. }
  split_and!.
  - done.
  - apply Hnot. apply (bool_decide_unpack _). by vm_compute.
  - apply Hnot. apply (bool_decide_unpack _). by vm_compute.
  - apply Hnot. apply (bool_decide_unpack _). by vm_compute.
  - by apply get_lifetables_unbound.
  - by apply cell_lifetables_unbound.
Qed.

(** * Further properties of the cells *)

(** ** The working directory under the cells *)

Lemma keeps_cwd_ret {A} (a : A) : keeps_cwd (ret a).
Proof. by intros k. Qed.

Lemma keeps_cwd_raise {A} e : keeps_cwd (@raise A e).
Proof. by intros k. Qed.

Lemma keeps_cwd_lift {A} (r : result A) : keeps_cwd (lift r).
Proof. by intros k. Qed.

Lemma keeps_cwd_lookup_global n : keeps_cwd (lookup_global n).
Proof. intros k. unfold lookup_global. by destruct (decide _). Qed.

Lemma keeps_cwd_bind_global n : keeps_cwd (bind_global n).
Proof. by intros k. Qed.

Lemma keeps_cwd_get_cwd : keeps_cwd get_cwd.
Proof. by intros k. Qed.

Lemma keeps_cwd_log_request url : keeps_cwd (log_request url).
Proof. by intros k. Qed.

Lemma keeps_cwd_bind {A B} (m : M A) (f : A → M B) :
  keeps_cwd m → (∀ a, keeps_cwd (f a)) → keeps_cwd (bind m f).
Proof.
  intros Hm Hf k. unfold bind. specialize (Hm k).
  destruct (m k) as [[a|e] k1]; simpl in Hm; [|done].
  by rewrite Hf.
Qed.

Lemma keeps_cwd_comprehension {A B} (f : A → M B) l :
  (∀ a, keeps_cwd (f a)) → keeps_cwd (comprehension f l).
Proof.
  intros Hf. induction l as [|a l IH]; simpl; [apply keeps_cwd_ret|].
  apply keeps_cwd_bind; [done|]. intros b.
  apply keeps_cwd_bind; [done|]. intros bs. apply keeps_cwd_ret.
Qed.

Ltac keeps_cwd_step :=
  lazymatch goal with
  | |- keeps_cwd (ret _) => apply keeps_cwd_ret
  | |- keeps_cwd (raise _) => apply keeps_cwd_raise
  | |- keeps_cwd (lift _) => apply keeps_cwd_lift
  | |- keeps_cwd (lookup_global _) => apply keeps_cwd_lookup_global
  | |- keeps_cwd (bind_global _) => apply keeps_cwd_bind_global
  | |- keeps_cwd get_cwd => apply keeps_cwd_get_cwd
  | |- keeps_cwd (log_request _) => apply keeps_cwd_log_request
  | |- keeps_cwd (comprehension _ _) =>
      apply keeps_cwd_comprehension; intros ?
  | |- keeps_cwd (bind _ _) => apply keeps_cwd_bind; [|intros ?]
  | |- keeps_cwd (match ?x with _ => _ end) => destruct x
  end.

Lemma keeps_cwd_iterdir path : keeps_cwd (iterdir path).
Proof. unfold iterdir. repeat keeps_cwd_step. Qed.

Lemma keeps_cwd_babynames_loop entries :
  ∀ acc, keeps_cwd (babynames_loop entries acc).
Proof.
  induction entries as [|[name file] rest IH]; intros acc; simpl.
  - apply keeps_cwd_ret.
  - apply keeps_cwd_bind; [apply keeps_cwd_bind_global|]. intros _.
    destruct (endswith _ _); [|apply IH]. repeat keeps_cwd_step. apply IH.
Qed.

Lemma wrote_or_nothing_bind {A} path c (m : M A) (f : A → M unit) k k0 :
  cwd k0 = cwd k → keeps_cwd m →
  (∀ a k1, cwd k1 = cwd k → wrote_or_nothing path c k (f a k1)) →
  wrote_or_nothing path c k (bind m f k0).
Proof.
  intros H0 Hm Hf. unfold bind. specialize (Hm k0).
  destruct (m k0) as [[a|e] k1]; simpl in Hm.
  - apply Hf. congruence.
  - simpl. congruence.
Qed.

Lemma wrote_or_nothing_write path c text k k0 :
  cwd k0 = cwd k →
  wrote_or_nothing (py path) c k (write_file path c text k0).
Proof.
  intros H0. unfold write_file, bind, get_cwd, put_cwd, raise. simpl.
  rewrite H0. destruct (cwd k !! py path) as [[? ?|?]|]; simpl; eauto.
Qed.

(** ** Baby names *)

Lemma collect_filter entries : collect (filter is_txt entries) = collect entries.
Proof.
  induction entries as [|[name file] rest IH]; [done|].
  simpl collect at 2. destruct (endswith name (py "txt")) eqn:E.
  - rewrite filter_cons_True by (unfold is_txt; cbn [fst]; by rewrite E).
    simpl. by rewrite E, IH.
  - rewrite filter_cons_False; [done|].
    unfold is_txt. cbn [fst]. rewrite E. by intros [].
Qed.

Lemma lookup_with_scratch entries k p :
  p ≠ py "data-us" → cwd (with_scratch entries k) !! p = cwd k !! p.
Proof. intros Hp. unfold with_scratch. simpl. by rewrite lookup_insert_ne. Qed.

Lemma scratch_with_scratch entries k :
  cwd (with_scratch entries k) !! py "data-us" = Some (Dir entries).
Proof. unfold with_scratch. simpl. apply lookup_insert_eq. Qed.

(** X1: in any kernel the cell either returns, having written
    [names.csv.gz] with gzip compression and changed no other path, or
    raises, having changed no path at all. *)
Theorem babynames_writes_output_or_nothing k :
  wrote_or_nothing output_path (Some (py "gzip")) k (cell_babynames k).
Proof.
  unfold cell_babynames.
  apply wrote_or_nothing_bind; [done|apply keeps_cwd_bind_global|].
  intros _ k1 H1.
  apply wrote_or_nothing_bind; [done|apply keeps_cwd_lookup_global|].
  intros _ k2 H2.
  apply wrote_or_nothing_bind; [done|apply keeps_cwd_iterdir|].
  intros entries k3 H3.
  apply wrote_or_nothing_bind; [done|apply keeps_cwd_babynames_loop|].
  intros babynames k4 H4.
  apply wrote_or_nothing_bind; [done|apply keeps_cwd_lookup_global|].
  intros _ k5 H5.
  apply wrote_or_nothing_bind; [done|apply keeps_cwd_lift|].
  intros combined k6 H6.
  apply wrote_or_nothing_bind; [done|apply keeps_cwd_bind_global|].
  intros _ k7 H7.
  unfold to_csv. by apply wrote_or_nothing_write.
Qed.

(** X2: the entries of the scratch directory that are not named
    [...txt] play no part: without them the cell has the same outcome
    and writes the same [names.csv.gz]. *)
Theorem other_files_ignored k entries :
  py "pd" ∈ globals k → py "Path" ∈ globals k →
  cwd k !! py "data-us" = Some (Dir entries) →
  (cell_babynames k).1
  = (cell_babynames (with_scratch (filter is_txt entries) k)).1 ∧
  cwd (cell_babynames k).2 !! output_path
  = cwd (cell_babynames (with_scratch (filter is_txt entries) k)).2
    !! output_path.
Proof.
  intros Hpd HPath Hdir.
  assert (Hout : output_path ≠ py "data-us") by (by vm_compute).
  destruct (cell_babynames_spec k entries Hpd HPath Hdir)
    as (k1 & _ & _ & H1).
  destruct (cell_babynames_spec (with_scratch (filter is_txt entries) k)
              (filter is_txt entries) Hpd HPath
              (scratch_with_scratch _ _)) as (k2 & _ & _ & H2).
  rewrite collect_filter, lookup_with_scratch in H2 by done.
  destruct (collect entries) as [dfs|e].
  2: { destruct H1 as [-> Hc1], H2 as [-> Hc2]. simpl.
       by rewrite Hc1, Hc2, lookup_with_scratch. }
  destruct (pd_concat dfs) as [combined|e].
  2: { destruct H1 as [-> Hc1], H2 as [-> Hc2]. simpl.
       by rewrite Hc1, Hc2, lookup_with_scratch. }
  destruct (cwd k !! output_path) as [[c t|l]|] eqn:Ho;
    destruct H1 as [-> Hc1], H2 as [-> Hc2]; simpl;
    rewrite Hc1, Hc2; split; try done;
    by rewrite ?lookup_insert_eq, ?lookup_with_scratch.
Qed.

(** X3: with no entry named [...txt] in the scratch directory,
    [pd.concat] has nothing to concatenate: the cell raises its
    [ValueError] and writes nothing. *)
Theorem no_yearly_file_raises k entries :
  py "pd" ∈ globals k → py "Path" ∈ globals k →
  cwd k !! py "data-us" = Some (Dir entries) →
  filter is_txt entries = [] →
  ∃ k', cell_babynames k = (Raise ValueError_no_objects, k') ∧
        cwd k' = cwd k.
Proof.
  intros Hpd HPath Hdir Hnone.
  destruct (cell_babynames_spec k entries Hpd HPath Hdir)
    as (k' & _ & _ & H).
  rewrite <- collect_filter, Hnone in H. simpl in H. by exists k'.
Qed.


Lemma collect_Permutation entries entries' :
  entries ≡ₚ entries' →
  ∀ dfs, collect entries = Ok dfs →
         ∃ dfs', collect entries' = Ok dfs' ∧ dfs ≡ₚ dfs'.
Proof.
  induction 1 as [|[n f] l l' _ IH|[n1 f1] [n2 f2] l|l1 l2 l3 _ IH1 _ IH2];
    intros dfs; simpl.
  - intros [= <-]. by exists [].
  - destruct (endswith n (py "txt")); [|apply IH].
    destruct (year_frame n f) as [df|]; [|done].
    destruct (collect l) as [dfs0|]; [|done]. intros [= <-].
    destruct (IH dfs0 eq_refl) as (dfs0' & -> & Hp).
    exists (df :: dfs0'). split; [done|by constructor].
  - destruct (endswith n1 (py "txt")), (endswith n2 (py "txt"));
      try destruct (year_frame n1 f1) as [df1|];
      try destruct (year_frame n2 f2) as [df2|];
      try done;
      destruct (collect l) as [dfs0|]; try done;
      intros [= <-]; eexists; split; try done.
    apply Permutation_swap.
  - intros H1. destruct (IH1 dfs H1) as (dfs2 & H2 & Hp12).
    destruct (IH2 dfs2 H2) as (dfs3 & H3 & Hp23).
    exists dfs3. split; [done|by etrans].
Qed.

Lemma concat_Permutation {A} (l l' : list (list A)) :
  l ≡ₚ l' → concat l ≡ₚ concat l'.
Proof.
  induction 1 as [|x l l' _ IH|x y l|l1 l2 l3 _ IH1 _ IH2]; simpl.
  - done.
  - by rewrite IH.
  - rewrite !app_assoc. by rewrite (Permutation_app_comm y x).
  - by etrans.
Qed.

(** X5: the order in which the directory lists its entries changes the
    order of the rows of the combined data set, not the rows: with the
    same entries listed in another order the cell returns again, and
    the frame it writes has the same labels and a permutation of the
    same rows. *)
Theorem listing_order_immaterial k k1 entries entries' :
  py "pd" ∈ globals k → py "Path" ∈ globals k →
  cwd k !! py "data-us" = Some (Dir entries) →
  entries ≡ₚ entries' →
  cell_babynames k = (Ok tt, k1) →
  ∃ k2 combined combined',
    cell_babynames (with_scratch entries' k) = (Ok tt, k2) ∧
    cwd k1 !! output_path = Some (output_file combined) ∧
    cwd k2 !! output_path = Some (output_file combined') ∧
    columns combined' = columns combined ∧
    rows combined' ≡ₚ rows combined.
Proof.
  intros Hpd HPath Hdir Hperm Hrun.
  assert (Hout : output_path ≠ py "data-us") by (by vm_compute).
  destruct (cell_babynames_spec k entries Hpd HPath Hdir)
    as (k1' & _ & _ & H1).
  destruct (cell_babynames_spec (with_scratch entries' k) entries' Hpd HPath
              (scratch_with_scratch _ _)) as (k2 & _ & _ & H2).
  rewrite lookup_with_scratch in H2 by done.
  destruct (collect entries) as [dfs|e] eqn:Hcol;
    [|destruct H1 as [H1 _]; congruence].
  destruct (collect_Permutation _ _ Hperm dfs Hcol) as (dfs' & Hcol' & Hp).
  rewrite Hcol' in H2.
  pose proof (frame_of_columns _ _ (collect_Ok _ _ Hcol)) as Hc.
  pose proof (frame_of_columns _ _ (collect_Ok _ _ Hcol')) as Hc'.
  destruct dfs as [|d ds].
  { simpl in H1. destruct H1 as [H1 _]. congruence. }
  assert (Hne' : dfs' ≠ []).
  { intros ->. by apply Permutation_length in Hp. }
  rewrite (pd_concat_same_columns names_columns) in H1 by done.
  rewrite (pd_concat_same_columns names_columns) in H2 by done.
  destruct (cwd k !! output_path) as [[c t|l]|] eqn:Ho;
    destruct H1 as [H1 Hc1], H2 as [H2 Hc2]; rewrite Hrun in H1;
    [injection H1 as <-|discriminate|injection H1 as <-];
    (eexists k2, _, _; split_and!;
     [exact H2
     |rewrite Hc1; apply lookup_insert_eq
     |rewrite Hc2; simpl; apply lookup_insert_eq
     |done
     |apply unify_dtypes_Permutation;
      apply (concat_Permutation (rows <$> dfs') (rows <$> d :: ds));
      by rewrite Hp]).
Qed.

(** ** The clean-up cell *)

Lemma cell_cleanup_Ok k c t l :
  py "os" ∈ globals k → py "shutil" ∈ globals k →
  cwd k !! py "names.zip" = Some (File c t) →
  cwd k !! py "data-us" = Some (Dir l) →
  cell_cleanup k
  = (Ok tt, Kernel (globals k)
                   (delete (py "data-us") (delete (py "names.zip") (cwd k)))
                   (requested k)).
Proof.
  intros Hos Hsh Hzip Hdir. unfold cell_cleanup.
  rewrite (bind_Ok _ _ _ _ _ (lookup_global_bound "os" k Hos)).
  unfold bind at 1, os_remove, bind at 1, get_cwd, put_cwd. simpl.
  rewrite Hzip. simpl. set (k1 := Kernel _ _ _).
  rewrite (bind_Ok _ _ _ _ _ (lookup_global_bound "shutil" k1 Hsh)).
  unfold shutil_rmtree, bind, get_cwd, put_cwd. simpl.
  rewrite lookup_delete_ne by (by vm_compute). by rewrite Hdir.
Qed.

Lemma cell_cleanup_missing_archive k :
  py "os" ∈ globals k → cwd k !! py "names.zip" = None →
  cell_cleanup k = (Raise (FileNotFoundError (py "names.zip")), k).
Proof.
  intros Hos Hzip. unfold cell_cleanup.
  rewrite (bind_Ok _ _ _ _ _ (lookup_global_bound "os" k Hos)).
  unfold bind at 1, os_remove, bind at 1, get_cwd, raise. simpl.
  by rewrite Hzip.
Qed.

Lemma cell_cleanup_Ok_inv k k' :
  cell_cleanup k = (Ok tt, k') →
  py "os" ∈ globals k ∧
  k' = Kernel (globals k)
              (delete (py "data-us") (delete (py "names.zip") (cwd k)))
              (requested k).
Proof.
  unfold cell_cleanup. intros H.
  apply bind_Ok_inv in H as ([] & k0 & H0 & H).
  unfold lookup_global in H0. destruct (decide _) as [Hos|]; [|done].
  injection H0 as <-. split; [done|].
  apply bind_Ok_inv in H as ([] & k1 & H1 & H).
  unfold os_remove, bind, get_cwd, put_cwd, raise in H1. simpl in H1.
  destruct (cwd k !! py "names.zip") as [[c t|l]|]; try done.
  injection H1 as <-.
  apply bind_Ok_inv in H as ([] & k2 & H2 & H).
  unfold lookup_global in H2. destruct (decide _); [|done].
  injection H2 as <-.
  unfold shutil_rmtree, bind, get_cwd, put_cwd, raise in H. simpl in H.
  destruct (delete _ (cwd k) !! py "data-us") as [[c' t'|l]|]; try done.
  by injection H as <-.
Qed.

(** X6: the clean-up is not all-or-nothing.  With [names.zip] in place
    but no directory [data-us], the cell raises on [shutil.rmtree] after
    [os.remove] has already deleted the archive. *)
Theorem cleanup_removes_archive_before_failing k c t :
  py "os" ∈ globals k → py "shutil" ∈ globals k →
  cwd k !! py "names.zip" = Some (File c t) →
  (∀ l, cwd k !! py "data-us" ≠ Some (Dir l)) →
  ∃ e,
    cell_cleanup k
    = (Raise e, Kernel (globals k) (delete (py "names.zip") (cwd k))
                       (requested k)) ∧
    (e = FileNotFoundError (py "data-us")
     ∨ e = NotADirectoryError (py "data-us")).
Proof.
  intros Hos Hsh Hzip Hdir. unfold cell_cleanup.
  rewrite (bind_Ok _ _ _ _ _ (lookup_global_bound "os" k Hos)).
  unfold bind at 1, os_remove, bind at 1, get_cwd, put_cwd. simpl.
  rewrite Hzip. simpl. set (k1 := Kernel _ _ _).
  rewrite (bind_Ok _ _ _ _ _ (lookup_global_bound "shutil" k1 Hsh)).
  unfold shutil_rmtree, bind, get_cwd, put_cwd, raise. simpl.
  rewrite lookup_delete_ne by (by vm_compute).
  destruct (cwd k !! py "data-us") as [[c' t'|l]|] eqn:Hd.
  - eexists. split; [reflexivity|by right].
  - by destruct (Hdir l).
  - eexists. split; [reflexivity|by left].
Qed.

(** X7: the clean-up cell cannot be run twice.  Once it has returned,
    running it again raises [FileNotFoundError] for [names.zip] and
    changes nothing. *)
Theorem cleanup_not_repeatable k k' :
  cell_cleanup k = (Ok tt, k') →
  cell_cleanup k' = (Raise (FileNotFoundError (py "names.zip")), k').
Proof.
  intros [Hos ->]%cell_cleanup_Ok_inv.
  apply cell_cleanup_missing_archive; simpl; [done|].
  rewrite lookup_delete_ne by (by vm_compute). apply lookup_delete_eq.
Qed.

(** ** The import cell *)

Lemma cell_imports_Ok k :
  (∀ module, installed module = true) →
  style_available "seaborn-darkgrid" = true →
  cell_imports k
  = (Ok tt,
     Kernel ({[py "ZipFile"]} ∪ ({[py "wget"]} ∪ ({[py "shutil"]} ∪
             ({[py "Path"]} ∪ ({[py "os"]} ∪ ({[py "px"]} ∪
             ({[py "plt"]} ∪ ({[py "quantile"]} ∪ ({[py "pd"]} ∪
             ({[py "np"]} ∪ globals k))))))))))
            (cwd k) (requested k)).
Proof.
  intros Hinst Hstyle. unfold cell_imports, import.
  rewrite !Hinst, Hstyle. reflexivity.
Qed.

Lemma bound_step (n : str) (L g g' : gset str) :
  n ∈ L → g' ⊆ L ∪ g → {[n]} ∪ g' ⊆ L ∪ g.
Proof.
  intros Hn Hg x [Hx|Hx]%elem_of_union; [|by apply Hg].
  apply elem_of_singleton in Hx as ->. apply elem_of_union. by left.
Qed.

Ltac bound_steps :=
  simpl;
  repeat (apply bound_step; [apply (bool_decide_unpack _); by vm_compute|]);
  apply union_subseteq_r.

Lemma cell_imports_style_failure k :
  style_available "seaborn-darkgrid" = false →
  (∃ e, (cell_imports k).1 = Raise e) ∧
  globals (cell_imports k).2
  ⊆ list_to_set (py <$> ["np"; "pd"; "quantile"; "plt"]) ∪ globals k.
Proof.
  intros Hstyle. unfold cell_imports, import, bind, bind_global, ret, raise.
  rewrite Hstyle.
  destruct (installed "numpy"); simpl; [|split; [by eexists|bound_steps]].
  destruct (installed "pandas"); simpl; [|split; [by eexists|bound_steps]].
  destruct (installed "wquantiles"); simpl;
    [|split; [by eexists|bound_steps]].
  destruct (installed "matplotlib.pyplot"); simpl;
    (split; [by eexists|bound_steps]).
Qed.

(** X8: the imports of [os], [Path], [shutil], [wget] and [ZipFile]
    come after the plot style is set.  When [plt.style.use] raises in a
    fresh kernel the import cell stops there, and the download cell, the
    cell that reads the yearly files and the clean-up cell each stop on a
    [NameError]. *)
Theorem style_failure_blocks_cells k0 :
  globals k0 = ∅ → style_available "seaborn-darkgrid" = false →
  (∃ e, (cell_imports k0).1 = Raise e) ∧
  cell_download (cell_imports k0).2
  = (Raise (NameError (py "wget")), (cell_imports k0).2) ∧
  (cell_babynames (cell_imports k0).2).1 = Raise (NameError (py "Path")) ∧
  cell_cleanup (cell_imports k0).2
  = (Raise (NameError (py "os")), (cell_imports k0).2).
Proof.
  intros H0 Hstyle.
  destruct (cell_imports_style_failure k0 Hstyle) as [Hraise Hsub].
  rewrite H0 in Hsub. set (k := (cell_imports k0).2) in *.
  assert (Hnot : ∀ n,
    py n ∉ (list_to_set (py <$> ["np"; "pd"; "quantile"; "plt"]) ∪ ∅
            : gset str) → py n ∉ globals k).
  { intros n Hn Hin. by apply Hn, Hsub. }
  split_and!.
  - done.
  - unfold cell_download.
    apply bind_Raise, lookup_global_unbound, Hnot.
    apply (bool_decide_unpack _). by vm_compute.
  - unfold cell_babynames, bind at 1. simpl.
    unfold bind at 1, lookup_global. rewrite decide_False; [done|]. simpl.
    intros [Hin|Hin]%elem_of_union.
    + apply elem_of_singleton in Hin. by vm_compute in Hin.
    + revert Hin. apply Hnot. apply (bool_decide_unpack _). by vm_compute.
  - unfold cell_cleanup.
    apply bind_Raise, lookup_global_unbound, Hnot.
    apply (bool_decide_unpack _). by vm_compute.
Qed.

(** ** The cells in sequence *)

Ltac in_union :=
  simpl;
  repeat first
    [ by apply elem_of_singleton
    | apply elem_of_union_l; by apply elem_of_singleton
    | apply elem_of_union_r ].

Lemma cell_download_Ok k fs1 archive z fs2 :
  py "wget" ∈ globals k → py "ZipFile" ∈ globals k →
  wget_download (py "https://www.ssa.gov/oact/babynames/names.zip") (cwd k)
  = Ok fs1 →
  fs1 !! py "names.zip" = Some archive → ZipFile_open archive = Ok z →
  extractall z (py "data-us") fs1 = Ok fs2 →
  cell_download k
  = (Ok tt, Kernel ({[py "zip_names"]} ∪ globals k) fs2 (requested k)).
Proof.
  intros Hwget Hzip Hdl Harch Hopen Hext. unfold cell_download.
  rewrite (bind_Ok _ _ _ _ _ (lookup_global_bound "wget" k Hwget)).
  unfold bind at 1, get_cwd. unfold bind at 1, lift. rewrite Hdl.
  unfold bind at 1, put_cwd. set (k1 := Kernel _ _ _).
  rewrite (bind_Ok _ _ _ _ _ (lookup_global_bound "ZipFile" k1 Hzip)).
  rewrite Harch. unfold bind at 1. rewrite Hopen.
  unfold bind at 1, bind_global. simpl. unfold bind at 1. by rewrite Hext.
Qed.

(** X9: the import cell, the download cell, the cell that reads the
    yearly files and the clean-up cell, run in this order in any kernel,
    leave the working directory as the extraction made it, with
    [names.csv.gz] added and [names.zip] and [data-us] removed; the frame
    written stacks the extracted files named [...txt], file after file,
    one row per record with the year of its file. *)
Theorem names_pipeline_net_effect k0 fs1 archive z fs2 c t entries :
  (∀ module, installed module = true) →
  style_available "seaborn-darkgrid" = true →
  wget_download (py "https://www.ssa.gov/oact/babynames/names.zip") (cwd k0)
  = Ok fs1 →
  fs1 !! py "names.zip" = Some archive → ZipFile_open archive = Ok z →
  extractall z (py "data-us") fs1 = Ok fs2 →
  fs2 !! py "names.zip" = Some (File c t) →
  fs2 !! py "data-us" = Some (Dir entries) →
  filter is_txt entries ≠ [] →
  Forall (λ e, (∃ records, read_csv e.1 e.2 = Ok records) ∧
               is_Some (int_literal unicode_decimal (slice 3 7 e.1)))
         (filter is_txt entries) →
  (∀ l, fs2 !! output_path ≠ Some (Dir l)) →
  ∃ combined,
    stacked entries combined ∧
    cwd (run_cells [Imports; Download; Babynames; Cleanup] k0)
    = delete (py "data-us")
        (delete (py "names.zip")
           (<[output_path := output_file combined]> fs2)).
Proof.
  intros Hinst Hstyle Hdl Harch Hopen Hext Hzip Hdir Hne Hall Hout.
  unfold run_cells. simpl foldl.
  rewrite (cell_imports_Ok k0 Hinst Hstyle). cbn [snd].
  set (k1 := Kernel _ (cwd k0) _).
  rewrite (cell_download_Ok k1 fs1 archive z fs2);
    [|in_union|in_union|done..]. cbn [snd].
  set (k2 := Kernel _ fs2 _).
  assert (Hpd : py "pd" ∈ globals k2) by in_union.
  assert (HPath : py "Path" ∈ globals k2) by in_union.
  destruct (cell_babynames_succeeds k2 entries Hpd HPath Hdir Hne Hall Hout)
    as [k3 Hrun].
  destruct (cell_babynames_Ok_inv k2 k3 entries Hpd HPath Hdir Hrun)
    as (dfs & Hdfs & Hg & Hcwd).
  eexists. split; [by apply frame_of_stacked|]. rewrite Hrun. cbn [snd].
  rewrite (cell_cleanup_Ok k3 c t entries).
  - simpl. by rewrite Hcwd.
  - apply Hg. in_union.
  - apply Hg. in_union.
  - rewrite Hcwd, lookup_insert_ne; [done|by vm_compute].
  - rewrite Hcwd, lookup_insert_ne; [done|by vm_compute].
Qed.

(** ** Fetching and parsing one life table *)

Lemma scrape_lifetable_Ok_page y k lifetable k' :
  scrape_lifetable y k = (Ok lifetable, k') →
  ∃ content t,
    requests_get (lifetable_url y) = Ok content ∧
    find_all_table content !! 1%nat = Some t ∧
    extract t = Ok lifetable.
Proof.
  unfold scrape_lifetable. intros H.
  apply bind_Ok_inv in H as ([] & k0 & _ & H).
  apply bind_Ok_inv in H as ([] & k1 & _ & H).
  apply bind_Ok_inv in H as (content & k2 & H2 & H).
  unfold lift in H2. apply (f_equal fst) in H2. cbn [fst] in H2.
  apply bind_Ok_inv in H as ([] & k3 & _ & H).
  destruct (find_all_table content !! 1%nat) as [t|] eqn:Ht; [|done].
  apply bind_Ok_inv in H as ([] & k4 & _ & H).
  unfold lift in H. apply (f_equal fst) in H. cbn [fst] in H.
  by exists content, t.
Qed.

(** X10: when [scrape_lifetable] returns, it has made one request, to
    the page of that year, has changed nothing else, and what it returns
    is what the extractor gives for the second table of that page. *)
Theorem scrape_lifetable_second_table y k lifetable k' :
  scrape_lifetable y k = (Ok lifetable, k') →
  k' = Kernel (globals k) (cwd k) (requested k ++ [lifetable_url y]) ∧
  ∃ content t,
    requests_get (lifetable_url y) = Ok content ∧
    find_all_table content !! 1%nat = Some t ∧
    extract t = Ok lifetable.
Proof.
  intros H. split; [by eapply scrape_lifetable_Ok_inv|].
  by eapply scrape_lifetable_Ok_page.
Qed.

(** X11: a page with fewer than two tables makes [scrape_lifetable]
    raise [IndexError], after the request and whether or not [Extractor]
    is bound. *)
Theorem scrape_lifetable_too_few_tables y k content :
  py "requests" ∈ globals k → py "BeautifulSoup" ∈ globals k →
  requests_get (lifetable_url y) = Ok content →
  (length (find_all_table content) < 2)%nat →
  scrape_lifetable y k
  = (Raise IndexError,
     Kernel (globals k) (cwd k) (requested k ++ [lifetable_url y])).
Proof.
  intros Hreq Hbs Hget Hlen. unfold scrape_lifetable.
  rewrite (bind_Ok _ _ _ _ _ (lookup_global_bound "requests" k Hreq)).
  unfold bind at 1, log_request. unfold bind at 1, lift. rewrite Hget.
  set (k1 := Kernel _ _ _).
  rewrite (bind_Ok _ _ _ _ _ (lookup_global_bound "BeautifulSoup" k1 Hbs)).
  by rewrite (lookup_ge_None_2 _ 1) by lia.
Qed.

Lemma get_lifetable_Ok_parse y k df k' :
  get_lifetable y k = (Ok df, k') →
  ∃ lifetable k1,
    scrape_lifetable y k = (Ok lifetable, k1) ∧
    parse_lifetable_pure lifetable y = Ok df.
Proof.
  unfold get_lifetable. intros H.
  apply bind_Ok_inv in H as ([] & k0 & H0 & H).
  unfold lookup_global in H0. destruct (decide _); [|done].
  injection H0 as <-.
  apply bind_Ok_inv in H as (lifetable & k1 & H1 & H).
  apply bind_Ok_inv in H as ([] & k2 & _ & H).
  apply parse_lifetable_Ok_inv in H. by exists lifetable, k1.
Qed.

(** X12: when [get_lifetable] returns, it has requested the page of its
    year and nothing else, the frame it returns has a column [year], and
    every row has a value for every label, none of them missing, with the
    year under [year]. *)
Theorem get_lifetable_one_page y k df k' :
  get_lifetable y k = (Ok df, k') →
  k' = Kernel (globals k) (cwd k) (requested k ++ [lifetable_url y]) ∧
  py "year" ∈ columns df ∧
  ∀ row, row ∈ rows df →
    length row = length (columns df) ∧
    (∀ j, columns df !! j = Some (py "year") → row !! j = Some (CInt y)) ∧
    (∀ c, c ∈ row → is_null c = false).
Proof.
  intros H. pose proof H as Hparse.
  apply get_lifetable_Ok_inv in H as (-> & Hwf & Hyear & Hrows).
  split; [done|]. split; [done|]. intros row Hrow. split_and!.
  - unfold wf_frame in Hwf. rewrite Forall_forall in Hwf. by apply Hwf.
  - by apply Hrows.
  - apply get_lifetable_Ok_parse in Hparse as (lifetable & k1 & _ & Hp).
    apply parse_lifetable_pure_Ok in Hp as (df0 & cc & _ & _ & -> & _).
    intros c Hc. by eapply dropna_no_null.
Qed.

(** X13: a grid with fewer than two rows has no header row: the parser
    raises [IndexError], in any kernel where [pd] is bound, [re] bound or
    not. *)
Theorem parse_lifetable_short_grid lifetable year k :
  py "pd" ∈ globals k → (length lifetable < 2)%nat →
  parse_lifetable lifetable year k = (Raise IndexError, k).
Proof.
  intros Hpd Hlen. unfold parse_lifetable, grid_frame.
  unfold bind at 1.
  rewrite (bind_Ok _ _ _ _ _ (lookup_global_bound "pd" k Hpd)).
  rewrite drop_ge by lia. simpl. unfold bind at 1, ret.
  unfold bind at 1, header_row.
  by rewrite (lookup_ge_None_2 _ 1) by lia.
Qed.

(** X14: a grid with a header row but no row from index 4 on gives a
    frame without rows. *)
Theorem parse_lifetable_no_data_rows lifetable year k header :
  py "pd" ∈ globals k → py "re" ∈ globals k →
  lifetable !! 1%nat = Some header → (length lifetable ≤ 4)%nat →
  (py "sex" ∉ labels header) →
  drop 8 (labels header) = take 7 (labels header) →
  ∃ out, parse_lifetable lifetable year k = (Ok out, k) ∧ rows out = [].
Proof.
  intros Hpd Hre Hh Hlen Hsex Hcols.
  assert (Hwf : well_formed lifetable).
  { exists header. split_and!; [done|done|]. by rewrite drop_ge by lia. }
  destruct (parse_lifetable_succeeds lifetable year k header Hpd Hre Hwf Hh)
    as [out Hout]; [by left|].
  exists out. split; [done|].
  rewrite parse_lifetable_run in Hout by done. injection Hout as Hout.
  apply parse_lifetable_pure_Ok in Hout as (df & cc & Hdf & Hcc & -> & _).
  apply grid_frame_pure_Ok in Hdf as (h & data & _ & _ & Hd & Hr & _).
  rewrite drop_ge in Hd by lia. apply Forall2_nil_inv_l in Hd as ->.
  apply pd_concat_Ok in Hcc as [[_ Hrows]|(_ & _ & Hrows)];
    unfold finish, dropna, assign; simpl;
    destruct (decide _); simpl; rewrite Hrows; simpl;
    unfold df_male, df_female, assign, reindex, iloc_cols_to, iloc_cols_from;
    repeat destruct (decide _); simpl; by rewrite Hr.
Qed.

Lemma relabel_fresh old new c (cols : list str) :
  c ≠ new → c ∉ cols → c ∉ relabel old new <$> cols.
Proof.
  intros Hnew Hc (c0 & Hc0 & Hin)%list_elem_of_fmap. unfold relabel in Hc0.
  destruct (decide (c0 = old)); congruence.
Qed.

(** X15: on a well-formed grid whose columns 8 onward carry the labels
    of columns 0 to 6, none of them [year], the parser returns the male
    rows followed by the female rows, each row being the seven cells of
    its half, then M or F, then the year, and a row is left out exactly
    when one of the seven cells of its half is missing: column 7 and the
    other half play no part. *)
Theorem parse_lifetable_symmetric lifetable year k header :
  py "pd" ∈ globals k → py "re" ∈ globals k →
  well_formed lifetable → lifetable !! 1%nat = Some header →
  drop 8 (labels header) = take 7 (labels header) →
  (py "year" ∉ take 7 (labels header)) →
  ∃ df,
    grid_frame lifetable k = (Ok df, k) ∧
    parse_lifetable lifetable year k
    = (Ok (Frame
             ((relabel (py "x") (py "age") <$> take 7 (labels header))
              ++ [py "sex"; py "year"])
             (filter complete
                (((λ r, take 7 r ++ [CStr (py "M"); CInt year]) <$> rows df)
                 ++ ((λ r, drop 8 r ++ [CStr (py "F"); CInt year])
                       <$> rows df)))), k).
Proof.
  intros Hpd Hre Hwf Hh Hcols Hyear.
  destruct (well_formed_grid_frame lifetable Hwf)
    as (header' & data & Hh' & Hsex & _ & Hdf).
  rewrite Hh in Hh'. injection Hh' as <-. fold (labels header) in *.
  exists (Frame (labels header) data).
  split; [by rewrite grid_frame_run, Hdf|].
  assert (Hm : py "sex" ∉ take 7 (labels header)).
  { intros Hin. apply Hsex. by eapply subseteq_take. }
  rewrite parse_lifetable_run by done. unfold parse_lifetable_pure.
  rewrite Hdf. unfold df_male, df_female.
  rewrite !assign_fresh by (simpl; by rewrite ?Hcols).
  rewrite (pd_concat_same_columns (take 7 (labels header) ++ [py "sex"]));
    [|done|repeat constructor; simpl; by rewrite ?Hcols].
  rewrite unify_dtypes_no_int.
  2: { pose proof (no_int_grid_frame _ _ Hdf) as Hni.
       unfold no_int in Hni. simpl in Hni.
       apply Forall_concat_2. repeat constructor; simpl;
         apply Forall_fmap, Forall_fmap;
         (eapply Forall_impl; [exact Hni|]); intros r Hr; simpl;
         (apply Forall_app; split; [|by repeat constructor]);
         [by apply Forall_take|by apply Forall_drop]. }
  unfold finish, rename. rewrite assign_fresh.
  2: { simpl. apply relabel_fresh; [by vm_compute|].
       intros [Hin|Hin]%elem_of_app; [done|].
       apply list_elem_of_singleton in Hin. by vm_compute in Hin. }
  unfold dropna, complete. simpl.
  assert (Hlabels :
    (relabel (py "x") (py "age") <$> take 7 (labels header) ++ [py "sex"])
    ++ [py "year"]
    = (relabel (py "x") (py "age") <$> take 7 (labels header))
      ++ [py "sex"; py "year"]).
  { rewrite fmap_app, <- app_assoc. reflexivity. }
  assert (Hrows :
    (λ r, r ++ [CInt year])
      <$> ((λ r, r ++ [CStr (py "M")]) <$> (take 7 <$> data))
          ++ ((λ r, r ++ [CStr (py "F")]) <$> (drop 8 <$> data)) ++ []
    = ((λ r, take 7 r ++ [CStr (py "M"); CInt year]) <$> data)
      ++ ((λ r, drop 8 r ++ [CStr (py "F"); CInt year]) <$> data)).
  { rewrite app_nil_r, fmap_app, <- !list_fmap_compose.
    f_equal; apply list_fmap_ext; intros i r _; simpl;
      by rewrite <- app_assoc. }
  by rewrite Hlabels, Hrows.
Qed.

(** ** The cell that saves the life tables *)

Lemma keeps_cwd_stateless {A} (m : M A) : stateless m → keeps_cwd m.
Proof. intros H k. by rewrite H. Qed.

Lemma keeps_cwd_scrape_lifetable y : keeps_cwd (scrape_lifetable y).
Proof. unfold scrape_lifetable. repeat keeps_cwd_step. Qed.

Lemma keeps_cwd_get_lifetables : keeps_cwd get_lifetables.
Proof.
  unfold get_lifetables. repeat keeps_cwd_step.
  unfold get_lifetable. repeat keeps_cwd_step.
  - apply keeps_cwd_scrape_lifetable.
  - apply keeps_cwd_stateless, stateless_parse_lifetable.
Qed.

(** X16: in any kernel the cell that calls [get_lifetables] either
    returns, having requested the twenty pages in order and written
    [lifetables.csv], uncompressed, from a frame that has a label [year]
    and no empty label, or raises, having written nothing: no table of a
    part of the years is ever saved. *)
Theorem lifetables_cell_outcome k :
  match cell_lifetables k with
  | (Ok _, k') =>
      ∃ out,
        cwd k' = <[py "lifetables.csv" := File None (csv_text out)]> (cwd k) ∧
        requested k' = requested k ++ (lifetable_url <$> years) ∧
        py "year" ∈ columns out ∧ (py "" ∉ columns out)
  | (Raise _, k') => cwd k' = cwd k
  end.
Proof.
  unfold cell_lifetables. unfold bind at 1, lookup_global.
  destruct (decide _); [|done]. unfold bind at 1.
  pose proof (keeps_cwd_get_lifetables k) as Hcwd.
  destruct (get_lifetables k) as [[out|err] k1] eqn:Hrun; [|done].
  simpl in Hcwd. unfold bind at 1, bind_global.
  apply get_lifetables_Ok_inv in Hrun
    as (frames & combined & k1' & Hframes & -> & Hcat & ->).
  apply lifetables_comprehension in Hframes as [-> Htag].
  pose proof (pd_concat_year_label _ _ _ Htag Hcat) as Hyear.
  unfold to_csv, write_file, bind, get_cwd, put_cwd, raise. simpl.
  destruct (cwd k !! py "lifetables.csv") as [[c t|l]|]; simpl; try done;
    (eexists; split_and!; [reflexivity|reflexivity| |]).
  all: try (apply list_elem_of_fmap; exists (py "year"); split; [done|];
            apply Hyear; intros ->; by apply Forall2_nil_inv_r in Htag).
  all: intros (c0 & Hc0 & _)%list_elem_of_fmap; unfold relabel in Hc0;
       destruct (decide (c0 = py "")); [by vm_compute in Hc0|congruence].
Qed.

(** ** File names and page addresses *)

Lemma py_inj s1 s2 : py s1 = py s2 → s1 = s2.
Proof.
  unfold py. intros H.
  assert (Hl : list_ascii_of_string s1 = list_ascii_of_string s2).
  { revert H. generalize (list_ascii_of_string s1) (list_ascii_of_string s2).
    intros l1. induction l1 as [|a l1 IH]; intros [|b l2]; simpl; try done.
    intros [= Hab Hl]. f_equal; [|by apply IH].
    by rewrite <- (ascii_N_embedding a), <- (ascii_N_embedding b), Hab. }
  by rewrite <- (string_of_list_ascii_of_string s1),
             <- (string_of_list_ascii_of_string s2), Hl.
Qed.

(** X17: the pages of two different years have different addresses. *)
Theorem lifetable_url_inj y1 y2 :
  lifetable_url y1 = lifetable_url y2 → y1 = y2.
Proof.
  unfold lifetable_url, str_of_int. intros H.
  apply app_inv_head, app_inv_tail in H.
  by apply py_inj, (inj pretty) in H.
Qed.

Lemma scan_digits_chars s : ∀ acc b v rest,
  scan_digits acc b s = Some (v, rest) →
  ∃ pre, s = pre ++ rest ∧ Forall (λ c, int_char c = true) pre.
Proof.
  induction s as [|c s IH]; intros acc b v rest; simpl.
  - destruct b; [done|]. intros [= <- <-]. by exists [].
  - destruct (is_digit c) eqn:Hd.
    { intros (pre & -> & Hpre)%IH. exists (c :: pre). split; [done|].
      constructor; [|done]. unfold int_char. by rewrite Hd. }
    destruct (c =? 95)%N eqn:Hu.
    { destruct b; [done|].
      intros (pre & -> & Hpre)%IH. exists (c :: pre). split; [done|].
      constructor; [|done]. unfold int_char. rewrite Hu.
      by rewrite !orb_true_r. }
    destruct b; [done|]. intros [= <- <-]. by exists [].
Qed.

Lemma skip_space_chars s :
  ∃ pre, s = pre ++ skip_space s ∧ Forall (λ c, int_char c = true) pre.
Proof.
  induction s as [|c s (pre & Hs & Hpre)]; simpl; [by exists []|].
  destruct (Py_ISSPACE c) eqn:Hc; [|by exists []].
  exists (c :: pre). split; [simpl; by f_equal|].
  constructor; [|done]. unfold int_char. rewrite Hc.
  by rewrite orb_true_r.
Qed.

Lemma parse_sign_chars s :
  ∃ pre, s = pre ++ (parse_sign s).2 ∧ Forall (λ c, int_char c = true) pre.
Proof.
  destruct s as [|c s]; [by exists []|].
  destruct (decide (c = 43%N)) as [->|H43];
    [exists [43%N]; split; [done|by repeat constructor]|].
  destruct (decide (c = 45%N)) as [->|H45];
    [exists [45%N]; split; [done|by repeat constructor]|].
  exists []. split; [|done]. simpl.
  destruct c as [|p]; [done|].
  do 6 (try (destruct p as [p|p|]); try done).
Qed.

Lemma int_literal_chars s z a :
  int_literal unicode_decimal s = Some z →
  mapM (fold_ascii unicode_decimal) s = Some a →
  Forall (λ c, int_char c = true) a.
Proof.
  unfold int_literal. intros H Ha. rewrite Ha in H. simpl in H.
  destruct (skip_space_chars a) as (pre1 & Ha1 & Hpre1).
  destruct (parse_sign_chars (skip_space a)) as (pre2 & Ha2 & Hpre2).
  destruct (parse_sign (skip_space a)) as [neg body]. simpl in Ha2.
  destruct body as [|c body]; [done|].
  destruct (is_digit c); [|done].
  destruct (scan_digits 0 false (c :: body)) as [[v rest]|] eqn:Hscan;
    [|done].
  simpl in H. destruct (forallb Py_ISSPACE rest) eqn:Hrest; [|done].
  apply scan_digits_chars in Hscan as (pre3 & Hbody & Hpre3).
  rewrite Ha1, Ha2, Hbody. repeat apply Forall_app_2; try done.
  apply Forall_forall. intros x Hx.
  rewrite forallb_forall in Hrest. apply list_elem_of_In, Hrest in Hx.
  unfold int_char. rewrite Hx. by rewrite !orb_true_r.
Qed.

(** A string with an ASCII character that is neither a digit, a blank,
    a sign nor an underscore is no integer literal. *)
Lemma int_literal_foreign s c :
  c ∈ s → (c < 128)%N → int_char c = false →
  int_literal unicode_decimal s = None.
Proof.
  intros Hin Hascii Hc.
  destruct (int_literal unicode_decimal s) as [z|] eqn:Hz; [|done].
  exfalso.
  destruct (mapM (fold_ascii unicode_decimal) s) as [a|] eqn:Ha.
  2: { unfold int_literal in Hz. by rewrite Ha in Hz. }
  pose proof (int_literal_chars s z a Hz Ha) as Hall.
  apply mapM_Some in Ha. apply list_elem_of_lookup in Hin as [i Hi].
  destruct (Forall2_lookup_l _ _ _ _ _ Ha Hi) as (c' & Hi' & Hfold).
  unfold fold_ascii in Hfold.
  apply N.ltb_lt in Hascii. rewrite Hascii in Hfold. injection Hfold as <-.
  rewrite Forall_forall in Hall.
  apply list_elem_of_lookup_2, Hall in Hi'. congruence.
Qed.

Lemma short_txt_slice name :
  endswith name (py "txt") = true → (length name < 10)%nat →
  slice 3 7 name = [] ∨ 116%N ∈ slice 3 7 name.
Proof.
  unfold endswith. intros Hend%bool_decide_eq_true Hlen.
  assert (Hname : name = take (length name - 3) name ++ py "txt").
  { transitivity (take (length name - 3) name ++ drop (length name - 3) name);
      [symmetry; apply take_drop|]. f_equal. exact Hend. }
  revert Hname Hlen. generalize (take (length name - 3) name). intros pre ->.
  rewrite length_app. simpl. intros Hlen. unfold slice.
  do 7 (destruct pre as [|? pre];
    [simpl; first [by left | right; repeat constructor]|]).
  simpl in Hlen. lia.
Qed.

(** X18: a file name that ends in [txt] and has fewer than ten
    characters never carries a year: characters 3 to 7 then reach into the
    ending, [int] rejects them, and the cell raises without writing. *)
Theorem short_txt_name_rejected k entries name file :
  py "pd" ∈ globals k → py "Path" ∈ globals k →
  cwd k !! py "data-us" = Some (Dir entries) →
  (name, file) ∈ entries → endswith name (py "txt") = true →
  (length name < 10)%nat →
  int_literal unicode_decimal (slice 3 7 name) = None ∧
  ∃ e k', cell_babynames k = (Raise e, k') ∧ cwd k' = cwd k.
Proof.
  intros Hpd HPath Hdir Hin Htxt Hlen.
  assert (Hint : int_literal unicode_decimal (slice 3 7 name) = None).
  { destruct (short_txt_slice name Htxt Hlen) as [->|Ht]; [done|].
    by apply (int_literal_foreign _ 116%N). }
  split; [done|].
  destruct (collect_bad entries name file Hin Htxt Hint)
    as (e & n & f & Hcol & _).
  destruct (cell_babynames_spec k entries Hpd HPath Hdir)
    as (k' & _ & _ & H).
  rewrite Hcol in H. destruct H as [H Hcwd]. by exists e, k'.
Qed.

End Notebook.

(** * A worked instance

    Floats are integers or NaN, the CSV reader splits lines on commas, and
    every page of the site holds the same small life table as its second
    table.  The statements above are run on it. *)

Definition demo_float : Type := option Z.

Definition demo_isnan (f : demo_float) : bool :=
  match f with None => true | Some _ => false end.

Definition no_unicode_digit (c : N) : option N := None.

Definition demo_py_float (s : str) : option demo_float :=
  if decide (s = py "nan") then Some None
  else Some <$> int_literal no_unicode_digit s.

Definition demo_float_of_int (z : Z) : demo_float := Some z.

Definition demo_repr_float (f : demo_float) : str :=
  match f with Some z => str_of_int z ++ py ".0" | None => py "nan" end.

Fixpoint split_on (sep : N) (s cur : str) : list str :=
  match s with
  | [] => [cur]
  | c :: s' => if (c =? sep)%N then cur :: split_on sep s' []
               else split_on sep s' (cur ++ [c])
  end.

(** The field [births]: digits are an int, digits followed by [.0] a
    float. *)
Definition demo_births (b : str) : option (cell demo_float) :=
  if forallb is_digit b then CInt _ <$> int_literal no_unicode_digit b
  else if bool_decide (drop (length b - 2) b = py ".0")
          && forallb is_digit (take (length b - 2) b)
       then (λ z, CFloat _ (Some z))
              <$> int_literal no_unicode_digit (take (length b - 2) b)
       else None.

Definition demo_record (line : str)
  : result (cell demo_float * cell demo_float * cell demo_float) :=
  match split_on COMMA line [] with
  | [n; s; b] =>
      match demo_births b with
      | Some c => Ok (CStr _ n, CStr _ s, c)
      | None => Raise (LibraryError (py "ParserError"))
      end
  | _ => Raise (LibraryError (py "ParserError"))
  end.

Definition demo_read_csv (name : str) (file : node)
  : result (list (cell demo_float * cell demo_float * cell demo_float)) :=
  match file with
  | File None text =>
      traverse demo_record (filter (λ l, l ≠ []) (split_on LF text []))
  | _ => Raise (LibraryError (py "read_csv"))
  end.

Definition demo_grid : list (list str) :=
  let h := py <$> ["x"; "q x"; "l x"; "d x"; "L x"; "T x"] in
  [ [py "Period life table"];
    h ++ [nbsp; py " "] ++ h ++ [nbsp];
    []; [];
    (py <$> ["0"; "1"; "100,000"; "2"; "3"; "4"; "47"]) ++ [nbsp]
      ++ (py <$> ["0"; "5"; "100,000"; "6"; "7"; "8"; "50"]);
    (py <$> ["1"; "1"; "99,000"; "2"; "3"; "4"]) ++ [nbsp; nbsp]
      ++ (py <$> ["1"; "5"; "99,500"; "6"; "7"; "8"; "51"]);
    replicate 15 nbsp ].

Definition demo_requests_get (url : str) : result str := Ok url.
Definition demo_table : Type := list (list str).
Definition demo_find_all_table (content : str) : list demo_table :=
  [[]; demo_grid].
Definition demo_extract (t : demo_table) : result (list (list str)) := Ok t.

Definition demo_installed (module : string) : bool := true.
Definition demo_style_available (style : string) : bool := true.

Definition demo_entries : list (str * node) :=
  [yob2001; (py "NationalReadMe.pdf", File None []); yob2000].

Definition demo_wget_download (url : str) (fs : gmap str node)
  : result (gmap str node) :=
  Ok (<[py "names.zip" := File None url]> fs).
Definition demo_zipfile : Type := unit.
Definition demo_ZipFile_open (archive : node) : result demo_zipfile := Ok tt.
Definition demo_extractall (z : demo_zipfile) (target : str)
    (fs : gmap str node) : result (gmap str node) :=
  Ok (<[target := Dir demo_entries]> fs).

(** A kernel in which the modules the life-table functions name have been
    imported by hand, after the download and the extraction. *)
Definition demo_kernel : kernel :=
  Kernel
    (list_to_set
       (py <$> ["pd"; "Path"; "os"; "shutil"; "re"; "requests";
                "BeautifulSoup"; "Extractor"; "parse_lifetable";
                "scrape_lifetable"; "get_lifetable"; "get_lifetables"]))
    (<[py "names.zip" := File None []]>
       (<[py "data-us" := Dir demo_entries]> ∅))
    [].

Definition demo_babynames : M unit :=
  cell_babynames demo_float demo_isnan demo_float_of_int
                 demo_repr_float no_unicode_digit
                 demo_read_csv.

Definition demo_written : kernel := (demo_babynames demo_kernel).2.



Definition demo_two_kernel : kernel :=
  Kernel (globals demo_kernel)
         (<[py "data-us" := Dir [yob2001; yob2000]]> (cwd demo_kernel)) [].

Definition demo_get_lifetables : M (DataFrame demo_float) :=
  get_lifetables demo_float demo_isnan demo_py_float demo_float_of_int
                 demo_requests_get
                 demo_table demo_find_all_table demo_extract.

Definition demo_parse_lifetable : M (DataFrame demo_float) :=
  parse_lifetable demo_float demo_isnan demo_py_float demo_float_of_int
      demo_grid 1900.

Definition frame_or_empty {float} (r : result (DataFrame float))
  : DataFrame float :=
  match r with Ok df => df | Raise _ => Frame float [] [] end.

(** The cells of the notebook in the order they are written, up to the
    one that calls [get_lifetables]. *)
Definition demo_run : kernel :=
  run_cells demo_float demo_isnan demo_py_float demo_float_of_int
            demo_repr_float
            no_unicode_digit demo_read_csv demo_requests_get demo_table
            demo_find_all_table demo_extract demo_installed
            demo_style_available demo_wget_download demo_zipfile
            demo_ZipFile_open demo_extractall
            [Imports; Download; Babynames; Cleanup; Defs]
            (Kernel ∅ ∅ []).

Definition demo_run_cell : cell_id → M unit :=
  run_cell demo_float demo_isnan demo_py_float demo_float_of_int demo_repr_float
           no_unicode_digit demo_read_csv demo_requests_get demo_table
           demo_find_all_table demo_extract demo_installed
           demo_style_available demo_wget_download demo_zipfile
           demo_ZipFile_open demo_extractall.

Definition demo_lifetables : DataFrame demo_float :=
  frame_or_empty (demo_get_lifetables demo_kernel).1.

(** A scratch directory without any yearly file. *)
Definition demo_readme_kernel : kernel :=
  with_scratch [(py "NationalReadMe.pdf", File None [])] demo_kernel.

(** A scratch directory with a yearly file whose name is too short to
    carry a year. *)
Definition demo_short_entries : list (str * node) :=
  [yob2000; (py "yob7.txt", File None (py "Ann,F,5"))].

Definition demo_short_kernel : kernel :=
  with_scratch demo_short_entries demo_kernel.

(** The archive is in place, the scratch directory is not. *)
Definition demo_archive_only_kernel : kernel :=
  Kernel (globals demo_kernel) (<[py "names.zip" := File None []]> ∅) [].

Definition demo_cleaned : kernel := (cell_cleanup demo_written).2.

(** A matplotlib without the style the notebook asks for. *)
Definition demo_no_style (style : string) : bool := false.

Definition demo_cell_imports_no_style : M unit :=
  cell_imports demo_installed demo_no_style.

Definition demo_archive : node :=
  File None (py "https://www.ssa.gov/oact/babynames/names.zip").

Definition demo_downloaded : gmap str node :=
  <[py "names.zip" := demo_archive]> ∅.

Definition demo_extracted : gmap str node :=
  <[py "data-us" := Dir demo_entries]> demo_downloaded.

(** A page with a single table. *)
Definition demo_find_one_table (content : str) : list demo_table :=
  [demo_grid].

Definition demo_scrape_lifetable : Z → M (list (list str)) :=
  scrape_lifetable demo_requests_get demo_table demo_find_all_table
                   demo_extract.

Definition demo_get_lifetable : Z → M (DataFrame demo_float) :=
  get_lifetable demo_float demo_isnan demo_py_float demo_float_of_int
                demo_requests_get
                demo_table demo_find_all_table demo_extract.

Definition demo_header : list str :=
  let h := py <$> ["x"; "q x"; "l x"; "d x"; "L x"; "T x"] in
  h ++ [nbsp; py " "] ++ h ++ [nbsp].

#[local] Instance complete_dec {float} (isnan : float → bool) r :
  Decision (complete float isnan r).
Proof. unfold complete. apply _. Defined.

(** What [int] takes for an integer: blanks around, a sign, and single
    underscores between digits are all accepted. *)
Example int_plain : int_literal no_unicode_digit (py "2000") = Some 2000.
Proof. reflexivity. Qed.

Example int_signed : int_literal no_unicode_digit (py "+200") = Some 200.
Proof. reflexivity. Qed.

Example int_blank : int_literal no_unicode_digit (py " 200") = Some 200.
Proof. reflexivity. Qed.

Example int_underscore : int_literal no_unicode_digit (py "2_00") = Some 200.
Proof. reflexivity. Qed.

Example int_letters : int_literal no_unicode_digit (py "ABCD") = None.
Proof. reflexivity. Qed.

Example int_short_name :
  int_literal no_unicode_digit (slice 3 7 (py "yob7txt")) = None.
Proof. reflexivity. Qed.

Example demo_parse_rows :
  (demo_parse_lifetable demo_kernel).1
  = Ok (Frame demo_float
          (py <$> ["age"; "qx"; "lx"; "dx"; "Lx"; "Tx"; ""; "sex"; "year"])
          [ (CFloat _ <$> [Some 0; Some 1; Some 100000; Some 2; Some 3;
                           Some 4; Some 47])
              ++ [CStr _ (py "M"); CInt _ 1900];
            (CFloat _ <$> [Some 0; Some 5; Some 100000; Some 6; Some 7;
                           Some 8; Some 50])
              ++ [CStr _ (py "F"); CInt _ 1900];
            (CFloat _ <$> [Some 1; Some 5; Some 99500; Some 6; Some 7;
                           Some 8; Some 51])
              ++ [CStr _ (py "F"); CInt _ 1900] ]).
Proof. vm_compute. reflexivity. Qed.

(** Births counted as ints in one file and as floats in another are all
    written as floats. *)
Example mixed_births :
  cwd (demo_babynames
         (with_scratch [yob2000;
                        (py "yob2002.txt", File None (py "Ann,F,50.0"))]
                       demo_kernel)).2 !! output_path
  = Some (File (Some (py "gzip"))
               (py "name,sex,births,year" ++ [LF]
                ++ py "Mary,F,100.0,2000" ++ [LF]
                ++ py "Ann,F,50.0,2002" ++ [LF])).
Proof. vm_compute. reflexivity. Qed.

(** Frames with different labels are laid out on the labels in the order
    of their first appearance; a label that a frame lacks is missing in
    its rows, which turns a column of ints into floats. *)
Example concat_label_union :
  pd_concat demo_float demo_float_of_int
    [Frame _ (py <$> ["x"; "b"]) [[CInt _ 1; CStr _ (py "u")]];
     Frame _ (py <$> ["b"; "x"; "c"])
           [[CStr _ (py "v"); CInt _ 2; CFloat _ (Some 3)]];
     Frame _ (py <$> ["c"]) [[CFloat _ (Some 4)]]]
  = Ok (Frame _ (py <$> ["x"; "b"; "c"])
          [[CFloat _ (Some 1); CStr _ (py "u"); CNull _];
           [CFloat _ (Some 2); CStr _ (py "v"); CFloat _ (Some 3)];
           [CNull _; CNull _; CFloat _ (Some 4)]]).
Proof. vm_compute. reflexivity. Qed.

(** A file name whose characters 3 to 7 are a signed literal is read as
    that integer. *)
Example signed_year :
  year_frame demo_float no_unicode_digit demo_read_csv
             (py "yob+200.txt") (File None (py "Ann,F,5"))
  = Ok (Frame demo_float names_columns
          [[CStr _ (py "Ann"); CStr _ (py "F"); CInt _ 5; CInt _ 200]]).
Proof. vm_compute. reflexivity. Qed.

(** With no file named [...txt] in the scratch directory there is nothing
    to concatenate, and nothing is written. *)
Example no_yearly_file :
  demo_babynames
    (Kernel (globals demo_kernel)
            (<[py "data-us" := Dir [(py "NationalReadMe.pdf", File None [])]]>
               ∅) [])
  = (Raise ValueError_no_objects,
     Kernel ({[py "file"]} ∪ ({[py "babynames"]} ∪ globals demo_kernel))
            (<[py "data-us" := Dir [(py "NationalReadMe.pdf", File None [])]]>
               ∅) []).
Proof. vm_compute. reflexivity. Qed.

Ltac by_computation := apply (bool_decide_unpack _); vm_compute; exact I.

Lemma year_column_from_file_name_witness :
  ∃ (combined : DataFrame demo_float) blocks,
    cwd demo_written !! output_path
    = Some (output_file demo_float demo_isnan demo_repr_float combined) ∧
    columns demo_float combined = names_columns ∧
    names_columns !! 3%nat = Some (py "year") ∧
    rows demo_float combined = concat blocks ∧
    Forall2 (λ entry block,
               ∃ records year,
                 demo_read_csv entry.1 entry.2 = Ok records ∧
                 int_literal no_unicode_digit (slice 3 7 entry.1) = Some year ∧
                 Forall2 (λ record row,
                            ∃ n s b,
                              row = [n; s; b; CInt demo_float year] ∧
                              upcast demo_float demo_float_of_int
                                     record.1.1 n ∧
                              upcast demo_float demo_float_of_int
                                     record.1.2 s ∧
                              upcast demo_float demo_float_of_int
                                     record.2 b)
                         records block ∧
                 ∀ row, row ∈ block →
                        row !! 3%nat = Some (CInt demo_float year))
            (filter is_txt demo_entries) blocks.
Proof.
  apply (year_column_from_file_name demo_float demo_isnan demo_float_of_int
           demo_repr_float no_unicode_digit demo_read_csv demo_kernel
           demo_written demo_entries).
  - by_computation.
  - by_computation.
  - vm_compute. reflexivity.
  - vm_compute. reflexivity.
Defined.

Lemma combined_row_count_witness :
  ∃ (combined : DataFrame demo_float) (counts : list nat),
    cwd demo_written !! output_path
    = Some (output_file demo_float demo_isnan demo_repr_float combined) ∧
    Forall2 (λ entry n, ∃ records, demo_read_csv entry.1 entry.2 = Ok records
                                   ∧ n = length records)
            (filter is_txt demo_entries) counts ∧
    nrows demo_float combined = sum_list counts.
Proof.
  apply (combined_row_count demo_float demo_isnan demo_float_of_int
           demo_repr_float
           no_unicode_digit demo_read_csv demo_kernel demo_written
           demo_entries).
  - by_computation.
  - by_computation.
  - vm_compute. reflexivity.
  - vm_compute. reflexivity.
Defined.


Lemma two_file_scenario_witness :
  ∃ k' lines,
    cell_babynames demo_float demo_isnan demo_float_of_int
                   demo_repr_float no_unicode_digit
                   demo_read_csv demo_two_kernel = (Ok tt, k') ∧
    cwd k' !! output_path
    = Some (File (Some (py "gzip"))
                 (py "name,sex,births,year" ++ [LF] ++ concat lines)) ∧
    lines ≡ₚ [py "Mary,F,100,2000" ++ [LF]; py "John,M,50,2001" ++ [LF]].
Proof.
  apply (two_file_scenario demo_float demo_isnan demo_float_of_int
           demo_repr_float
           no_unicode_digit demo_read_csv demo_two_kernel
           [yob2001; yob2000]).
  - by_computation.
  - by_computation.
  - vm_compute. reflexivity.
  - vm_compute. reflexivity.
  - vm_compute. reflexivity.
  - apply Permutation_swap.
  - vm_compute. reflexivity.
Defined.

Lemma cleanup_removes_temporaries_witness :
  ∃ k'',
    cell_cleanup demo_written = (Ok tt, k'') ∧
    cwd k'' !! py "names.zip" = None ∧
    cwd k'' !! py "data-us" = None ∧
    is_Some (cwd demo_written !! output_path) ∧
    cwd k'' !! output_path = cwd demo_written !! output_path ∧
    ∀ p, p ≠ py "names.zip" → p ≠ py "data-us" →
         cwd k'' !! p = cwd demo_written !! p.
Proof.
  apply (cleanup_removes_temporaries demo_float demo_isnan demo_float_of_int
           demo_repr_float
           no_unicode_digit demo_read_csv demo_kernel demo_written
           demo_entries None []).
  - by_computation.
  - by_computation.
  - by_computation.
  - by_computation.
  - vm_compute. reflexivity.
  - vm_compute. reflexivity.
  - vm_compute. reflexivity.
Defined.

Lemma missing_cells_become_null_witness :
  data_cell demo_float demo_py_float nbsp demo_kernel
  = (Ok (CNull demo_float), demo_kernel) ∧
  ∀ row,
    row ∈ rows demo_float (frame_or_empty (demo_parse_lifetable demo_kernel).1) →
    length row
    = length (columns demo_float
                (frame_or_empty (demo_parse_lifetable demo_kernel).1)) ∧
    ∀ c, c ∈ row → is_null demo_float demo_isnan c = false.
Proof.
  destruct (missing_cells_become_null demo_float demo_isnan demo_py_float
              demo_float_of_int
              demo_grid 1900 demo_kernel) as (H1 & _ & H3 & _).
  split; [exact H1|]. apply (H3 _ demo_kernel). vm_compute. reflexivity.
Defined.

Lemma sex_split_witness :
  ∃ df,
    grid_frame demo_float demo_py_float demo_grid demo_kernel
    = (Ok df, demo_kernel) ∧
    df_male demo_float df
    = Frame demo_float (take 7 (columns demo_float df) ++ [py "sex"])
            ((λ r, take 7 r ++ [CStr demo_float (py "M")])
               <$> rows demo_float df) ∧
    df_female demo_float df
    = Frame demo_float (drop 8 (columns demo_float df) ++ [py "sex"])
            ((λ r, drop 8 r ++ [CStr demo_float (py "F")])
               <$> rows demo_float df) ∧
    nrows demo_float (df_male demo_float df)
    = nrows demo_float (df_female demo_float df) ∧
    nrows demo_float (df_male demo_float df) = (length demo_grid - 4)%nat ∧
    demo_parse_lifetable demo_kernel
    = (match pd_concat demo_float demo_float_of_int
               [df_male demo_float df; df_female demo_float df] with
       | Ok cc => Ok (finish demo_float demo_isnan 1900 cc)
       | Raise e => Raise e
       end, demo_kernel).
Proof.
  apply (sex_split demo_float demo_isnan demo_py_float demo_float_of_int
           demo_grid 1900
           demo_kernel).
  - by_computation.
  - by_computation.
  - eexists. split_and!.
    + reflexivity.
    + by_computation.
    + by_computation.
Defined.


Lemma decade_stride_witness :
  years = [1900; 1910; 1920; 1930; 1940; 1950; 1960; 1970; 1980; 1990;
           2000; 2010; 2020; 2030; 2040; 2050; 2060; 2070; 2080; 2090] ∧
  requested (demo_get_lifetables demo_kernel).2
  = requested demo_kernel ++ (lifetable_url <$> years) ∧
  ∃ frames combined,
    fetched demo_float demo_isnan demo_py_float demo_float_of_int
            demo_requests_get demo_table demo_find_all_table demo_extract
            demo_kernel years frames ∧
    pd_concat demo_float demo_float_of_int frames = Ok combined ∧
    demo_lifetables = rename demo_float (py "") (py "ex") combined ∧
    rows demo_float demo_lifetables
    = concat (laid_out demo_float (columns demo_float combined) <$> frames) ∧
    py "year" ∈ columns demo_float demo_lifetables ∧
    Forall2 (λ y df,
               ∀ row, row ∈ laid_out demo_float (columns demo_float combined)
                                     df →
                      year_is demo_float y
                              (columns demo_float demo_lifetables) row)
            years frames ∧
    (∀ row j,
       row ∈ rows demo_float demo_lifetables →
       columns demo_float demo_lifetables !! j = Some (py "year") →
       ∃ y, y ∈ years ∧ row !! j = Some (CInt demo_float y)).
Proof.
  apply (decade_stride demo_float demo_isnan demo_py_float demo_float_of_int
           demo_requests_get demo_table demo_find_all_table demo_extract
           demo_kernel demo_lifetables (demo_get_lifetables demo_kernel).2).
  vm_compute. reflexivity.
Defined.

Lemma lifetables_undefined_name_witness :
  demo_run_cell Lifetables demo_run
  = (Raise (NameError (py "requests")), demo_run) ∧
  (py "re" ∉ globals demo_run) ∧
  cwd demo_run !! py "lifetables.csv" = None.
Proof.
  pose proof (lifetables_undefined_name demo_float demo_isnan demo_py_float
                demo_float_of_int
                demo_repr_float no_unicode_digit demo_read_csv
                demo_requests_get demo_table demo_find_all_table
                demo_extract demo_installed demo_style_available
                demo_wget_download demo_zipfile demo_ZipFile_open
                demo_extractall [Imports; Download; Babynames; Cleanup; Defs]
                (Kernel ∅ ∅ []) eq_refl) as H.
  cbv zeta in H. fold demo_run in H.
  destruct H as ((_ & _ & _ & Hre) & _ & (n & Hn & Hwhich)).
  assert (n = "requests"%string) as ->.
  { apply Hwhich; by_computation. }
  split_and!; [exact Hn | exact Hre | vm_compute; reflexivity].
Defined.

Lemma other_files_ignored_witness :
  (demo_babynames demo_kernel).1
  = (demo_babynames (with_scratch (filter is_txt demo_entries) demo_kernel)).1 ∧
  cwd (demo_babynames demo_kernel).2 !! output_path
  = cwd (demo_babynames
           (with_scratch (filter is_txt demo_entries) demo_kernel)).2
    !! output_path.
Proof.
  apply (other_files_ignored demo_float demo_isnan demo_float_of_int
           demo_repr_float
           no_unicode_digit demo_read_csv demo_kernel demo_entries).
  - by_computation.
  - by_computation.
  - vm_compute. reflexivity.
Defined.

Lemma no_yearly_file_raises_witness :
  ∃ k', demo_babynames demo_readme_kernel = (Raise ValueError_no_objects, k') ∧
        cwd k' = cwd demo_readme_kernel.
Proof.
  apply (no_yearly_file_raises demo_float demo_isnan demo_float_of_int
           demo_repr_float
           no_unicode_digit demo_read_csv demo_readme_kernel
           [(py "NationalReadMe.pdf", File None [])]).
  - by_computation.
  - by_computation.
  - vm_compute. reflexivity.
  - vm_compute. reflexivity.
Defined.


Lemma listing_order_immaterial_witness :
  ∃ k2 combined combined',
    demo_babynames (with_scratch [yob2000; yob2001] demo_two_kernel)
    = (Ok tt, k2) ∧
    cwd (demo_babynames demo_two_kernel).2 !! output_path
    = Some (output_file demo_float demo_isnan demo_repr_float combined) ∧
    cwd k2 !! output_path
    = Some (output_file demo_float demo_isnan demo_repr_float combined') ∧
    columns demo_float combined' = columns demo_float combined ∧
    rows demo_float combined' ≡ₚ rows demo_float combined.
Proof.
  apply (listing_order_immaterial demo_float demo_isnan demo_float_of_int
           demo_repr_float
           no_unicode_digit demo_read_csv demo_two_kernel
           (demo_babynames demo_two_kernel).2 [yob2001; yob2000]
           [yob2000; yob2001]).
  - by_computation.
  - by_computation.
  - vm_compute. reflexivity.
  - apply Permutation_swap.
  - vm_compute. reflexivity.
Defined.

Lemma cleanup_removes_archive_before_failing_witness :
  ∃ e,
    cell_cleanup demo_archive_only_kernel
    = (Raise e,
       Kernel (globals demo_archive_only_kernel)
              (delete (py "names.zip") (cwd demo_archive_only_kernel))
              (requested demo_archive_only_kernel)) ∧
    (e = FileNotFoundError (py "data-us")
     ∨ e = NotADirectoryError (py "data-us")).
Proof.
  apply (cleanup_removes_archive_before_failing demo_archive_only_kernel
           None []).
  - by_computation.
  - by_computation.
  - vm_compute. reflexivity.
  - intros l H. vm_compute in H. discriminate H.
Defined.

Lemma cleanup_not_repeatable_witness :
  cell_cleanup demo_cleaned
  = (Raise (FileNotFoundError (py "names.zip")), demo_cleaned).
Proof.
  apply (cleanup_not_repeatable demo_written demo_cleaned).
  vm_compute. reflexivity.
Defined.

Lemma style_failure_blocks_cells_witness :
  (∃ e, (demo_cell_imports_no_style (Kernel ∅ ∅ [])).1 = Raise e) ∧
  cell_download demo_wget_download demo_zipfile demo_ZipFile_open
                demo_extractall (demo_cell_imports_no_style (Kernel ∅ ∅ [])).2
  = (Raise (NameError (py "wget")),
     (demo_cell_imports_no_style (Kernel ∅ ∅ [])).2) ∧
  (demo_babynames (demo_cell_imports_no_style (Kernel ∅ ∅ [])).2).1
  = Raise (NameError (py "Path")) ∧
  cell_cleanup (demo_cell_imports_no_style (Kernel ∅ ∅ [])).2
  = (Raise (NameError (py "os")),
     (demo_cell_imports_no_style (Kernel ∅ ∅ [])).2).
Proof.
  apply (style_failure_blocks_cells demo_float demo_isnan demo_float_of_int
           demo_repr_float
           no_unicode_digit demo_read_csv demo_installed demo_no_style
           demo_wget_download demo_zipfile demo_ZipFile_open demo_extractall
           (Kernel ∅ ∅ [])).
  - reflexivity.
  - reflexivity.
Defined.

Lemma names_pipeline_net_effect_witness :
  ∃ combined,
    stacked demo_float demo_float_of_int no_unicode_digit demo_read_csv
            demo_entries combined ∧
    cwd (run_cells demo_float demo_isnan demo_py_float demo_float_of_int
                   demo_repr_float no_unicode_digit demo_read_csv
                   demo_requests_get demo_table demo_find_all_table
                   demo_extract demo_installed demo_style_available
                   demo_wget_download demo_zipfile demo_ZipFile_open
                   demo_extractall
                   [Imports; Download; Babynames; Cleanup] (Kernel ∅ ∅ []))
    = delete (py "data-us")
        (delete (py "names.zip")
           (<[output_path :=
                output_file demo_float demo_isnan demo_repr_float combined]>
              demo_extracted)).
Proof.
  apply (names_pipeline_net_effect demo_float demo_isnan demo_py_float
           demo_float_of_int
           demo_repr_float no_unicode_digit demo_read_csv demo_requests_get
           demo_table demo_find_all_table demo_extract demo_installed
           demo_style_available demo_wget_download demo_zipfile
           demo_ZipFile_open demo_extractall (Kernel ∅ ∅ []) demo_downloaded
           demo_archive tt demo_extracted None
           (py "https://www.ssa.gov/oact/babynames/names.zip") demo_entries).
  - intros module. reflexivity.
  - reflexivity.
  - vm_compute. reflexivity.
  - vm_compute. reflexivity.
  - reflexivity.
  - vm_compute. reflexivity.
  - vm_compute. reflexivity.
  - vm_compute. reflexivity.
  - intros H. vm_compute in H. discriminate H.
  - replace (filter is_txt demo_entries) with [yob2001; yob2000]
      by (vm_compute; reflexivity).
    repeat apply Forall_cons_2; try apply Forall_nil_2;
      (split; [eexists; vm_compute; reflexivity | by_computation]).
  - intros l H. vm_compute in H. discriminate H.
Defined.

Lemma scrape_lifetable_second_table_witness :
  (demo_scrape_lifetable 1900 demo_kernel).2
  = Kernel (globals demo_kernel) (cwd demo_kernel)
           (requested demo_kernel ++ [lifetable_url 1900]) ∧
  ∃ content t,
    demo_requests_get (lifetable_url 1900) = Ok content ∧
    demo_find_all_table content !! 1%nat = Some t ∧
    demo_extract t = Ok demo_grid.
Proof.
  apply (scrape_lifetable_second_table demo_requests_get demo_table
           demo_find_all_table demo_extract 1900 demo_kernel demo_grid
           (demo_scrape_lifetable 1900 demo_kernel).2).
  vm_compute. reflexivity.
Defined.

Lemma scrape_lifetable_too_few_tables_witness :
  scrape_lifetable demo_requests_get demo_table demo_find_one_table
                   demo_extract 1900 demo_kernel
  = (Raise IndexError,
     Kernel (globals demo_kernel) (cwd demo_kernel)
            (requested demo_kernel ++ [lifetable_url 1900])).
Proof.
  apply (scrape_lifetable_too_few_tables demo_requests_get demo_table
           demo_find_one_table demo_extract 1900 demo_kernel
           (lifetable_url 1900)).
  - by_computation.
  - by_computation.
  - reflexivity.
  - simpl. lia.
Defined.

Lemma get_lifetable_one_page_witness :
  (demo_get_lifetable 1900 demo_kernel).2
  = Kernel (globals demo_kernel) (cwd demo_kernel)
           (requested demo_kernel ++ [lifetable_url 1900]) ∧
  py "year"
  ∈ columns demo_float (frame_or_empty (demo_get_lifetable 1900 demo_kernel).1) ∧
  ∀ row,
    row ∈ rows demo_float
              (frame_or_empty (demo_get_lifetable 1900 demo_kernel).1) →
    length row
    = length (columns demo_float
                (frame_or_empty (demo_get_lifetable 1900 demo_kernel).1)) ∧
    (∀ j, columns demo_float
            (frame_or_empty (demo_get_lifetable 1900 demo_kernel).1) !! j
          = Some (py "year") →
          row !! j = Some (CInt demo_float 1900)) ∧
    (∀ c, c ∈ row → is_null demo_float demo_isnan c = false).
Proof.
  apply (get_lifetable_one_page demo_float demo_isnan demo_py_float
           demo_float_of_int
           demo_requests_get demo_table demo_find_all_table demo_extract
           1900 demo_kernel
           (frame_or_empty (demo_get_lifetable 1900 demo_kernel).1)
           (demo_get_lifetable 1900 demo_kernel).2).
  vm_compute. reflexivity.
Defined.

Lemma parse_lifetable_short_grid_witness :
  parse_lifetable demo_float demo_isnan demo_py_float demo_float_of_int
                  [[py "Period life table"]] 1900 demo_kernel
  = (Raise IndexError, demo_kernel).
Proof.
  apply (parse_lifetable_short_grid demo_float demo_isnan demo_py_float
           demo_float_of_int
           [[py "Period life table"]] 1900 demo_kernel).
  - by_computation.
  - simpl. lia.
Defined.

Lemma parse_lifetable_no_data_rows_witness :
  ∃ out,
    parse_lifetable demo_float demo_isnan demo_py_float demo_float_of_int
                    (take 4 demo_grid)
                    1900 demo_kernel = (Ok out, demo_kernel) ∧
    rows demo_float out = [].
Proof.
  apply (parse_lifetable_no_data_rows demo_float demo_isnan demo_py_float
           demo_float_of_int
           (take 4 demo_grid) 1900 demo_kernel demo_header).
  - by_computation.
  - by_computation.
  - reflexivity.
  - simpl. lia.
  - by_computation.
  - vm_compute. reflexivity.
Defined.

Lemma parse_lifetable_symmetric_witness :
  ∃ df,
    grid_frame demo_float demo_py_float demo_grid demo_kernel
    = (Ok df, demo_kernel) ∧
    demo_parse_lifetable demo_kernel
    = (Ok (Frame demo_float
             ((relabel (py "x") (py "age") <$> take 7 (labels demo_header))
              ++ [py "sex"; py "year"])
             (filter (complete demo_float demo_isnan)
                (((λ r, take 7 r ++ [CStr demo_float (py "M");
                                     CInt demo_float 1900])
                    <$> rows demo_float df)
                 ++ ((λ r, drop 8 r ++ [CStr demo_float (py "F");
                                        CInt demo_float 1900])
                       <$> rows demo_float df)))), demo_kernel).
Proof.
  apply (parse_lifetable_symmetric demo_float demo_isnan demo_py_float
           demo_float_of_int
           demo_grid 1900 demo_kernel demo_header).
  - by_computation.
  - by_computation.
  - eexists. split_and!.
    + reflexivity.
    + by_computation.
    + by_computation.
  - reflexivity.
  - vm_compute. reflexivity.
  - by_computation.
Defined.

Lemma lifetable_url_inj_witness : 1900 = 1900.
Proof. apply (lifetable_url_inj 1900 1900). reflexivity. Defined.

Lemma short_txt_name_rejected_witness :
  int_literal no_unicode_digit (slice 3 7 (py "yob7.txt")) = None ∧
  ∃ e k', demo_babynames demo_short_kernel = (Raise e, k') ∧
          cwd k' = cwd demo_short_kernel.
Proof.
  apply (short_txt_name_rejected demo_float demo_isnan demo_float_of_int
           demo_repr_float
           no_unicode_digit demo_read_csv demo_short_kernel
           demo_short_entries (py "yob7.txt") (File None (py "Ann,F,5"))).
  - by_computation.
  - by_computation.
  - vm_compute. reflexivity.
  - apply list_elem_of_further, list_elem_of_here.
  - vm_compute. reflexivity.
  - simpl. lia.
Defined.
